(** * Verification of the dataset repartitioning script [create_new_split.py]

    The development embeds [split_data] (and the library calls it makes)
    and proves properties of the matching step, the ratio check, the
    two-stage split and the relocation of the files. *)

From Stdlib Require Import ZArith Lia Ascii.
From Stdlib Require Import Floats.SpecFloat.
From stdpp Require Import base option list sorting gmap strings.

Local Open Scope Z_scope.

(** ** Python floats

    A Python [float] is an IEEE 754 binary64 number.  [spec_float] with
    53 bits of precision and [emax = 1024] is exactly that format; its
    operations round to nearest, ties to even, as the hardware does. *)
Module PyFloat.

Definition prec : Z := 53.
Definition emax : Z := 1024.

Abbreviation float := spec_float.

(** [float(z)] for a Python [int]. *)
Definition of_int (z : Z) : float := binary_normalize prec emax z 0 false.

(** The literal written [n/10^k] in the source text, e.g. [lit 7 10] for
    [0.7]: the double nearest to the quotient, which is what the correctly
    rounded division of two exactly representable integers returns. *)
Definition lit (n d : Z) : float := SFdiv prec emax (of_int n) (of_int d).

Definition add : float -> float -> float := SFadd prec emax.
Definition mul : float -> float -> float := SFmul prec emax.
Definition eqb : float -> float -> bool := SFeqb.
Definition leb : float -> float -> bool := SFleb.

Definition is_zero (x : float) : bool :=
  match x with S754_zero _ => true | _ => false end.

(** [x / y]; Python raises [ZeroDivisionError] on a zero divisor, which
    is [None] here. *)
Definition div (x y : float) : option float :=
  if is_zero y then None else Some (SFdiv prec emax x y).

(** [math.ceil]; [None] where Python raises (NaN and the infinities). *)
Definition ceil (x : float) : option Z :=
  match x with
  | S754_zero _ => Some 0
  | S754_finite s m e =>
      let v := if s then Z.neg m else Z.pos m in
      Some (if 0 <=? e then v * 2 ^ e else - ((- v) / 2 ^ (- e)))
  | _ => None
  end.

End PyFloat.

Abbreviation float := spec_float.

(** ** Exceptions and results *)

Inductive exn : Set :=
  | AssertionError
  | ValueError
  | ZeroDivisionError
  | IndexError
  | FileNotFoundError.

Inductive result (A : Type) : Type :=
  | Ok (a : A)
  | Raise (e : exn).
Arguments Ok {A} a.
Arguments Raise {A} e.

Definition rbind {A B} (r : result A) (k : A -> result B) : result B :=
  match r with
  | Ok a => k a
  | Raise e => Raise e
  end.

Definition of_option {A} (o : option A) (e : exn) : result A :=
  match o with
  | Some a => Ok a
  | None => Raise e
  end.

(** ** The file system

    A directory is the list of the names it holds, in the order in which
    [os.listdir] reports them (an order the operating system chooses).  The
    file system maps the path of a directory to that list. *)
Abbreviation filesystem := (gmap string (list string)).

(** Computations that read and change the file system and may raise.  The
    file system is kept when an exception is raised: what was moved before
    the failure stays moved. *)
Definition M (A : Type) : Type := filesystem -> result A * filesystem.

Definition ret {A} (a : A) : M A := fun fs => (Ok a, fs).
Definition raise {A} (e : exn) : M A := fun fs => (Raise e, fs).
Definition bind {A B} (m : M A) (k : A -> M B) : M B :=
  fun fs =>
    match m fs with
    | (Ok a, fs') => k a fs'
    | (Raise e, fs') => (Raise e, fs')
    end.
Definition lift {A} (r : result A) : M A := fun fs => (r, fs).

Declare Scope py_scope.
Delimit Scope py_scope with py.
Notation "x <- m ;; k" := (bind m (fun x => k))
  (at level 100, m at next level, right associativity) : py_scope.
Notation "m ;;; k" := (bind m (fun _ => k))
  (at level 100, right associativity) : py_scope.

(** [os.makedirs(p, exist_ok=True)] *)
Definition makedirs (p : string) : M unit :=
  fun fs =>
    match fs !! p with
    | Some _ => (Ok (), fs)
    | None => (Ok (), <[p := []]> fs)
    end.

(** [os.listdir(p)] *)
Definition listdir (p : string) : M (list string) :=
  fun fs =>
    match fs !! p with
    | Some l => (Ok l, fs)
    | None => (Raise FileNotFoundError, fs)
    end.

(** [shutil.move(os.path.join(source_dir, fname),
                 os.path.join(target_dir, fname))]: the entry leaves the
    source directory and enters the target directory, where it replaces an
    entry of the same name.  A missing source file, or a missing target
    directory, raises [FileNotFoundError]. *)
Definition move (fname source_dir target_dir : string) : M unit :=
  fun fs =>
    match fs !! source_dir with
    | Some l =>
        if decide (fname ∈ l) then
          let fs1 := <[source_dir := filter (fun g => g ≠ fname) l]> fs in
          match fs1 !! target_dir with
          | Some d =>
              (Ok (), <[target_dir := filter (fun g => g ≠ fname) d ++ [fname]]> fs1)
          | None => (Raise FileNotFoundError, fs)
          end
        else (Raise FileNotFoundError, fs)
    | None => (Raise FileNotFoundError, fs)
    end.

(** ** [os.path] *)

Definition dot : ascii := "."%char.

(** [p.rfind(c)] *)
Fixpoint rfind (c : ascii) (p : string) : option nat :=
  match p with
  | EmptyString => None
  | String a p' =>
      match rfind c p' with
      | Some i => Some (S i)
      | None => if Ascii.eqb a c then Some 0%nat else None
      end
  end.

Fixpoint all_dots (p : string) : bool :=
  match p with
  | EmptyString => true
  | String a p' => Ascii.eqb a dot && all_dots p'
  end.

Definition str_take (n : nat) (p : string) : string := String.substring 0 n p.
Definition str_drop (n : nat) (p : string) : string :=
  String.substring n (String.length p - n) p.

(** [os.path.splitext] on a file name.  The names [os.listdir] returns hold
    no separator, so the search for the last separator finds none and the
    scan for a character other than a dot starts at index 0: the name is
    cut at its last dot unless only dots precede it. *)
Definition splitext (p : string) : string * string :=
  match rfind dot p with
  | Some dotIndex =>
      if all_dots (str_take dotIndex p) then (p, "")
      else (str_take dotIndex p, str_drop dotIndex p)
  | None => (p, "")
  end.

Definition starts_with_sep (p : string) : bool :=
  match p with
  | String a _ => Ascii.eqb a "/"
  | EmptyString => false
  end.

Fixpoint ends_with_sep (p : string) : bool :=
  match p with
  | EmptyString => false
  | String a EmptyString => Ascii.eqb a "/"
  | String _ p' => ends_with_sep p'
  end.

(** [os.path.join(a, b)] *)
Definition path_join (a b : string) : string :=
  if starts_with_sep b then b
  else if String.eqb a "" || ends_with_sep a then a +:+ b
  else a +:+ "/" +:+ b.

(** [os.path.join(a, b, c)] *)
Definition path_join3 (a b c : string) : string := path_join (path_join a b) c.

(** ** [sorted] on a list of strings

    Python compares strings by code point, which on the bytes of a name is
    the lexicographic order [String.le].  The sorted permutation of a list
    under a total order is unique, so any sorting function stands for
    [sorted]. *)
Definition sorted (l : list string) : list string := merge_sort String.le l.

(** ** Iteration *)

(** [for x in l: body(x)] *)
Fixpoint for_each {A} (l : list A) (body : A -> M unit) : M unit :=
  match l with
  | [] => ret ()
  | x :: l' => (body x ;;; for_each l' body)%py
  end.

(** ** [sklearn.model_selection.train_test_split]

    The library is called with two lists, a float [test_size] and
    [random_state=42].  Its shuffle is the one source of randomness: a fresh
    generator seeded with 42 permutes [range(n_samples)].  The generator is
    not part of the repository; the development is parametric in the
    function [permutation] that maps [n] to the permuted index list, and
    assumes of it only that it is a permutation of the indices. *)

Record split_result (A B : Type) : Type := SplitResult {
  X_train : list A;
  X_test : list A;
  y_train : list B;
  y_test : list B
}.
Arguments SplitResult {A B} _ _ _ _.
Arguments X_train {A B} _.
Arguments X_test {A B} _.
Arguments y_train {A B} _.
Arguments y_test {A B} _.

(** The six lists of file names [split_data] computes before it moves
    anything. *)
Record assignment : Type := Assignment {
  train_images : list string;
  train_labels : list string;
  val_images : list string;
  val_labels : list string;
  test_images : list string;
  test_labels : list string
}.

(** [_validate_shuffle_split] for a float [test_size] and no [train_size]:
    the fraction must lie strictly between 0 and 1, the test part takes
    [ceil (test_size * n_samples)] samples, the train part the rest, and an
    empty train part is refused. *)
Definition validate_shuffle_split (n_samples : nat) (test_size : float)
  : result (Z * Z) :=
  if PyFloat.leb test_size (PyFloat.of_int 0)
     || PyFloat.leb (PyFloat.of_int 1) test_size
  then Raise ValueError
  else
    rbind (of_option
             (PyFloat.ceil (PyFloat.mul test_size (PyFloat.of_int (Z.of_nat n_samples))))
             ValueError)
      (fun n_test =>
         let n_train := Z.of_nat n_samples - n_test in
         if n_train =? 0 then Raise ValueError else Ok (n_train, n_test)).

(** The same check as [ShuffleSplit] repeats it on the integer sizes. *)
Definition validate_sizes (n_samples : nat) (n_train n_test : Z)
  : result (nat * nat) :=
  if (Z.of_nat n_samples <=? n_test) || (n_test <=? 0) then Raise ValueError
  else if (Z.of_nat n_samples <=? n_train) || (n_train <=? 0) then Raise ValueError
  else if Z.of_nat n_samples <? n_train + n_test then Raise ValueError
  else Ok (Z.to_nat n_train, Z.to_nat n_test).

(** [[a[idx] for idx in indices]] *)
Definition safe_indexing {A} (a : list A) (indices : list nat) : result (list A) :=
  of_option (mapM (fun idx => a !! idx) indices) IndexError.

Section Split.

Variable permutation : nat -> list nat.

(** [ShuffleSplit(test_size=n_test, train_size=n_train,
    random_state=42).split]: the first [n_test] shuffled indices are the
    test indices, the next [n_train] the train indices. *)
Definition shuffle_split (n_samples : nat) (n_train n_test : Z)
  : result (list nat * list nat) :=
  rbind (validate_sizes n_samples n_train n_test)
    (fun '(n_train, n_test) =>
       let p := permutation n_samples in
       let ind_test := take n_test p in
       let ind_train := take n_train (drop n_test p) in
       Ok (ind_train, ind_test)).

Definition train_test_split {A B} (X : list A) (y : list B) (test_size : float)
  : result (split_result A B) :=
  if negb (length X =? length y)%nat then Raise ValueError
  else
    let n_samples := length X in
    rbind (validate_shuffle_split n_samples test_size) (fun '(n_train, n_test) =>
    rbind (shuffle_split n_samples n_train n_test) (fun '(train, test) =>
    rbind (safe_indexing X train) (fun X_train =>
    rbind (safe_indexing X test) (fun X_test =>
    rbind (safe_indexing y train) (fun y_train =>
    rbind (safe_indexing y test) (fun y_test =>
    Ok (SplitResult X_train X_test y_train y_test))))))).

(** ** [split_data] *)

(** [[os.path.splitext(fname)[0] for fname in files]] *)
Definition base_names (files : list string) : list string :=
  (fun fname => (splitext fname).1) <$> files.

(** The comprehension that builds [matched_files]. *)
Definition matched_files (image_files label_files : list string)
  : list (string * string) :=
  let image_base_names := base_names image_files in
  let label_base_names := base_names label_files in
  omap (fun i =>
          match image_files !! i, image_base_names !! i with
          | Some image, Some base =>
              if decide (base ∈ label_base_names)
              then Some (image, base +:+ ".txt")
              else None
          | _, _ => None
          end)
       (seq 0 (length image_files)).

(** The two calls of [train_test_split]. *)
Definition split_filenames (image_files label_files : list string)
    (val_ratio test_ratio : float) : result assignment :=
  rbind (train_test_split image_files label_files
           (PyFloat.add val_ratio test_ratio)) (fun s1 =>
  rbind (of_option (PyFloat.div test_ratio (PyFloat.add val_ratio test_ratio))
           ZeroDivisionError) (fun test_size =>
  rbind (train_test_split (X_test s1) (y_test s1) test_size) (fun s2 =>
  Ok {| train_images := X_train s1; train_labels := y_train s1;
        val_images := X_train s2; val_labels := y_train s2;
        test_images := X_test s2; test_labels := y_test s2 |}))).

Definition move_files (file_list : list string) (source_dir target_dir : string)
  : M unit :=
  for_each file_list (fun fname => move fname source_dir target_dir).

Definition splits : list string := ["train"; "valid"; "test"].

(** The relocation of the six lists, in the order of the source. *)
Definition relocate (image_dir label_dir output_dir : string) (a : assignment)
  : M unit :=
  (move_files (train_images a) image_dir (path_join3 output_dir "train" "images") ;;;
   move_files (train_labels a) label_dir (path_join3 output_dir "train" "labels") ;;;
   move_files (val_images a) image_dir (path_join3 output_dir "valid" "images") ;;;
   move_files (val_labels a) label_dir (path_join3 output_dir "valid" "labels") ;;;
   move_files (test_images a) image_dir (path_join3 output_dir "test" "images") ;;;
   move_files (test_labels a) label_dir (path_join3 output_dir "test" "labels"))%py.

(** Listing, matching and splitting: the part of [split_data] that decides
    which file goes where.  It reads the two pools and changes nothing. *)
Definition assign_files (image_dir label_dir : string)
    (val_ratio test_ratio : float) : M assignment :=
  (image_listing <- listdir image_dir ;;
   label_listing <- listdir label_dir ;;
   let image_files := sorted image_listing in
   let label_files := sorted label_listing in
   let matched := matched_files image_files label_files in
   let image_files := matched.*1 in
   let label_files := matched.*2 in
   lift (split_filenames image_files label_files val_ratio test_ratio))%py.

(** The loop that creates the output directories. *)
Definition make_output_dirs (output_dir : string) : M unit :=
  for_each splits (fun split =>
    makedirs (path_join3 output_dir split "images") ;;;
    makedirs (path_join3 output_dir split "labels"))%py.

(** [split_data]; the value returned is the triple of counts the function
    prints when it is done. *)
Definition split_data (image_dir label_dir output_dir : string)
    (train_ratio val_ratio test_ratio : float) : M (nat * nat * nat) :=
  if negb (PyFloat.eqb (PyFloat.add (PyFloat.add train_ratio val_ratio) test_ratio)
             (PyFloat.of_int 1))
  then raise AssertionError
  else
    (make_output_dirs output_dir ;;;
     a <- assign_files image_dir label_dir val_ratio test_ratio ;;
     relocate image_dir label_dir output_dir a ;;;
     ret (length (train_images a), length (val_images a), length (test_images a)))%py.

End Split.

(** The default ratios of [split_data]: 0.6, 0.2 and 0.2. *)
Definition default_train_ratio : float := PyFloat.lit 6 10.
Definition default_val_ratio : float := PyFloat.lit 2 10.
Definition default_test_ratio : float := PyFloat.lit 2 10.

(** ** Vocabulary of the statements *)

(** File [g] is in directory [p]. *)
Definition in_dir (fs : filesystem) (p g : string) : Prop :=
  exists l, fs !! p = Some l /\ g ∈ l.

Definition is_dir (fs : filesystem) (p : string) : Prop := is_Some (fs !! p).

(** The six output directories, and all eight directories of a run. *)
Definition output_dirs (output_dir : string) : list string :=
  [path_join3 output_dir "train" "images"; path_join3 output_dir "train" "labels";
   path_join3 output_dir "valid" "images"; path_join3 output_dir "valid" "labels";
   path_join3 output_dir "test" "images"; path_join3 output_dir "test" "labels"].

Definition run_dirs (image_dir label_dir output_dir : string) : list string :=
  image_dir :: label_dir :: output_dirs output_dir.

(** The shuffle returns a permutation of the indices. *)
Definition shuffles (permutation : nat -> list nat) : Prop :=
  forall n, permutation n ≡ₚ seq 0 n.

(** The matched pairs of an assignment, bucket by bucket. *)
Definition train_pairs (a : assignment) : list (string * string) :=
  zip (train_images a) (train_labels a).
Definition val_pairs (a : assignment) : list (string * string) :=
  zip (val_images a) (val_labels a).
Definition test_pairs (a : assignment) : list (string * string) :=
  zip (test_images a) (test_labels a).

(** Every placement [(split, image, label)] an assignment asks for. *)
Definition placements (a : assignment) : list (string * string * string) :=
  ((fun '(i, l) => ("train", i, l)) <$> train_pairs a)
  ++ ((fun '(i, l) => ("valid", i, l)) <$> val_pairs a)
  ++ ((fun '(i, l) => ("test", i, l)) <$> test_pairs a).

(** What [move_files l src dst] does to the file system when it returns:
    the directories stay the same, [src] loses the names of [l], [dst]
    gains them, and every other directory is untouched. *)
Definition moved (l : list string) (src dst : string) (fs fs' : filesystem) : Prop :=
  (forall p, is_dir fs' p <-> is_dir fs p) /\
  (forall g, in_dir fs' src g <-> in_dir fs src g /\ g ∉ l) /\
  (forall g, in_dir fs' dst g <-> in_dir fs dst g \/ g ∈ l) /\
  (forall p, p ≠ src -> p ≠ dst -> fs' !! p = fs !! p).

(** * Properties of the file-system operations *)

Lemma bind_ok_inv {A B} (m : M A) (k : A -> M B) fs b fs' :
  bind m k fs = (Ok b, fs') ->
  exists a fs1, m fs = (Ok a, fs1) /\ k a fs1 = (Ok b, fs').
Proof.
  unfold bind. destruct (m fs) as [[a|e] fs1]; [eauto | discriminate].
Qed.

Lemma bind_raise_inv {A B} (m : M A) (k : A -> M B) fs e fs' :
  bind m k fs = (Raise e, fs') ->
  m fs = (Raise e, fs') \/
  exists a fs1, m fs = (Ok a, fs1) /\ k a fs1 = (Raise e, fs').
Proof.
  unfold bind. destruct (m fs) as [[a|e0] fs1]; [eauto |].
  intros [= -> ->]. by left.
Qed.

Lemma bind_ok {A B} (m : M A) (k : A -> M B) fs a fs1 :
  m fs = (Ok a, fs1) -> bind m k fs = k a fs1.
Proof. unfold bind. by intros ->. Qed.

Lemma in_dir_lookup fs p l g : fs !! p = Some l -> in_dir fs p g <-> g ∈ l.
Proof.
  intros Hp. unfold in_dir. split; [|eauto].
  intros (l' & Hl' & Hg). congruence.
Qed.

Lemma in_dir_frame (fs fs' : filesystem) p g :
  fs' !! p = fs !! p -> in_dir fs' p g <-> in_dir fs p g.
Proof. unfold in_dir. by intros ->. Qed.

Lemma in_dir_is_dir fs p g : in_dir fs p g -> is_dir fs p.
Proof. intros (l & Hl & _). by exists l. Qed.

Lemma move_ok_inv fname src dst (fs : filesystem) u fs' :
  src ≠ dst ->
  move fname src dst fs = (Ok u, fs') ->
  exists ls ld,
    fs !! src = Some ls /\ fname ∈ ls /\ fs !! dst = Some ld /\
    fs' = <[dst := filter (fun g => g ≠ fname) ld ++ [fname]]>
            (<[src := filter (fun g => g ≠ fname) ls]> fs).
Proof.
  intros Hne. unfold move.
  destruct (fs !! src) as [ls|] eqn:Hs; [|discriminate].
  destruct (decide (fname ∈ ls)) as [Hin|]; [|discriminate].
  rewrite lookup_insert_ne by done.
  destruct (fs !! dst) as [ld|] eqn:Hd; [|discriminate].
  intros [= <-]. by exists ls, ld.
Qed.

Lemma move_ok fname src dst (fs : filesystem) :
  src ≠ dst -> in_dir fs src fname -> is_dir fs dst ->
  exists fs', move fname src dst fs = (Ok (), fs').
Proof.
  intros Hne (ls & Hs & Hin) [ld Hd]. unfold move. rewrite Hs.
  rewrite decide_True by done. rewrite lookup_insert_ne by done.
  rewrite Hd. eauto.
Qed.

Lemma move_raise fname src dst (fs : filesystem) e fs' :
  move fname src dst fs = (Raise e, fs') -> e = FileNotFoundError /\ fs' = fs.
Proof.
  unfold move. destruct (fs !! src) as [ls|]; [|by intros [= <- <-]].
  destruct (decide (fname ∈ ls)); [|by intros [= <- <-]].
  destruct (_ !! dst); [discriminate | by intros [= <- <-]].
Qed.

Lemma move_moved fname src dst (fs : filesystem) u fs' :
  src ≠ dst ->
  move fname src dst fs = (Ok u, fs') ->
  in_dir fs src fname /\ is_dir fs dst /\ moved [fname] src dst fs fs'.
Proof.
  intros Hne Hmv.
  destruct (move_ok_inv _ _ _ _ _ _ Hne Hmv) as (ls & ld & Hs & Hin & Hd & ->).
  split; [by exists ls|]. split; [by exists ld|].
  unfold moved. split_and!.
  - intros p. unfold is_dir. destruct (decide (p = dst)) as [->|Hp].
    { rewrite lookup_insert_eq, Hd. split; eauto. }
    rewrite lookup_insert_ne by done.
    destruct (decide (p = src)) as [->|Hp'].
    { rewrite lookup_insert_eq, Hs. split; eauto. }
    by rewrite lookup_insert_ne.
  - intros g. rewrite in_dir_lookup
      by (rewrite lookup_insert_ne by done; apply lookup_insert_eq).
    rewrite list_elem_of_filter, (in_dir_lookup _ _ _ _ Hs), list_elem_of_singleton.
    tauto.
  - intros g. rewrite (in_dir_lookup _ _ _ _ (lookup_insert_eq _ _ _)).
    rewrite elem_of_app, list_elem_of_filter, list_elem_of_singleton.
    rewrite (in_dir_lookup _ _ _ _ Hd).
    destruct (decide (g = fname)); tauto.
  - intros p Hps Hpd. by rewrite !lookup_insert_ne.
Qed.

Lemma moved_nil src dst (fs : filesystem) : moved [] src dst fs fs.
Proof.
  unfold moved. split_and!; try done.
  - intros g. rewrite elem_of_nil. tauto.
  - intros g. rewrite elem_of_nil. tauto.
Qed.

Lemma moved_cons x l src dst (fs fs1 fs' : filesystem) :
  moved [x] src dst fs fs1 -> moved l src dst fs1 fs' ->
  moved (x :: l) src dst fs fs'.
Proof.
  intros (Hd1 & Hs1 & Ht1 & Hf1) (Hd2 & Hs2 & Ht2 & Hf2).
  unfold moved. split_and!.
  - intros p. by rewrite Hd2, Hd1.
  - intros g. rewrite Hs2, Hs1, !elem_of_cons, elem_of_nil. tauto.
  - intros g. rewrite Ht2, Ht1, !elem_of_cons, elem_of_nil. tauto.
  - intros p Hps Hpd. by rewrite Hf2, Hf1.
Qed.

Lemma move_files_inv l src dst (fs : filesystem) u fs' :
  src ≠ dst ->
  move_files l src dst fs = (Ok u, fs') ->
  NoDup l /\ (forall g, g ∈ l -> in_dir fs src g) /\ moved l src dst fs fs'.
Proof.
  intros Hne. revert fs. induction l as [|x l IH]; intros fs Hrun.
  - injection Hrun as _ <-. split_and!; [constructor | | apply moved_nil].
    intros g Hg. by apply elem_of_nil in Hg.
  - apply bind_ok_inv in Hrun as ([] & fs1 & Hmv & Hrest).
    destruct (move_moved _ _ _ _ _ _ Hne Hmv) as (Hx & _ & Hm1).
    destruct (IH _ Hrest) as (Hnd & Hin & Hm).
    assert (Hl : forall g, g ∈ l -> in_dir fs src g /\ g ≠ x).
    { intros g Hg. apply Hin in Hg. destruct Hm1 as (_ & Hs1 & _).
      apply Hs1 in Hg as [? Hgx]. by rewrite list_elem_of_singleton in Hgx. }
    split_and!.
    + apply NoDup_cons. split; [|done]. intros Hxl. by apply Hl in Hxl as [_ ?].
    + intros g [->|Hg]%elem_of_cons; [done|]. by apply Hl.
    + by eapply moved_cons.
Qed.

Lemma move_files_ok l src dst (fs : filesystem) :
  src ≠ dst -> is_dir fs dst -> NoDup l ->
  (forall g, g ∈ l -> in_dir fs src g) ->
  exists fs', move_files l src dst fs = (Ok (), fs').
Proof.
  intros Hne. revert fs. induction l as [|x l IH]; intros fs Hdst Hnd Hin.
  - by exists fs.
  - apply NoDup_cons in Hnd as [Hx Hnd].
    destruct (move_ok x src dst fs Hne) as [fs1 Hmv];
      [apply Hin; by left | done |].
    destruct (move_moved _ _ _ _ _ _ Hne Hmv) as (_ & _ & Hd1 & Hs1 & _).
    destruct (IH fs1) as [fs' Hrest]; [by apply Hd1 | done | |].
    { intros g Hg. apply Hs1. split; [apply Hin; by right|].
      rewrite list_elem_of_singleton. by intros ->. }
    exists fs'. unfold move_files in *. simpl. by rewrite (bind_ok _ _ _ _ _ Hmv).
Qed.

Lemma move_files_raise l src dst (fs : filesystem) e fs' :
  move_files l src dst fs = (Raise e, fs') -> e = FileNotFoundError.
Proof.
  revert fs. induction l as [|x l IH]; intros fs Hrun; [discriminate|].
  apply bind_raise_inv in Hrun as [Hmv|(a & fs1 & _ & Hrest)].
  - by apply move_raise in Hmv as [-> _].
  - by eapply IH.
Qed.

Lemma moved_src l src dst (fs fs' : filesystem) :
  moved l src dst fs fs' ->
  forall g, in_dir fs' src g <-> in_dir fs src g /\ g ∉ l.
Proof. by intros (_ & H & _). Qed.

Lemma moved_dst l src dst (fs fs' : filesystem) :
  moved l src dst fs fs' ->
  forall g, in_dir fs' dst g <-> in_dir fs dst g \/ g ∈ l.
Proof. by intros (_ & _ & H & _). Qed.

Lemma moved_frame l src dst (fs fs' : filesystem) p :
  moved l src dst fs fs' -> p ≠ src -> p ≠ dst ->
  forall g, in_dir fs' p g <-> in_dir fs p g.
Proof. intros (_ & _ & _ & H) ?? g. apply in_dir_frame. by apply H. Qed.

Lemma moved_is_dir l src dst (fs fs' : filesystem) :
  moved l src dst fs fs' -> forall p, is_dir fs' p <-> is_dir fs p.
Proof. by intros (H & _). Qed.

Lemma moved_other l src dst (fs fs' : filesystem) :
  moved l src dst fs fs' ->
  forall p, p ≠ src -> p ≠ dst -> fs' !! p = fs !! p.
Proof. by intros (_ & _ & _ & H). Qed.

(** All the images, and all the labels, an assignment relocates. *)
Definition all_images (a : assignment) : list string :=
  train_images a ++ val_images a ++ test_images a.
Definition all_labels (a : assignment) : list string :=
  train_labels a ++ val_labels a ++ test_labels a.

(** The file system [fs'] that the relocation of the lists of [a] leaves:
    the pools lose the relocated names, each output directory gains those
    of its list, and no other directory changes. *)
Record relocated (image_dir label_dir output_dir : string) (a : assignment)
    (fs fs' : filesystem) : Prop := Relocated {
  rel_images : forall g, in_dir fs' image_dir g <-> in_dir fs image_dir g /\ g ∉ all_images a;
  rel_labels : forall g, in_dir fs' label_dir g <-> in_dir fs label_dir g /\ g ∉ all_labels a;
  rel_train_images : forall g,
    in_dir fs' (path_join3 output_dir "train" "images") g <->
    in_dir fs (path_join3 output_dir "train" "images") g \/ g ∈ train_images a;
  rel_train_labels : forall g,
    in_dir fs' (path_join3 output_dir "train" "labels") g <->
    in_dir fs (path_join3 output_dir "train" "labels") g \/ g ∈ train_labels a;
  rel_val_images : forall g,
    in_dir fs' (path_join3 output_dir "valid" "images") g <->
    in_dir fs (path_join3 output_dir "valid" "images") g \/ g ∈ val_images a;
  rel_val_labels : forall g,
    in_dir fs' (path_join3 output_dir "valid" "labels") g <->
    in_dir fs (path_join3 output_dir "valid" "labels") g \/ g ∈ val_labels a;
  rel_test_images : forall g,
    in_dir fs' (path_join3 output_dir "test" "images") g <->
    in_dir fs (path_join3 output_dir "test" "images") g \/ g ∈ test_images a;
  rel_test_labels : forall g,
    in_dir fs' (path_join3 output_dir "test" "labels") g <->
    in_dir fs (path_join3 output_dir "test" "labels") g \/ g ∈ test_labels a;
  rel_other : forall p g,
    p ∉ run_dirs image_dir label_dir output_dir -> in_dir fs' p g <-> in_dir fs p g
}.

(** Each list of [a'] is part of the list of [a]. *)
Definition sub_assignment (a' a : assignment) : Prop :=
  train_images a' ⊆ train_images a /\ train_labels a' ⊆ train_labels a /\
  val_images a' ⊆ val_images a /\ val_labels a' ⊆ val_labels a /\
  test_images a' ⊆ test_images a /\ test_labels a' ⊆ test_labels a.

(** Rewrites [in_dir fs' p g] into a statement on the file system before
    the move [Hm]. *)
Ltac back Hm :=
  first [ rewrite (moved_src _ _ _ _ _ Hm)
        | rewrite (moved_dst _ _ _ _ _ Hm)
        | rewrite (moved_frame _ _ _ _ _ _ Hm) by done ].

Ltac distinct_dirs H :=
  unfold run_dirs, output_dirs in H;
  rewrite !NoDup_cons, !not_elem_of_cons in H;
  destruct_and!.

Lemma disjoint_parts {A} (l1 l2 l3 : list A) :
  NoDup (l1 ++ l2 ++ l3) ->
  NoDup l1 /\ NoDup l2 /\ NoDup l3 /\
  (forall g, g ∈ l2 -> g ∉ l1) /\
  (forall g, g ∈ l3 -> (g ∉ l1) /\ (g ∉ l2)).
Proof.
  rewrite !NoDup_app. intros (N1 & D1 & N2 & D2 & N3).
  split_and!; try done.
  - intros g Hg Hg1. apply (D1 g Hg1). rewrite elem_of_app. auto.
  - intros g Hg. split.
    + intros Hg1. apply (D1 g Hg1). rewrite elem_of_app. auto.
    + intros Hg2. by apply (D2 g Hg2).
Qed.

Ltac get_moved R M :=
  let H := fresh in
  pose proof R as H; apply move_files_inv in H as (_ & _ & M); [|done].

(** A run of [move_files] that raises has moved a part of its list. *)
Lemma move_files_any l src dst (fs : filesystem) r fs' :
  src ≠ dst ->
  move_files l src dst fs = (r, fs') ->
  exists l', l' ⊆ l /\ moved l' src dst fs fs' /\ (forall u, r = Ok u -> l' = l).
Proof.
  intros Hne. revert fs. induction l as [|x l IH]; intros fs Hrun.
  - injection Hrun as <- <-. exists []. split_and!; [done | apply moved_nil | done].
  - unfold move_files in Hrun. simpl in Hrun. unfold bind in Hrun.
    destruct (move x src dst fs) as [[[]|e] fs1] eqn:Hmv.
    + destruct (move_moved _ _ _ _ _ _ Hne Hmv) as (_ & _ & M1).
      destruct (IH _ Hrun) as (l' & Hsub & M & Hall).
      exists (x :: l'). split_and!.
      * intros g [->|Hg]%elem_of_cons; [by left | right; by apply Hsub].
      * by eapply moved_cons.
      * intros u Hu. f_equal. by eapply Hall.
    + apply move_raise in Hmv as [_ ->]. injection Hrun as <- <-.
      exists []. split_and!; [by intros ? ?%elem_of_nil | apply moved_nil | done].
Qed.

Section Relocation.

Context (image_dir label_dir output_dir : string).
Hypothesis Hdirs : NoDup (run_dirs image_dir label_dir output_dir).

(** Six moves in the order of [relocate] add up to a relocation. *)
Lemma moved_chain l1 l2 l3 l4 l5 l6 (fs fs1 fs2 fs3 fs4 fs5 fs6 : filesystem) :
  moved l1 image_dir (path_join3 output_dir "train" "images") fs fs1 ->
  moved l2 label_dir (path_join3 output_dir "train" "labels") fs1 fs2 ->
  moved l3 image_dir (path_join3 output_dir "valid" "images") fs2 fs3 ->
  moved l4 label_dir (path_join3 output_dir "valid" "labels") fs3 fs4 ->
  moved l5 image_dir (path_join3 output_dir "test" "images") fs4 fs5 ->
  moved l6 label_dir (path_join3 output_dir "test" "labels") fs5 fs6 ->
  relocated image_dir label_dir output_dir (Assignment l1 l2 l3 l4 l5 l6) fs fs6 /\
  (forall p, is_dir fs6 p <-> is_dir fs p).
Proof.
  pose proof Hdirs as Hd. distinct_dirs Hd.
  intros M1 M2 M3 M4 M5 M6. split; [split|].
  - intros g. back M6. back M5. back M4. back M3. back M2. back M1.
    unfold all_images. simpl. rewrite !not_elem_of_app. tauto.
  - intros g. back M6. back M5. back M4. back M3. back M2. back M1.
    unfold all_labels. simpl. rewrite !not_elem_of_app. tauto.
  - intros g. back M6. back M5. back M4. back M3. back M2. back M1. simpl. tauto.
  - intros g. back M6. back M5. back M4. back M3. back M2. back M1. simpl. tauto.
  - intros g. back M6. back M5. back M4. back M3. back M2. back M1. simpl. tauto.
  - intros g. back M6. back M5. back M4. back M3. back M2. back M1. simpl. tauto.
  - intros g. back M6. back M5. back M4. back M3. back M2. back M1. simpl. tauto.
  - intros g. back M6. back M5. back M4. back M3. back M2. back M1. simpl. tauto.
  - intros p g Hp. unfold run_dirs, output_dirs in Hp.
    rewrite !not_elem_of_cons in Hp. destruct_and!.
    back M6. back M5. back M4. back M3. back M2. back M1. done.
  - intros p. by rewrite (moved_is_dir _ _ _ _ _ M6), (moved_is_dir _ _ _ _ _ M5),
      (moved_is_dir _ _ _ _ _ M4), (moved_is_dir _ _ _ _ _ M3),
      (moved_is_dir _ _ _ _ _ M2), (moved_is_dir _ _ _ _ _ M1).
Qed.

(** A relocation that returns has moved every file of the assignment; the
    lists had no file in common and their files were in the pools. *)
Lemma relocate_inv a (fs : filesystem) u fs' :
  relocate image_dir label_dir output_dir a fs = (Ok u, fs') ->
  NoDup (all_images a) /\ NoDup (all_labels a) /\
  (forall g, g ∈ all_images a -> in_dir fs image_dir g) /\
  (forall g, g ∈ all_labels a -> in_dir fs label_dir g) /\
  relocated image_dir label_dir output_dir a fs fs' /\
  (forall p, is_dir fs' p <-> is_dir fs p).
Proof.
  pose proof Hdirs as Hd. distinct_dirs Hd.
  unfold relocate. intros Hrun.
  apply bind_ok_inv in Hrun as ([] & fs1 & R1 & Hrun).
  apply bind_ok_inv in Hrun as ([] & fs2 & R2 & Hrun).
  apply bind_ok_inv in Hrun as ([] & fs3 & R3 & Hrun).
  apply bind_ok_inv in Hrun as ([] & fs4 & R4 & Hrun).
  apply bind_ok_inv in Hrun as ([] & fs5 & R5 & R6).
  apply move_files_inv in R1 as (N1 & I1 & M1); [|done].
  apply move_files_inv in R2 as (N2 & I2 & M2); [|done].
  apply move_files_inv in R3 as (N3 & I3 & M3); [|done].
  apply move_files_inv in R4 as (N4 & I4 & M4); [|done].
  apply move_files_inv in R5 as (N5 & I5 & M5); [|done].
  apply move_files_inv in R6 as (N6 & I6 & M6); [|done].
  assert (J3 : forall g, g ∈ val_images a -> in_dir fs image_dir g /\ g ∉ train_images a).
  { intros g Hg. apply I3 in Hg. revert Hg. back M2. back M1. tauto. }
  assert (J5 : forall g, g ∈ test_images a ->
             in_dir fs image_dir g /\ (g ∉ train_images a) /\ (g ∉ val_images a)).
  { intros g Hg. apply I5 in Hg. revert Hg. back M4. back M3. back M2. back M1. tauto. }
  assert (J4 : forall g, g ∈ val_labels a -> in_dir fs label_dir g /\ g ∉ train_labels a).
  { intros g Hg. apply I4 in Hg. revert Hg. back M3. back M2. back M1. tauto. }
  assert (J6 : forall g, g ∈ test_labels a ->
             in_dir fs label_dir g /\ (g ∉ train_labels a) /\ (g ∉ val_labels a)).
  { intros g Hg. apply I6 in Hg. revert Hg.
    back M5. back M4. back M3. back M2. back M1. tauto. }
  split_and!.
  - unfold all_images. rewrite !NoDup_app. split_and!; try done.
    + intros g Hg. rewrite elem_of_app. intros [Hv|Ht].
      * by apply J3 in Hv as [_ ?].
      * by apply J5 in Ht as (_ & ? & _).
    + intros g Hg Ht. by apply J5 in Ht as (_ & _ & ?).
  - unfold all_labels. rewrite !NoDup_app. split_and!; try done.
    + intros g Hg. rewrite elem_of_app. intros [Hv|Ht].
      * by apply J4 in Hv as [_ ?].
      * by apply J6 in Ht as (_ & ? & _).
    + intros g Hg Ht. by apply J6 in Ht as (_ & _ & ?).
  - intros g. unfold all_images. rewrite !elem_of_app. intros [Hg|[Hg|Hg]].
    + by apply I1. + by apply J3. + by apply J5.
  - intros g. unfold all_labels. rewrite !elem_of_app. intros [Hg|[Hg|Hg]].
    + revert Hg. intros Hg%I2. revert Hg. by back M1.
    + by apply J4. + by apply J6.
  - destruct a. by eapply moved_chain.
  - destruct a. by eapply moved_chain.
Qed.

(** Whatever its outcome, a relocation has moved a part of each list. *)
Lemma relocate_any a (fs : filesystem) r fs' :
  relocate image_dir label_dir output_dir a fs = (r, fs') ->
  exists a', sub_assignment a' a /\
             relocated image_dir label_dir output_dir a' fs fs' /\
             (forall p, is_dir fs' p <-> is_dir fs p).
Proof.
  pose proof Hdirs as Hd. distinct_dirs Hd.
  unfold relocate, bind. intros Hrun.
  destruct (move_files (train_images a) _ _ fs) as [r1 fs1] eqn:R1.
  apply move_files_any in R1 as (l1 & S1 & M1 & _); [|done].
  destruct r1 as [[]|e1]; cycle 1.
  { injection Hrun as <- <-.
    exists (Assignment l1 [] [] [] [] []). split.
    { split_and!; simpl; try done; by intros ? ?%elem_of_nil. }
    eapply moved_chain; first [exact M1 | apply moved_nil]. }
  destruct (move_files (train_labels a) _ _ fs1) as [r2 fs2] eqn:R2.
  apply move_files_any in R2 as (l2 & S2 & M2 & _); [|done].
  destruct r2 as [[]|e2]; cycle 1.
  { injection Hrun as <- <-.
    exists (Assignment l1 l2 [] [] [] []). split.
    { split_and!; simpl; try done; by intros ? ?%elem_of_nil. }
    eapply moved_chain; first [exact M1 | exact M2 | apply moved_nil]. }
  destruct (move_files (val_images a) _ _ fs2) as [r3 fs3] eqn:R3.
  apply move_files_any in R3 as (l3 & S3 & M3 & _); [|done].
  destruct r3 as [[]|e3]; cycle 1.
  { injection Hrun as <- <-.
    exists (Assignment l1 l2 l3 [] [] []). split.
    { split_and!; simpl; try done; by intros ? ?%elem_of_nil. }
    eapply moved_chain; first [exact M1 | exact M2 | exact M3 | apply moved_nil]. }
  destruct (move_files (val_labels a) _ _ fs3) as [r4 fs4] eqn:R4.
  apply move_files_any in R4 as (l4 & S4 & M4 & _); [|done].
  destruct r4 as [[]|e4]; cycle 1.
  { injection Hrun as <- <-.
    exists (Assignment l1 l2 l3 l4 [] []). split.
    { split_and!; simpl; try done; by intros ? ?%elem_of_nil. }
    eapply moved_chain;
      first [exact M1 | exact M2 | exact M3 | exact M4 | apply moved_nil]. }
  destruct (move_files (test_images a) _ _ fs4) as [r5 fs5] eqn:R5.
  apply move_files_any in R5 as (l5 & S5 & M5 & _); [|done].
  destruct r5 as [[]|e5]; cycle 1.
  { injection Hrun as <- <-.
    exists (Assignment l1 l2 l3 l4 l5 []). split.
    { split_and!; simpl; try done; by intros ? ?%elem_of_nil. }
    eapply moved_chain;
      first [exact M1 | exact M2 | exact M3 | exact M4 | exact M5 | apply moved_nil]. }
  apply move_files_any in Hrun as (l6 & S6 & M6 & _); [|done].
  exists (Assignment l1 l2 l3 l4 l5 l6). split.
  { by split_and!. }
  by eapply moved_chain.
Qed.

Lemma relocate_ok a (fs : filesystem) :
  (forall p, p ∈ output_dirs output_dir -> is_dir fs p) ->
  NoDup (all_images a) -> NoDup (all_labels a) ->
  (forall g, g ∈ all_images a -> in_dir fs image_dir g) ->
  (forall g, g ∈ all_labels a -> in_dir fs label_dir g) ->
  exists fs', relocate image_dir label_dir output_dir a fs = (Ok (), fs').
Proof.
  intros Hout Ni Nl Ii Il.
  apply disjoint_parts in Ni as (Ni1 & Ni2 & Ni3 & Di2 & Di3).
  apply disjoint_parts in Nl as (Nl1 & Nl2 & Nl3 & Dl2 & Dl3).
  assert (Ii1 : forall g, g ∈ train_images a -> in_dir fs image_dir g).
  { intros g Hg. apply Ii. unfold all_images. rewrite !elem_of_app. auto. }
  assert (Ii2 : forall g, g ∈ val_images a -> in_dir fs image_dir g).
  { intros g Hg. apply Ii. unfold all_images. rewrite !elem_of_app. auto. }
  assert (Ii3 : forall g, g ∈ test_images a -> in_dir fs image_dir g).
  { intros g Hg. apply Ii. unfold all_images. rewrite !elem_of_app. auto. }
  assert (Il1 : forall g, g ∈ train_labels a -> in_dir fs label_dir g).
  { intros g Hg. apply Il. unfold all_labels. rewrite !elem_of_app. auto. }
  assert (Il2 : forall g, g ∈ val_labels a -> in_dir fs label_dir g).
  { intros g Hg. apply Il. unfold all_labels. rewrite !elem_of_app. auto. }
  assert (Il3 : forall g, g ∈ test_labels a -> in_dir fs label_dir g).
  { intros g Hg. apply Il. unfold all_labels. rewrite !elem_of_app. auto. }
  clear Ii Il.
  assert (O1 : is_dir fs (path_join3 output_dir "train" "images")).
  { apply Hout. unfold output_dirs. rewrite !elem_of_cons. auto. }
  assert (O2 : is_dir fs (path_join3 output_dir "train" "labels")).
  { apply Hout. unfold output_dirs. rewrite !elem_of_cons. auto. }
  assert (O3 : is_dir fs (path_join3 output_dir "valid" "images")).
  { apply Hout. unfold output_dirs. rewrite !elem_of_cons. auto. }
  assert (O4 : is_dir fs (path_join3 output_dir "valid" "labels")).
  { apply Hout. unfold output_dirs. rewrite !elem_of_cons. auto 6. }
  assert (O5 : is_dir fs (path_join3 output_dir "test" "images")).
  { apply Hout. unfold output_dirs. rewrite !elem_of_cons. auto 7. }
  assert (O6 : is_dir fs (path_join3 output_dir "test" "labels")).
  { apply Hout. unfold output_dirs. rewrite !elem_of_cons. auto 8. }
  clear Hout.
  pose proof Hdirs as Hd. distinct_dirs Hd.
  unfold relocate.
  destruct (move_files_ok (train_images a) image_dir
              (path_join3 output_dir "train" "images") fs) as [fs1 R1];
    [done | done | done | done |].
  get_moved R1 M1. rewrite (bind_ok _ _ _ _ _ R1).
  destruct (move_files_ok (train_labels a) label_dir
              (path_join3 output_dir "train" "labels") fs1) as [fs2 R2];
    [done | by apply (moved_is_dir _ _ _ _ _ M1) | done | |].
  { intros g Hg. back M1. by apply Il1. }
  get_moved R2 M2. rewrite (bind_ok _ _ _ _ _ R2).
  destruct (move_files_ok (val_images a) image_dir
              (path_join3 output_dir "valid" "images") fs2) as [fs3 R3];
    [done
    | by apply (moved_is_dir _ _ _ _ _ M2), (moved_is_dir _ _ _ _ _ M1)
    | done | |].
  { intros g Hg. back M2. back M1. split; [by apply Ii2 | by apply Di2]. }
  get_moved R3 M3. rewrite (bind_ok _ _ _ _ _ R3).
  destruct (move_files_ok (val_labels a) label_dir
              (path_join3 output_dir "valid" "labels") fs3) as [fs4 R4];
    [done
    | by apply (moved_is_dir _ _ _ _ _ M3), (moved_is_dir _ _ _ _ _ M2),
        (moved_is_dir _ _ _ _ _ M1)
    | done | |].
  { intros g Hg. back M3. back M2. back M1.
    split; [by apply Il2 | by apply Dl2]. }
  get_moved R4 M4. rewrite (bind_ok _ _ _ _ _ R4).
  destruct (move_files_ok (test_images a) image_dir
              (path_join3 output_dir "test" "images") fs4) as [fs5 R5];
    [done
    | by apply (moved_is_dir _ _ _ _ _ M4), (moved_is_dir _ _ _ _ _ M3),
        (moved_is_dir _ _ _ _ _ M2), (moved_is_dir _ _ _ _ _ M1)
    | done | |].
  { intros g Hg. back M4. back M3. back M2. back M1.
    destruct (Di3 g Hg). split_and!; [by apply Ii3 | done | done]. }
  get_moved R5 M5. rewrite (bind_ok _ _ _ _ _ R5).
  destruct (move_files_ok (test_labels a) label_dir
              (path_join3 output_dir "test" "labels") fs5) as [fs6 R6];
    [done
    | by apply (moved_is_dir _ _ _ _ _ M5), (moved_is_dir _ _ _ _ _ M4),
        (moved_is_dir _ _ _ _ _ M3), (moved_is_dir _ _ _ _ _ M2),
        (moved_is_dir _ _ _ _ _ M1)
    | done | | by eauto].
  intros g Hg. back M5. back M4. back M3. back M2. back M1.
  destruct (Dl3 g Hg). split_and!; [by apply Il3 | done | done].
Qed.

Lemma relocate_raise a (fs : filesystem) e fs' :
  relocate image_dir label_dir output_dir a fs = (Raise e, fs') ->
  e = FileNotFoundError.
Proof.
  unfold relocate. intros Hrun.
  repeat (apply bind_raise_inv in Hrun as [Hrun|(? & ? & _ & Hrun)];
          [by eapply move_files_raise|]).
  by eapply move_files_raise.
Qed.

End Relocation.

(** * Properties of the split *)

Lemma rbind_ok_inv {A B} (r : result A) (k : A -> result B) b :
  rbind r k = Ok b -> exists a, r = Ok a /\ k a = Ok b.
Proof. destruct r; [eauto | discriminate]. Qed.

Lemma of_option_ok_inv {A} (o : option A) e a : of_option o e = Ok a -> o = Some a.
Proof. destruct o; [by intros [= ->] | discriminate]. Qed.

Lemma mapM_lookup_omap {A} (a : list A) idx r :
  mapM (fun i => a !! i) idx = Some r -> r = omap (fun i => a !! i) idx.
Proof.
  rewrite mapM_Some. induction 1 as [|i x idx r Hi _ IH]; [done|].
  simpl. rewrite Hi. by f_equal.
Qed.

Lemma safe_indexing_omap {A} (a : list A) idx r :
  safe_indexing a idx = Ok r -> r = omap (fun i => a !! i) idx.
Proof. intros H%of_option_ok_inv. by apply mapM_lookup_omap. Qed.

Lemma safe_indexing_length {A} (a : list A) idx r :
  safe_indexing a idx = Ok r -> length r = length idx.
Proof.
  intros H%of_option_ok_inv. apply mapM_Some in H. symmetry.
  by eapply Forall2_length.
Qed.

Lemma safe_indexing_ok {A} (a : list A) idx :
  Forall (fun i => (i < length a)%nat) idx ->
  exists r, safe_indexing a idx = Ok r.
Proof.
  intros Hidx. unfold safe_indexing.
  destruct (mapM_is_Some_2 (fun i => a !! i) idx) as [r ->]; [|by eexists].
  eapply Forall_impl; [done|]. intros i Hi. by apply lookup_lt_is_Some.
Qed.

Lemma safe_indexing_zip {A B} (X : list A) (y : list B) idx r1 r2 :
  safe_indexing X idx = Ok r1 -> safe_indexing y idx = Ok r2 ->
  zip r1 r2 = omap (fun i => zip X y !! i) idx.
Proof.
  intros H1%of_option_ok_inv H2%of_option_ok_inv.
  apply mapM_Some in H1. revert r2 H2.
  induction H1 as [|i x idx r1 Hi _ IH]; intros r2 H2.
  - simpl in H2. by injection H2 as <-.
  - apply mapM_Some in H2. inv H2. simpl.
    assert (Hz : zip X y !! i = Some (x, y0)) by by apply lookup_zip_Some.
    rewrite Hz. f_equal. apply IH. by apply mapM_Some.
Qed.

Lemma omap_ext_in {A B} (f g : A -> option B) (l : list A) :
  (forall x, x ∈ l -> f x = g x) -> omap f l = omap g l.
Proof.
  induction l as [|x l IH]; intros Hfg; [done|].
  csimpl. rewrite (Hfg x) by left. rewrite IH; [done|].
  intros z Hz. apply Hfg. by right.
Qed.

Lemma omap_lookup_seq {A} (a : list A) :
  omap (fun i => a !! i) (seq 0 (length a)) = a.
Proof.
  induction a as [|x a IH] using rev_ind; [done|].
  rewrite length_app. simpl. rewrite Nat.add_1_r, seq_S, omap_app. simpl.
  rewrite list_lookup_middle by done. simpl. f_equal.
  rewrite <- IH at 2. apply omap_ext_in.
  intros i Hi%elem_of_seq. apply lookup_app_l. lia.
Qed.

(** Indexing a list by a permutation of its indices permutes the list. *)
Lemma indexing_permutation {A} (a : list A) idx :
  idx ≡ₚ seq 0 (length a) -> omap (fun i => a !! i) idx ≡ₚ a.
Proof. intros ->. by rewrite omap_lookup_seq. Qed.

Lemma validate_shuffle_split_inv n t n_train n_test :
  validate_shuffle_split n t = Ok (n_train, n_test) ->
  n_train = Z.of_nat n - n_test /\ n_train ≠ 0.
Proof.
  unfold validate_shuffle_split.
  destruct (_ || _); [discriminate|].
  intros (c & _ & Hk)%rbind_ok_inv. simpl in Hk.
  destruct (Z.eqb_spec (Z.of_nat n - c) 0); [discriminate|].
  by injection Hk as <- <-.
Qed.

Lemma validate_sizes_inv n n_train n_test a b :
  validate_sizes n n_train n_test = Ok (a, b) ->
  a = Z.to_nat n_train /\ b = Z.to_nat n_test /\
  0 < n_test < Z.of_nat n /\ 0 < n_train < Z.of_nat n /\
  n_train + n_test <= Z.of_nat n.
Proof.
  unfold validate_sizes.
  destruct (Z.leb_spec (Z.of_nat n) n_test); [discriminate|].
  destruct (Z.leb_spec n_test 0); [discriminate|]. simpl.
  destruct (Z.leb_spec (Z.of_nat n) n_train); [discriminate|].
  destruct (Z.leb_spec n_train 0); [discriminate|]. simpl.
  destruct (Z.ltb_spec (Z.of_nat n) (n_train + n_test)); [discriminate|].
  intros [= <- <-]. lia.
Qed.

Lemma validate_sizes_ok n n_train n_test :
  0 < n_test < Z.of_nat n -> 0 < n_train < Z.of_nat n ->
  n_train + n_test <= Z.of_nat n ->
  validate_sizes n n_train n_test = Ok (Z.to_nat n_train, Z.to_nat n_test).
Proof.
  intros ???. unfold validate_sizes.
  destruct (Z.leb_spec (Z.of_nat n) n_test); [lia|].
  destruct (Z.leb_spec n_test 0); [lia|]. simpl.
  destruct (Z.leb_spec (Z.of_nat n) n_train); [lia|].
  destruct (Z.leb_spec n_train 0); [lia|]. simpl.
  destruct (Z.ltb_spec (Z.of_nat n) (n_train + n_test)); [lia|]. done.
Qed.

Section SplitProperties.

Variable permutation : nat -> list nat.
Hypothesis Hperm : shuffles permutation.

Lemma permutation_length n : length (permutation n) = n.
Proof. rewrite (Hperm n). apply length_seq. Qed.

Lemma permutation_lt n i : i ∈ permutation n -> (i < n)%nat.
Proof. rewrite (Hperm n), elem_of_seq. lia. Qed.

(** What a successful call of [train_test_split] returns: the sizes that
    the validation computed, and a partition of the pairs [zip X y]. *)
Lemma train_test_split_inv {A B} (X : list A) (y : list B) t s :
  train_test_split permutation X y t = Ok s ->
  length X = length y /\
  (exists n_train n_test,
     validate_shuffle_split (length X) t = Ok (n_train, n_test) /\
     0 < n_train /\ 0 < n_test /\
     length (X_train s) = Z.to_nat n_train /\
     length (X_test s) = Z.to_nat n_test) /\
  length (y_train s) = length (X_train s) /\
  length (y_test s) = length (X_test s) /\
  zip (X_train s) (y_train s) ++ zip (X_test s) (y_test s) ≡ₚ zip X y.
Proof.
  unfold train_test_split.
  destruct (Nat.eqb_spec (length X) (length y)) as [Hlen|]; [|discriminate].
  simpl.
  intros ([n_train n_test] & Hv & Hk)%rbind_ok_inv.
  apply rbind_ok_inv in Hk as ([train test] & Hs & Hk).
  apply rbind_ok_inv in Hk as (Xtr & HXtr & Hk).
  apply rbind_ok_inv in Hk as (Xte & HXte & Hk).
  apply rbind_ok_inv in Hk as (ytr & Hytr & Hk).
  apply rbind_ok_inv in Hk as (yte & Hyte & Hk).
  injection Hk as <-. simpl.
  unfold shuffle_split in Hs.
  apply rbind_ok_inv in Hs as ([a b] & Hsz & Hs).
  injection Hs as <- <-.
  destruct (validate_shuffle_split_inv _ _ _ _ Hv) as [Hsum _].
  destruct (validate_sizes_inv _ _ _ _ _ Hsz) as (-> & -> & ? & ? & ?).
  pose proof (permutation_length (length X)) as Hpl.
  assert (Htrain : take (Z.to_nat n_train) (drop (Z.to_nat n_test) (permutation (length X)))
                   = drop (Z.to_nat n_test) (permutation (length X))).
  { apply take_ge. rewrite length_drop, Hpl. lia. }
  rewrite Htrain in *.
  split; [done|]. split.
  { exists n_train, n_test. split_and!; try done; try lia.
    - rewrite (safe_indexing_length _ _ _ HXtr), length_drop, Hpl. lia.
    - rewrite (safe_indexing_length _ _ _ HXte), length_take, Hpl. lia. }
  split.
  { by rewrite (safe_indexing_length _ _ _ HXtr), (safe_indexing_length _ _ _ Hytr). }
  split.
  { by rewrite (safe_indexing_length _ _ _ HXte), (safe_indexing_length _ _ _ Hyte). }
  rewrite (safe_indexing_zip _ _ _ _ _ HXtr Hytr).
  rewrite (safe_indexing_zip _ _ _ _ _ HXte Hyte).
  rewrite <- omap_app. apply indexing_permutation.
  rewrite length_zip, <- Hlen, Nat.min_id.
  rewrite <- (Hperm (length X)).
  rewrite Permutation_app_comm. by rewrite take_drop.
Qed.

(** A call of [train_test_split] whose sizes pass the two validations
    returns. *)
Lemma train_test_split_ok {A B} (X : list A) (y : list B) t n_train n_test :
  length X = length y ->
  validate_shuffle_split (length X) t = Ok (n_train, n_test) ->
  0 < n_test < Z.of_nat (length X) ->
  exists s, train_test_split permutation X y t = Ok s.
Proof.
  intros Hlen Hv Hnt.
  destruct (validate_shuffle_split_inv _ _ _ _ Hv) as [Hsum Hnz].
  unfold train_test_split.
  destruct (Nat.eqb_spec (length X) (length y)) as [_|]; [|done]. simpl.
  rewrite Hv. simpl. unfold shuffle_split.
  rewrite validate_sizes_ok by lia. simpl.
  set (test := take (Z.to_nat n_test) (permutation (length X))).
  set (train := take (Z.to_nat n_train) (drop (Z.to_nat n_test) (permutation (length X)))).
  assert (Htest : Forall (fun i => (i < length X)%nat) test).
  { apply Forall_forall. intros i Hi. apply permutation_lt.
    by apply (subseteq_take (Z.to_nat n_test)). }
  assert (Htrain : Forall (fun i => (i < length X)%nat) train).
  { apply Forall_forall. intros i Hi. apply permutation_lt.
    apply (subseteq_drop (Z.to_nat n_test)).
    by apply (subseteq_take (Z.to_nat n_train)). }
  destruct (safe_indexing_ok X train Htrain) as [r1 ->].
  destruct (safe_indexing_ok X test Htest) as [r2 ->].
  rewrite Hlen in Htrain, Htest.
  destruct (safe_indexing_ok y train Htrain) as [r3 ->].
  destruct (safe_indexing_ok y test Htest) as [r4 ->].
  simpl. eauto.
Qed.

(** What a successful run of the two splits returns. *)
Lemma split_filenames_inv (X y : list string) val_ratio test_ratio a :
  split_filenames permutation X y val_ratio test_ratio = Ok a ->
  length X = length y /\
  length (train_labels a) = length (train_images a) /\
  length (val_labels a) = length (val_images a) /\
  length (test_labels a) = length (test_images a) /\
  train_pairs a ++ val_pairs a ++ test_pairs a ≡ₚ zip X y.
Proof.
  unfold split_filenames.
  intros (s1 & H1 & Hk)%rbind_ok_inv.
  apply rbind_ok_inv in Hk as (ts & _ & Hk).
  apply rbind_ok_inv in Hk as (s2 & H2 & Hk).
  injection Hk as <-.
  apply train_test_split_inv in H1 as (Hlen & _ & L1 & _ & P1).
  apply train_test_split_inv in H2 as (_ & _ & L2 & L3 & P2).
  unfold train_pairs, val_pairs, test_pairs. simpl.
  split_and!; try done.
  by rewrite P2.
Qed.

(** The sizes of the three buckets are those the validations compute. *)
Lemma split_filenames_sizes (X y : list string) val_ratio test_ratio a :
  split_filenames permutation X y val_ratio test_ratio = Ok a ->
  exists n_train1 n_test1 test_size n_train2 n_test2,
    validate_shuffle_split (length X) (PyFloat.add val_ratio test_ratio)
      = Ok (n_train1, n_test1) /\
    PyFloat.div test_ratio (PyFloat.add val_ratio test_ratio) = Some test_size /\
    validate_shuffle_split (Z.to_nat n_test1) test_size = Ok (n_train2, n_test2) /\
    length (train_images a) = Z.to_nat n_train1 /\
    length (val_images a) = Z.to_nat n_train2 /\
    length (test_images a) = Z.to_nat n_test2.
Proof.
  unfold split_filenames.
  intros (s1 & H1 & Hk)%rbind_ok_inv.
  apply rbind_ok_inv in Hk as (ts & Hts%of_option_ok_inv & Hk).
  apply rbind_ok_inv in Hk as (s2 & H2 & Hk).
  injection Hk as <-. simpl.
  apply train_test_split_inv in H1
    as (_ & (n_train1 & n_test1 & V1 & _ & _ & T1 & E1) & _).
  apply train_test_split_inv in H2
    as (_ & (n_train2 & n_test2 & V2 & _ & _ & T2 & E2) & _).
  rewrite E1 in V2.
  by exists n_train1, n_test1, ts, n_train2, n_test2.
Qed.

(** The two splits return whenever the sizes pass the validations. *)
Lemma split_filenames_ok (X y : list string) val_ratio test_ratio
    n_train1 n_test1 test_size n_train2 n_test2 :
  length X = length y ->
  validate_shuffle_split (length X) (PyFloat.add val_ratio test_ratio)
    = Ok (n_train1, n_test1) ->
  0 < n_test1 < Z.of_nat (length X) ->
  PyFloat.div test_ratio (PyFloat.add val_ratio test_ratio) = Some test_size ->
  validate_shuffle_split (Z.to_nat n_test1) test_size = Ok (n_train2, n_test2) ->
  0 < n_test2 < n_test1 ->
  exists a, split_filenames permutation X y val_ratio test_ratio = Ok a.
Proof.
  intros Hlen V1 B1 Hts V2 B2.
  destruct (train_test_split_ok X y _ _ _ Hlen V1 B1) as [s1 H1].
  unfold split_filenames. rewrite H1, Hts. simpl.
  apply train_test_split_inv in H1
    as (_ & (n_train1' & n_test1' & V1' & _ & _ & _ & E1) & _ & L1 & _).
  rewrite V1 in V1'. injection V1' as <- <-.
  destruct (train_test_split_ok (X_test s1) (y_test s1) test_size n_train2 n_test2)
    as [s2 ->]; [done | by rewrite E1 | rewrite E1; lia |].
  simpl. eauto.
Qed.

End SplitProperties.

(** * Properties of the matching step *)

(** The matching step in the words of its description: an image is kept
    when its base name is the base name of some label, and it is paired
    with the label name [<base>.txt]. *)
Definition has_label (label_files : list string) (image : string) : Prop :=
  (splitext image).1 ∈ base_names label_files.

#[global] Instance has_label_dec label_files image :
  Decision (has_label label_files image).
Proof. unfold has_label. apply _. Defined.

Definition label_name (image : string) : string := (splitext image).1 +:+ ".txt".

Definition matched_spec (image_files label_files : list string)
  : list (string * string) :=
  (fun image => (image, label_name image)) <$> filter (has_label label_files) image_files.

Lemma omap_seq_lookup {A B} (h : option A -> option B) (l : list A) :
  omap (fun i => h (l !! i)) (seq 0 (length l)) = omap (fun a => h (Some a)) l.
Proof.
  induction l as [|x l IH] using rev_ind; [done|].
  rewrite length_app. simpl. rewrite Nat.add_1_r, seq_S, !omap_app. simpl.
  rewrite list_lookup_middle by done. f_equal.
  rewrite <- IH. apply omap_ext_in.
  intros i Hi%elem_of_seq. f_equal. apply lookup_app_l. lia.
Qed.

Lemma omap_filter_fmap {A B} (P : A -> Prop) `{forall a, Decision (P a)}
    (k : A -> B) (l : list A) :
  omap (fun a => if decide (P a) then Some (k a) else None) l = k <$> filter P l.
Proof.
  induction l as [|x l IH]; [done|].
  csimpl. rewrite filter_cons. destruct (decide (P x)); csimpl; by rewrite IH.
Qed.

(** The comprehension of the source computes the described matching. *)
Lemma matched_files_eq image_files label_files :
  matched_files image_files label_files = matched_spec image_files label_files.
Proof.
  unfold matched_files, matched_spec, base_names.
  rewrite <- (omap_filter_fmap (has_label label_files)).
  rewrite <- (omap_seq_lookup
    (fun o => match o with
              | Some image =>
                  if decide (has_label label_files image)
                  then Some (image, label_name image) else None
              | None => None
              end)).
  apply omap_ext_in. intros i _. rewrite list_lookup_fmap.
  destruct (image_files !! i) as [image|]; [|done]. simpl.
  unfold has_label, label_name, base_names.
  by destruct (decide _).
Qed.

Lemma matched_images image_files label_files :
  (matched_files image_files label_files).*1 = filter (has_label label_files) image_files.
Proof.
  rewrite matched_files_eq. unfold matched_spec.
  rewrite <- list_fmap_compose. apply list_fmap_id.
Qed.

Lemma matched_labels image_files label_files :
  (matched_files image_files label_files).*2
  = label_name <$> filter (has_label label_files) image_files.
Proof.
  rewrite matched_files_eq. unfold matched_spec.
  by rewrite <- list_fmap_compose.
Qed.

Lemma matched_pair image_files label_files image label :
  (image, label) ∈ matched_files image_files label_files <->
  image ∈ image_files /\ has_label label_files image /\ label = label_name image.
Proof.
  rewrite matched_files_eq. unfold matched_spec.
  rewrite list_elem_of_fmap. split.
  - intros (f & [= -> ->] & Hf). apply list_elem_of_filter in Hf as [? ?]. done.
  - intros (Hin & Hl & ->). exists image. split; [done|].
    by apply list_elem_of_filter.
Qed.

Lemma matched_NoDup image_files label_files :
  NoDup image_files -> NoDup (matched_files image_files label_files).
Proof.
  intros Hnd. apply (NoDup_fmap_1 fst). rewrite matched_images.
  by apply NoDup_filter.
Qed.

Lemma matched_length image_files label_files :
  length (matched_files image_files label_files).*1
  = length (matched_files image_files label_files).*2.
Proof. by rewrite !length_fmap. Qed.

(** * Properties of [sorted] *)

Lemma sorted_Permutation l : sorted l ≡ₚ l.
Proof. apply merge_sort_Permutation. Qed.

Lemma sorted_elem_of l g : g ∈ sorted l <-> g ∈ l.
Proof. by rewrite sorted_Permutation. Qed.

Lemma sorted_NoDup l : NoDup l -> NoDup (sorted l).
Proof. by rewrite sorted_Permutation. Qed.

(** Two listings of the same directory contents sort to the same list. *)
Lemma sorted_unique l1 l2 : l1 ≡ₚ l2 -> sorted l1 = sorted l2.
Proof.
  intros Hp. apply (Sorted_unique String.le).
  - apply Sorted_merge_sort; apply _.
  - apply Sorted_merge_sort; apply _.
  - by rewrite !sorted_Permutation.
Qed.

(** * Properties of the run *)

(** What the creation of the directories [ps] does: they exist afterwards,
    what existed is kept, and what is new is empty. *)
Definition made (ps : list string) (fs fs' : filesystem) : Prop :=
  (forall p, p ∈ ps -> is_dir fs' p) /\
  (forall q l, fs !! q = Some l -> fs' !! q = Some l) /\
  (forall q, fs !! q = None -> fs' !! q = None \/ (q ∈ ps /\ fs' !! q = Some [])).

Lemma made_nil (fs : filesystem) : made [] fs fs.
Proof.
  split_and!; [|done|by left]. intros p Hp. by apply elem_of_nil in Hp.
Qed.

Lemma made_app ps1 ps2 (fs fs1 fs2 : filesystem) :
  made ps1 fs fs1 -> made ps2 fs1 fs2 -> made (ps1 ++ ps2) fs fs2.
Proof.
  intros (D1 & K1 & N1) (D2 & K2 & N2). split_and!.
  - intros p [Hp|Hp]%elem_of_app; [|by apply D2].
    destruct (D1 p Hp) as [l Hl]. exists l. by apply K2.
  - intros q l Hq. by apply K2, K1.
  - intros q Hq. destruct (N1 q Hq) as [Hn|[Hp Hn]].
    + destruct (N2 q Hn) as [?|[? ?]]; [by left|right].
      split; [|done]. rewrite elem_of_app. by right.
    + right. split; [rewrite elem_of_app; by left | by apply K2].
Qed.

Lemma makedirs_made p (fs : filesystem) :
  exists fs', makedirs p fs = (Ok (), fs') /\ made [p] fs fs'.
Proof.
  unfold makedirs. destruct (fs !! p) as [l|] eqn:Hp.
  - exists fs. split; [done|]. split_and!; [|done|by left].
    intros q ->%list_elem_of_singleton. by exists l.
  - exists (<[p := []]> fs). split; [done|]. split_and!.
    + intros q ->%list_elem_of_singleton. exists []. apply lookup_insert_eq.
    + intros q l Hq. rewrite lookup_insert_ne; [done|]. congruence.
    + intros q Hq. destruct (decide (q = p)) as [->|Hne].
      * right. split; [by apply list_elem_of_singleton | apply lookup_insert_eq].
      * left. by rewrite lookup_insert_ne.
Qed.

Lemma make_output_dirs_made output_dir (fs : filesystem) :
  exists fs', make_output_dirs output_dir fs = (Ok (), fs') /\
              made (output_dirs output_dir) fs fs'.
Proof.
  unfold make_output_dirs, splits. simpl.
  destruct (makedirs_made (path_join3 output_dir "train" "images") fs) as (fs1 & R1 & M1).
  destruct (makedirs_made (path_join3 output_dir "train" "labels") fs1) as (fs2 & R2 & M2).
  destruct (makedirs_made (path_join3 output_dir "valid" "images") fs2) as (fs3 & R3 & M3).
  destruct (makedirs_made (path_join3 output_dir "valid" "labels") fs3) as (fs4 & R4 & M4).
  destruct (makedirs_made (path_join3 output_dir "test" "images") fs4) as (fs5 & R5 & M5).
  destruct (makedirs_made (path_join3 output_dir "test" "labels") fs5) as (fs6 & R6 & M6).
  exists fs6. split.
  - unfold bind. rewrite R1, R2, R3, R4, R5, R6. done.
  - pose proof (made_app _ _ _ _ _ M1
      (made_app _ _ _ _ _ M2 (made_app _ _ _ _ _ M3
        (made_app _ _ _ _ _ M4 (made_app _ _ _ _ _ M5 M6))))) as Hm.
    exact Hm.
Qed.

Lemma made_other ps (fs fs' : filesystem) q :
  made ps fs fs' -> q ∉ ps -> fs' !! q = fs !! q.
Proof.
  intros (_ & K & N) Hq. destruct (fs !! q) as [l|] eqn:Hl; [by apply K|].
  destruct (N q Hl) as [?|[? _]]; done.
Qed.

Lemma made_in_dir ps (fs fs' : filesystem) q g :
  made ps fs fs' -> in_dir fs' q g <-> in_dir fs q g.
Proof.
  intros (_ & K & N). split.
  - intros (l & Hl & Hg). destruct (fs !! q) as [l0|] eqn:Hq.
    + exists l0. split; [done|]. apply K in Hq. congruence.
    + destruct (N q Hq) as [?|[_ Hn]]; [congruence|].
      rewrite Hn in Hl. injection Hl as <-. by apply elem_of_nil in Hg.
  - intros (l & Hl & Hg). exists l. split; [by apply K | done].
Qed.

(** The matched pairs of a run, from the two listings. *)
Definition matched_of (image_listing label_listing : list string)
  : list (string * string) :=
  matched_files (sorted image_listing) (sorted label_listing).

Section Run.

Variable permutation : nat -> list nat.
Context (image_dir label_dir output_dir : string).

Lemma assign_files_eq val_ratio test_ratio (fs : filesystem) il ll :
  fs !! image_dir = Some il -> fs !! label_dir = Some ll ->
  assign_files permutation image_dir label_dir val_ratio test_ratio fs
  = (split_filenames permutation (matched_of il ll).*1 (matched_of il ll).*2
       val_ratio test_ratio, fs).
Proof.
  intros Hi Hl. unfold assign_files, bind, listdir, lift. by rewrite Hi, Hl.
Qed.

Lemma assign_files_inv val_ratio test_ratio (fs : filesystem) a fs' :
  assign_files permutation image_dir label_dir val_ratio test_ratio fs = (Ok a, fs') ->
  fs' = fs /\
  exists il ll,
    fs !! image_dir = Some il /\ fs !! label_dir = Some ll /\
    split_filenames permutation (matched_of il ll).*1 (matched_of il ll).*2
      val_ratio test_ratio = Ok a.
Proof.
  unfold assign_files, bind, listdir, lift.
  destruct (fs !! image_dir) as [il|] eqn:Hi; [|discriminate].
  destruct (fs !! label_dir) as [ll|] eqn:Hl; [|discriminate].
  intros [= Hs <-]. split; [done|]. by exists il, ll.
Qed.

(** A run that returns has passed the ratio check, created the output
    directories, computed an assignment and relocated it. *)
Lemma split_data_inv train_ratio val_ratio test_ratio (fs : filesystem) c fs' :
  split_data permutation image_dir label_dir output_dir
    train_ratio val_ratio test_ratio fs = (Ok c, fs') ->
  PyFloat.eqb (PyFloat.add (PyFloat.add train_ratio val_ratio) test_ratio)
    (PyFloat.of_int 1) = true /\
  exists fs0 il ll a,
    made (output_dirs output_dir) fs fs0 /\
    fs0 !! image_dir = Some il /\ fs0 !! label_dir = Some ll /\
    split_filenames permutation (matched_of il ll).*1 (matched_of il ll).*2
      val_ratio test_ratio = Ok a /\
    relocate image_dir label_dir output_dir a fs0 = (Ok (), fs') /\
    c = (length (train_images a), length (val_images a), length (test_images a)).
Proof.
  unfold split_data.
  destruct (PyFloat.eqb _ _); [|discriminate]. simpl.
  intros Hrun. split; [done|].
  destruct (make_output_dirs_made output_dir fs) as (fs0 & Hmk & Hmade).
  rewrite (bind_ok _ _ _ _ _ Hmk) in Hrun.
  apply bind_ok_inv in Hrun as (a & fs1 & Ha & Hrun).
  apply assign_files_inv in Ha as (-> & il & ll & Hi & Hl & Hs).
  apply bind_ok_inv in Hrun as ([] & fs2 & Hrel & Hret).
  injection Hret as <- <-.
  by exists fs0, il, ll, a.
Qed.

End Run.

(** The assignment that relocates nothing. *)
Definition no_files : assignment := Assignment [] [] [] [] [] [].

Lemma relocated_made image_dir label_dir output_dir a ps (fs fs0 fs' : filesystem) :
  made ps fs fs0 ->
  relocated image_dir label_dir output_dir a fs0 fs' ->
  relocated image_dir label_dir output_dir a fs fs'.
Proof.
  intros Hm [R1 R2 R3 R4 R5 R6 R7 R8 R9].
  split; intros; rewrite <- (made_in_dir _ _ _ _ _ Hm); auto.
Qed.

Lemma relocated_no_files image_dir label_dir output_dir ps (fs fs0 : filesystem) :
  made ps fs fs0 -> relocated image_dir label_dir output_dir no_files fs fs0.
Proof.
  intros Hm.
  split; intros; rewrite (made_in_dir _ _ _ _ _ Hm); simpl;
    rewrite ?elem_of_nil; unfold all_images, all_labels; simpl;
    rewrite ?elem_of_nil; tauto.
Qed.

Section RunProperties.

Variable permutation : nat -> list nat.
Hypothesis Hperm : shuffles permutation.
Context (image_dir label_dir output_dir : string).
Hypothesis Hdirs : NoDup (run_dirs image_dir label_dir output_dir).

Lemma pools_not_output :
  (image_dir ∉ output_dirs output_dir) /\ (label_dir ∉ output_dirs output_dir).
Proof.
  pose proof Hdirs as Hd. unfold run_dirs in Hd.
  apply NoDup_cons in Hd as [Hi Hd]. apply NoDup_cons in Hd as [Hl _].
  split; [|done]. intros Hin. apply Hi. by right.
Qed.

(** The files of an assignment are those of the lists that were split. *)
Lemma assignment_perm (X y : list string) val_ratio test_ratio a :
  split_filenames permutation X y val_ratio test_ratio = Ok a ->
  train_pairs a ++ val_pairs a ++ test_pairs a ≡ₚ zip X y /\
  all_images a ≡ₚ X /\ all_labels a ≡ₚ y.
Proof.
  intros Hs.
  destruct (split_filenames_inv permutation Hperm _ _ _ _ _ Hs)
    as (Hlen & L1 & L2 & L3 & Hp).
  split; [done|]. split.
  - rewrite <- (fst_zip X y) by lia. rewrite <- Hp.
    unfold train_pairs, val_pairs, test_pairs, all_images.
    rewrite !fmap_app, !fst_zip by lia. done.
  - rewrite <- (snd_zip X y) by lia. rewrite <- Hp.
    unfold train_pairs, val_pairs, test_pairs, all_labels.
    rewrite !fmap_app, !snd_zip by lia. done.
Qed.

(** A run that returns: the assignment it computed from the two pools is
    relocated in full. *)
Lemma split_data_completed train_ratio val_ratio test_ratio (fs : filesystem) c fs' :
  split_data permutation image_dir label_dir output_dir
    train_ratio val_ratio test_ratio fs = (Ok c, fs') ->
  exists il ll a,
    fs !! image_dir = Some il /\ fs !! label_dir = Some ll /\
    split_filenames permutation (matched_of il ll).*1 (matched_of il ll).*2
      val_ratio test_ratio = Ok a /\
    c = (length (train_images a), length (val_images a), length (test_images a)) /\
    relocated image_dir label_dir output_dir a fs fs' /\
    (forall p, p ∈ output_dirs output_dir -> is_dir fs' p) /\
    NoDup (all_labels a) /\
    (forall g, g ∈ all_labels a -> g ∈ ll).
Proof.
  intros Hrun.
  apply split_data_inv in Hrun
    as (_ & fs0 & il & ll & a & Hmade & Hi & Hl & Hs & Hrel & ->).
  destruct pools_not_output as [Pi Pl].
  rewrite (made_other _ _ _ _ Hmade Pi) in Hi.
  rewrite (made_other _ _ _ _ Hmade Pl) in Hl.
  apply (relocate_inv _ _ _ Hdirs) in Hrel as (_ & Nl & _ & Il & Hrel & Hd).
  exists il, ll, a. split_and!; try done.
  - by eapply relocated_made.
  - intros p Hp. apply Hd. by apply Hmade.
  - intros g Hg. apply Il in Hg. apply (made_in_dir _ _ _ _ _ Hmade) in Hg.
    by apply (in_dir_lookup _ _ _ _ Hl) in Hg.
Qed.

(** Whatever the outcome of a run, the files it has relocated are part of
    an assignment computed from the two pools. *)
Lemma split_data_any train_ratio val_ratio test_ratio (fs : filesystem) r fs' :
  split_data permutation image_dir label_dir output_dir
    train_ratio val_ratio test_ratio fs = (r, fs') ->
  exists placed,
    relocated image_dir label_dir output_dir placed fs fs' /\
    (placed = no_files \/
     exists il ll a,
       fs !! image_dir = Some il /\ fs !! label_dir = Some ll /\
       split_filenames permutation (matched_of il ll).*1 (matched_of il ll).*2
         val_ratio test_ratio = Ok a /\
       sub_assignment placed a).
Proof.
  unfold split_data.
  destruct (PyFloat.eqb _ _); simpl.
  2:{ intros [= <- <-]. exists no_files. split; [|by left].
      apply (relocated_no_files _ _ _ []), made_nil. }
  destruct (make_output_dirs_made output_dir fs) as (fs0 & Hmk & Hmade).
  rewrite (bind_ok _ _ _ _ _ Hmk).
  destruct pools_not_output as [Pi Pl].
  unfold bind at 1.
  destruct (assign_files _ _ _ _ _ fs0) as [[a|e] fs1] eqn:Ha.
  2:{ intros [= <- <-]. exists no_files. split; [|by left].
      assert (fs1 = fs0) as ->; [|by eapply relocated_no_files].
      revert Ha. unfold assign_files, bind, listdir, lift.
      destruct (fs0 !! image_dir); [|by intros [= _ <-]].
      destruct (fs0 !! label_dir); by intros [= _ <-]. }
  apply assign_files_inv in Ha as (-> & il & ll & Hi & Hl & Hs).
  rewrite (made_other _ _ _ _ Hmade Pi) in Hi.
  rewrite (made_other _ _ _ _ Hmade Pl) in Hl.
  unfold bind.
  destruct (relocate _ _ _ a fs0) as [r1 fs2] eqn:Hrel.
  apply (relocate_any _ _ _ Hdirs) in Hrel as (placed & Hsub & Hrel & _).
  intros Hrun.
  assert (fs' = fs2) as -> by (destruct r1; by injection Hrun as _ <-).
  exists placed. split; [by eapply relocated_made|].
  right. by exists il, ll, a.
Qed.

(** A run returns when the ratios pass the check, the split returns, and
    the matched labels are distinct files of the label pool. *)
Lemma split_data_ok train_ratio val_ratio test_ratio (fs : filesystem) il ll a :
  PyFloat.eqb (PyFloat.add (PyFloat.add train_ratio val_ratio) test_ratio)
    (PyFloat.of_int 1) = true ->
  fs !! image_dir = Some il -> fs !! label_dir = Some ll ->
  NoDup il ->
  NoDup (matched_of il ll).*2 ->
  (forall g, g ∈ (matched_of il ll).*2 -> g ∈ ll) ->
  split_filenames permutation (matched_of il ll).*1 (matched_of il ll).*2
    val_ratio test_ratio = Ok a ->
  exists fs',
    split_data permutation image_dir label_dir output_dir
      train_ratio val_ratio test_ratio fs
    = (Ok (length (train_images a), length (val_images a), length (test_images a)), fs').
Proof.
  intros Hsum Hi Hl Ni Nl Il Hs.
  unfold split_data. rewrite Hsum. simpl.
  destruct (make_output_dirs_made output_dir fs) as (fs0 & Hmk & Hmade).
  rewrite (bind_ok _ _ _ _ _ Hmk).
  pose proof Hmade as (Hd & Hk & _).
  pose proof (assign_files_eq permutation _ _ val_ratio test_ratio _ _ _
                (Hk _ _ Hi) (Hk _ _ Hl)) as Ha.
  rewrite Hs in Ha. rewrite (bind_ok _ _ _ _ _ Ha).
  destruct (assignment_perm _ _ _ _ _ Hs) as (_ & Pi & Pl).
  destruct (relocate_ok _ _ _ Hdirs a fs0) as [fs' Hrel].
  - done.
  - rewrite Pi. unfold matched_of. rewrite matched_images.
    by apply NoDup_filter, sorted_NoDup.
  - by rewrite Pl.
  - intros g Hg. rewrite Pi in Hg. unfold matched_of in Hg.
    rewrite matched_images in Hg.
    apply list_elem_of_filter in Hg as [_ Hg].
    apply (proj1 (sorted_elem_of _ _)) in Hg.
    exists il. split; [by apply Hk | done].
  - intros g Hg. rewrite Pl in Hg. exists ll. split; [by apply Hk | by apply Il].
  - exists fs'. by rewrite (bind_ok _ _ _ _ _ Hrel).
Qed.

End RunProperties.

(** * Properties of [splitext] *)

Lemma rfind_dot_txt b : rfind dot (b +:+ ".txt") = Some (String.length b).
Proof. induction b as [|c b IH]; [done|]. simpl. by rewrite IH. Qed.

Lemma str_take_app b s : str_take (String.length b) (b +:+ s) = b.
Proof.
  unfold str_take. induction b as [|c b IH]; simpl.
  - by destruct s.
  - by rewrite IH.
Qed.

Lemma substring_all s : String.substring 0 (String.length s) s = s.
Proof. induction s as [|c s IH]; simpl; [done | by rewrite IH]. Qed.

Lemma str_drop_app b s : str_drop (String.length b) (b +:+ s) = s.
Proof.
  unfold str_drop. induction b as [|c b IH]; simpl.
  - rewrite Nat.sub_0_r. apply substring_all.
  - apply IH.
Qed.

(** A base name that is not made of dots alone is recovered from the label
    name built on it. *)
Lemma splitext_label_name b :
  all_dots b = false -> splitext (b +:+ ".txt") = (b, ".txt").
Proof.
  intros Hb. unfold splitext. rewrite rfind_dot_txt, str_take_app, Hb.
  by rewrite str_drop_app.
Qed.

(** * The script and sample pools *)

(** The paths the script runs with. *)
Module Script.

Definition data_dir : string := "data/drowning".
Definition image_dir : string := path_join data_dir "all_images".
Definition label_dir : string := path_join data_dir "all_labels".
Definition output_dir : string := "data/drowning_resplit".

End Script.

(** The ratio check of [split_data]. *)
Definition ratio_check (train_ratio val_ratio test_ratio : float) : bool :=
  PyFloat.eqb (PyFloat.add (PyFloat.add train_ratio val_ratio) test_ratio)
    (PyFloat.of_int 1).

(** A file system that holds the two pools of the script and nothing else. *)
Definition pools (images labels : list string) : filesystem :=
  <[Script.image_dir := images]> (<[Script.label_dir := labels]> ∅).

Lemma pools_images images labels : pools images labels !! Script.image_dir = Some images.
Proof. apply lookup_insert_eq. Qed.

Lemma pools_labels images labels : pools images labels !! Script.label_dir = Some labels.
Proof. unfold pools. rewrite lookup_insert_ne by done. apply lookup_insert_eq. Qed.

(** A run is determined by its outcome and the file system it leaves. *)
Lemma outcome_eta {A} (run : result A * filesystem) r :
  run.1 = r -> run = (r, run.2).
Proof. destruct run. by intros <-. Qed.

(** One shuffle among many: the indices in decreasing order. *)
Definition reversed (n : nat) : list nat := reverse (seq 0 n).

Lemma reversed_shuffles : shuffles reversed.
Proof. intros n. apply reverse_Permutation. Qed.

Lemma script_dirs_distinct :
  NoDup (run_dirs Script.image_dir Script.label_dir Script.output_dir).
Proof. apply (bool_decide_unpack _). by vm_compute. Qed.

(** * The ratio check (claims C2, C6) *)

(** C2: ratios whose float sum is not 1 make [split_data] fail at once with
    the assertion error and leave the file system as it was: no output
    directory is created and no file is moved.  The ratios 0.5/0.3/0.3 are
    such a triple. *)
Theorem C2_bad_ratios_rejected permutation image_dir label_dir output_dir
    train_ratio val_ratio test_ratio (fs : filesystem) :
  (ratio_check train_ratio val_ratio test_ratio = false ->
   split_data permutation image_dir label_dir output_dir
     train_ratio val_ratio test_ratio fs = (Raise AssertionError, fs)) /\
  split_data permutation image_dir label_dir output_dir
    (PyFloat.lit 5 10) (PyFloat.lit 3 10) (PyFloat.lit 3 10) fs
  = (Raise AssertionError, fs).
Proof.
  split.
  - unfold ratio_check, split_data. by intros ->.
  - done.
Qed.

Lemma C2_bad_ratios_rejected_witness :
  ratio_check (PyFloat.lit 1 2) (PyFloat.lit 1 4) (PyFloat.lit 1 8) = false /\
  split_data reversed Script.image_dir Script.label_dir Script.output_dir
    (PyFloat.lit 1 2) (PyFloat.lit 1 4) (PyFloat.lit 1 8)
    (pools ["a.jpg"] ["a.txt"])
  = (Raise AssertionError, pools ["a.jpg"] ["a.txt"]).
Proof.
  split; [by vm_compute|].
  apply (proj1 (C2_bad_ratios_rejected reversed Script.image_dir Script.label_dir
           Script.output_dir (PyFloat.lit 1 2) (PyFloat.lit 1 4) (PyFloat.lit 1 8)
           (pools ["a.jpg"] ["a.txt"]))).
  by vm_compute.
Defined.

(** C6: the decimal ratios 0.7, 0.2 and 0.1 add up to 1, but their float sum
    is 0.9999999999999999, so the exact comparison of the ratio check
    rejects them and the run stops before the split. *)
Theorem C6_float_sum_rejected permutation image_dir label_dir output_dir
    (fs : filesystem) :
  (7 + 2 + 1 = 10)%Z /\
  PyFloat.add (PyFloat.add (PyFloat.lit 7 10) (PyFloat.lit 2 10)) (PyFloat.lit 1 10)
  = S754_finite false 9007199254740991 (-53) /\
  ratio_check (PyFloat.lit 7 10) (PyFloat.lit 2 10) (PyFloat.lit 1 10) = false /\
  split_data permutation image_dir label_dir output_dir
    (PyFloat.lit 7 10) (PyFloat.lit 2 10) (PyFloat.lit 1 10) fs
  = (Raise AssertionError, fs).
Proof. split_and!; by vm_compute. Qed.

(** * All the data in the train bucket (claim C7) *)

(** A held-out fraction of 0 is refused by the first call of
    [train_test_split], whatever the lists are. *)
Lemma split_filenames_zero permutation (X y : list string) :
  length X = length y ->
  split_filenames permutation X y (PyFloat.of_int 0) (PyFloat.of_int 0)
  = Raise ValueError.
Proof.
  intros Hlen. unfold split_filenames, train_test_split.
  rewrite Hlen, Nat.eqb_refl. done.
Qed.

Lemma split_data_checked permutation image_dir label_dir output_dir
    train_ratio val_ratio test_ratio (fs : filesystem) :
  ratio_check train_ratio val_ratio test_ratio = true ->
  split_data permutation image_dir label_dir output_dir
    train_ratio val_ratio test_ratio fs
  = (make_output_dirs output_dir ;;;
     a <- assign_files permutation image_dir label_dir val_ratio test_ratio ;;
     relocate image_dir label_dir output_dir a ;;;
     ret (length (train_images a), length (val_images a), length (test_images a)))%py
      fs.
Proof. unfold ratio_check, split_data. by intros ->. Qed.

(** C7, the run: with the ratios 1, 0 and 0 no run returns. *)
Lemma C7_counterexample :
  ~ exists permutation c fs',
      split_data permutation Script.image_dir Script.label_dir Script.output_dir
        (PyFloat.of_int 1) (PyFloat.of_int 0) (PyFloat.of_int 0)
        (pools ["a.jpg"; "b.jpg"; "c.jpg"] ["a.txt"; "b.txt"; "c.txt"])
      = (Ok c, fs').
Proof.
  intros (permutation & c & fs' & Hrun).
  apply split_data_inv in Hrun as (_ & fs0 & il & ll & a & _ & _ & _ & Hs & _).
  rewrite split_filenames_zero in Hs by apply matched_length.
  discriminate.
Qed.

(** C7, as amended: with the ratios 1, 0 and 0 the check of the ratios
    passes and the six output directories are created; then the first call
    of [train_test_split] refuses the held-out fraction 0 and the run stops
    with [ValueError].  No file is moved: every directory holds the files
    it held, so the validation and test directories exist and have gained
    nothing, and the train directories have gained nothing either. *)
Theorem C7_all_train_refused permutation image_dir label_dir output_dir
    (fs : filesystem) :
  is_dir fs image_dir -> is_dir fs label_dir ->
  exists fs',
    split_data permutation image_dir label_dir output_dir
      (PyFloat.of_int 1) (PyFloat.of_int 0) (PyFloat.of_int 0) fs
    = (Raise ValueError, fs') /\
    (forall p, p ∈ output_dirs output_dir -> is_dir fs' p) /\
    (forall p l, fs !! p = Some l -> fs' !! p = Some l) /\
    (forall p g, in_dir fs' p g <-> in_dir fs p g).
Proof.
  intros [il Hi] [ll Hl].
  destruct (make_output_dirs_made output_dir fs) as (fs0 & Hmk & Hmade).
  exists fs0. split_and!.
  - rewrite split_data_checked by (by vm_compute).
    rewrite (bind_ok _ _ _ _ _ Hmk).
    pose proof Hmade as (_ & Hk & _).
    pose proof (assign_files_eq permutation _ _ (PyFloat.of_int 0) (PyFloat.of_int 0)
                  _ _ _ (Hk _ _ Hi) (Hk _ _ Hl)) as Ha.
    rewrite split_filenames_zero in Ha by apply matched_length.
    unfold bind at 1. by rewrite Ha.
  - by destruct Hmade as (? & _).
  - by destruct Hmade as (_ & ? & _).
  - intros p g. by eapply made_in_dir.
Qed.

Lemma C7_all_train_refused_witness :
  is_dir (pools ["a.jpg"; "b.jpg"; "c.jpg"] ["a.txt"; "b.txt"; "c.txt"])
    Script.image_dir /\
  is_dir (pools ["a.jpg"; "b.jpg"; "c.jpg"] ["a.txt"; "b.txt"; "c.txt"])
    Script.label_dir /\
  exists fs',
    split_data reversed Script.image_dir Script.label_dir Script.output_dir
      (PyFloat.of_int 1) (PyFloat.of_int 0) (PyFloat.of_int 0)
      (pools ["a.jpg"; "b.jpg"; "c.jpg"] ["a.txt"; "b.txt"; "c.txt"])
    = (Raise ValueError, fs') /\
    (forall p, p ∈ output_dirs Script.output_dir -> is_dir fs' p) /\
    (forall p l, pools ["a.jpg"; "b.jpg"; "c.jpg"] ["a.txt"; "b.txt"; "c.txt"] !! p
                 = Some l -> fs' !! p = Some l) /\
    (forall p g, in_dir fs' p g <->
                 in_dir (pools ["a.jpg"; "b.jpg"; "c.jpg"] ["a.txt"; "b.txt"; "c.txt"]) p g).
Proof.
  assert (H1 : is_dir (pools ["a.jpg"; "b.jpg"; "c.jpg"] ["a.txt"; "b.txt"; "c.txt"])
                 Script.image_dir) by (by eexists; vm_compute).
  assert (H2 : is_dir (pools ["a.jpg"; "b.jpg"; "c.jpg"] ["a.txt"; "b.txt"; "c.txt"])
                 Script.label_dir) by (by eexists; vm_compute).
  split; [exact H1|]. split; [exact H2|].
  exact (C7_all_train_refused reversed Script.image_dir Script.label_dir
           Script.output_dir _ H1 H2).
Defined.

(** * Determinism (claim C4) *)

(** The two file systems hold the same names in directory [p]; the order
    in which [os.listdir] reports them may differ. *)
Definition same_contents (fs1 fs2 : filesystem) (p : string) : Prop :=
  match fs1 !! p, fs2 !! p with
  | Some l1, Some l2 => l1 ≡ₚ l2
  | None, None => True
  | _, _ => False
  end.

(** C4: two runs on pools with the same contents, with the same ratios and
    the same seeded shuffle, compute the same assignment (or fail alike),
    in whatever order the two pools are listed: the listings are sorted
    before they are matched and split. *)
Theorem C4_deterministic permutation image_dir label_dir val_ratio test_ratio
    (fs1 fs2 : filesystem) :
  same_contents fs1 fs2 image_dir -> same_contents fs1 fs2 label_dir ->
  (assign_files permutation image_dir label_dir val_ratio test_ratio fs1).1
  = (assign_files permutation image_dir label_dir val_ratio test_ratio fs2).1.
Proof.
  unfold same_contents. intros Hi Hl.
  destruct (fs1 !! image_dir) as [il1|] eqn:Hi1,
           (fs2 !! image_dir) as [il2|] eqn:Hi2; try done.
  2:{ unfold assign_files, bind, listdir. by rewrite Hi1, Hi2. }
  destruct (fs1 !! label_dir) as [ll1|] eqn:Hl1,
           (fs2 !! label_dir) as [ll2|] eqn:Hl2; try done.
  2:{ unfold assign_files, bind, listdir. by rewrite Hi1, Hi2, Hl1, Hl2. }
  rewrite (assign_files_eq _ _ _ _ _ _ _ _ Hi1 Hl1).
  rewrite (assign_files_eq _ _ _ _ _ _ _ _ Hi2 Hl2).
  simpl. unfold matched_of.
  by rewrite (sorted_unique _ _ Hi), (sorted_unique _ _ Hl).
Qed.

Lemma C4_deterministic_witness :
  same_contents (pools ["b.jpg"; "a.jpg"; "c.jpg"] ["c.txt"; "a.txt"; "b.txt"])
    (pools ["c.jpg"; "b.jpg"; "a.jpg"] ["a.txt"; "b.txt"; "c.txt"]) Script.image_dir /\
  same_contents (pools ["b.jpg"; "a.jpg"; "c.jpg"] ["c.txt"; "a.txt"; "b.txt"])
    (pools ["c.jpg"; "b.jpg"; "a.jpg"] ["a.txt"; "b.txt"; "c.txt"]) Script.label_dir /\
  (assign_files reversed Script.image_dir Script.label_dir
     default_val_ratio default_test_ratio
     (pools ["b.jpg"; "a.jpg"; "c.jpg"] ["c.txt"; "a.txt"; "b.txt"])).1
  = (assign_files reversed Script.image_dir Script.label_dir
       default_val_ratio default_test_ratio
       (pools ["c.jpg"; "b.jpg"; "a.jpg"] ["a.txt"; "b.txt"; "c.txt"])).1.
Proof.
  assert (H1 : same_contents
                 (pools ["b.jpg"; "a.jpg"; "c.jpg"] ["c.txt"; "a.txt"; "b.txt"])
                 (pools ["c.jpg"; "b.jpg"; "a.jpg"] ["a.txt"; "b.txt"; "c.txt"])
                 Script.image_dir).
  { unfold same_contents. rewrite !pools_images.
    apply (bool_decide_unpack _). by vm_compute. }
  assert (H2 : same_contents
                 (pools ["b.jpg"; "a.jpg"; "c.jpg"] ["c.txt"; "a.txt"; "b.txt"])
                 (pools ["c.jpg"; "b.jpg"; "a.jpg"] ["a.txt"; "b.txt"; "c.txt"])
                 Script.label_dir).
  { unfold same_contents. rewrite !pools_labels.
    apply (bool_decide_unpack _). by vm_compute. }
  split; [exact H1|]. split; [exact H2|].
  exact (C4_deterministic reversed Script.image_dir Script.label_dir
           default_val_ratio default_test_ratio _ _ H1 H2).
Defined.

(** * The partition (claim C1) *)

(** C1: when the two calls of [train_test_split] return, the pairs of the
    three buckets are a rearrangement of the matched pairs, none omitted
    and none added; no pair occurs twice, and no pair is in two buckets. *)
Theorem C1_exhaustive_partition permutation image_listing label_listing
    val_ratio test_ratio a :
  shuffles permutation ->
  NoDup image_listing ->
  split_filenames permutation
    (matched_of image_listing label_listing).*1
    (matched_of image_listing label_listing).*2 val_ratio test_ratio = Ok a ->
  train_pairs a ++ val_pairs a ++ test_pairs a
    ≡ₚ matched_of image_listing label_listing /\
  (forall pair, pair ∈ matched_of image_listing label_listing <->
                pair ∈ train_pairs a \/ pair ∈ val_pairs a \/ pair ∈ test_pairs a) /\
  NoDup (train_pairs a ++ val_pairs a ++ test_pairs a) /\
  (forall pair, pair ∈ train_pairs a -> pair ∉ val_pairs a) /\
  (forall pair, pair ∈ train_pairs a -> pair ∉ test_pairs a) /\
  (forall pair, pair ∈ val_pairs a -> pair ∉ test_pairs a).
Proof.
  intros Hperm Hnd Hs.
  destruct (assignment_perm permutation Hperm _ _ _ _ _ Hs) as (Hp & _).
  rewrite zip_fst_snd in Hp.
  assert (Hn : NoDup (train_pairs a ++ val_pairs a ++ test_pairs a)).
  { rewrite Hp. by apply matched_NoDup, sorted_NoDup. }
  split; [done|]. split.
  { intros pair. rewrite <- Hp, !elem_of_app. tauto. }
  split; [done|].
  apply NoDup_app in Hn as (_ & D1 & Hn).
  apply NoDup_app in Hn as (_ & D2 & _).
  split_and!.
  - intros pair H1 H2. apply (D1 pair H1). rewrite elem_of_app. by left.
  - intros pair H1 H2. apply (D1 pair H1). rewrite elem_of_app. by right.
  - intros pair H1 H2. by apply (D2 pair H1).
Qed.

Lemma C1_exhaustive_partition_witness :
  shuffles reversed /\
  NoDup ["b.jpg"; "a.jpg"; "d.jpg"; "c.jpg"; "e.jpg"] /\
  exists a,
    split_filenames reversed
      (matched_of ["b.jpg"; "a.jpg"; "d.jpg"; "c.jpg"; "e.jpg"]
                  ["a.txt"; "b.txt"; "c.txt"; "e.txt"]).*1
      (matched_of ["b.jpg"; "a.jpg"; "d.jpg"; "c.jpg"; "e.jpg"]
                  ["a.txt"; "b.txt"; "c.txt"; "e.txt"]).*2
      default_val_ratio default_test_ratio = Ok a /\
    train_pairs a ++ val_pairs a ++ test_pairs a
      ≡ₚ matched_of ["b.jpg"; "a.jpg"; "d.jpg"; "c.jpg"; "e.jpg"]
                    ["a.txt"; "b.txt"; "c.txt"; "e.txt"].
Proof.
  assert (Hn : NoDup ["b.jpg"; "a.jpg"; "d.jpg"; "c.jpg"; "e.jpg"]).
  { apply (bool_decide_unpack _). by vm_compute. }
  split; [exact reversed_shuffles|]. split; [exact Hn|].
  eexists. split; [vm_compute; reflexivity|].
  refine (proj1 (C1_exhaustive_partition reversed
            ["b.jpg"; "a.jpg"; "d.jpg"; "c.jpg"; "e.jpg"]
            ["a.txt"; "b.txt"; "c.txt"; "e.txt"]
            default_val_ratio default_test_ratio _ reversed_shuffles Hn _)).
  vm_compute; reflexivity.
Defined.

(** * Where the files go (claims C3, C8, C9) *)

Lemma placements_elem a split image label :
  (split, image, label) ∈ placements a <->
  (split = "train" /\ (image, label) ∈ train_pairs a) \/
  (split = "valid" /\ (image, label) ∈ val_pairs a) \/
  (split = "test" /\ (image, label) ∈ test_pairs a).
Proof.
  unfold placements. rewrite !elem_of_app, !list_elem_of_fmap. split.
  - intros [([i l] & [= -> -> ->] & H)|[([i l] & [= -> -> ->] & H)
                                        |([i l] & [= -> -> ->] & H)]]; auto.
  - intros [[-> H]|[[-> H]|[-> H]]].
    + left. by exists (image, label).
    + right; left. by exists (image, label).
    + right; right. by exists (image, label).
Qed.

Lemma zip_elem_l {A B} (l : list A) (k : list B) x :
  (length l <= length k)%nat -> x ∈ l -> exists y, (x, y) ∈ zip l k.
Proof.
  intros Hlen Hx. rewrite <- (fst_zip l k) in Hx by lia.
  apply list_elem_of_fmap in Hx as ([x' y] & -> & Hin). by exists y.
Qed.

Lemma zip_elem_r {A B} (l : list A) (k : list B) y :
  (length k <= length l)%nat -> y ∈ k -> exists x, (x, y) ∈ zip l k.
Proof.
  intros Hlen Hy. rewrite <- (snd_zip l k) in Hy by lia.
  apply list_elem_of_fmap in Hy as ([x y'] & -> & Hin). by exists x.
Qed.

Section Placement.

Variable permutation : nat -> list nat.
Hypothesis Hperm : shuffles permutation.
Context (image_dir label_dir output_dir : string).
Hypothesis Hdirs : NoDup (run_dirs image_dir label_dir output_dir).

(** In the file system [fs'] that a relocation of [a] leaves, every
    placement of [a] is in place. *)
Lemma relocated_placements a (fs fs' : filesystem) split image label :
  relocated image_dir label_dir output_dir a fs fs' ->
  (split, image, label) ∈ placements a ->
  in_dir fs' (path_join3 output_dir split "images") image /\
  in_dir fs' (path_join3 output_dir split "labels") label.
Proof.
  intros [_ _ R1 R2 R3 R4 R5 R6 _] Hp.
  apply placements_elem in Hp as [[-> H]|[[-> H]|[-> H]]];
    pose proof (elem_of_zip_l _ _ _ _ H) as Hi;
    pose proof (elem_of_zip_r _ _ _ _ H) as Hl.
  - split; [apply R1 | apply R2]; by right.
  - split; [apply R3 | apply R4]; by right.
  - split; [apply R5 | apply R6]; by right.
Qed.

(** The placements of an assignment are the matched pairs, each once. *)
Lemma placements_matched il ll val_ratio test_ratio a :
  split_filenames permutation (matched_of il ll).*1 (matched_of il ll).*2
    val_ratio test_ratio = Ok a ->
  (forall split image label,
     (split, image, label) ∈ placements a -> (image, label) ∈ matched_of il ll) /\
  (forall image label,
     (image, label) ∈ matched_of il ll ->
     exists split, (split, image, label) ∈ placements a).
Proof.
  intros Hs.
  destruct (assignment_perm permutation Hperm _ _ _ _ _ Hs) as (Hp & _).
  rewrite zip_fst_snd in Hp. split.
  - intros split image label H. rewrite <- Hp, !elem_of_app.
    apply placements_elem in H. tauto.
  - intros image label H. rewrite <- Hp, !elem_of_app in H.
    destruct H as [H|[H|H]].
    + exists "train". apply placements_elem. auto.
    + exists "valid". apply placements_elem. auto.
    + exists "test". apply placements_elem. auto.
Qed.

(** An image that an output directory has gained is an image of the
    bucket of that directory, and so is paired with its label there. *)
Lemma gained_image_placed a (fs fs' : filesystem) split image :
  length (train_labels a) = length (train_images a) ->
  length (val_labels a) = length (val_images a) ->
  length (test_labels a) = length (test_images a) ->
  relocated image_dir label_dir output_dir a fs fs' ->
  split ∈ splits ->
  in_dir fs' (path_join3 output_dir split "images") image ->
  ~ in_dir fs (path_join3 output_dir split "images") image ->
  exists label, (split, image, label) ∈ placements a.
Proof.
  intros L1 L2 L3 [_ _ R1 _ R3 _ R5 _ _] Hsplit Hin Hnot.
  unfold splits in Hsplit. rewrite !elem_of_cons, elem_of_nil in Hsplit.
  destruct Hsplit as [->|[->|[->|[]]]].
  - apply R1 in Hin as [?|Hin]; [done|].
    destruct (zip_elem_l (train_images a) (train_labels a) image) as [label Hl];
      [lia | done |].
    exists label. apply placements_elem. auto.
  - apply R3 in Hin as [?|Hin]; [done|].
    destruct (zip_elem_l (val_images a) (val_labels a) image) as [label Hl];
      [lia | done |].
    exists label. apply placements_elem. auto.
  - apply R5 in Hin as [?|Hin]; [done|].
    destruct (zip_elem_l (test_images a) (test_labels a) image) as [label Hl];
      [lia | done |].
    exists label. apply placements_elem. auto.
Qed.

End Placement.

(** C3: in a run that returns, every image that an output directory has
    gained has its label, [<base>.txt], in the labels directory of the same
    split. *)
Theorem C3_label_with_image permutation image_dir label_dir output_dir
    train_ratio val_ratio test_ratio (fs : filesystem) c fs' :
  shuffles permutation ->
  NoDup (run_dirs image_dir label_dir output_dir) ->
  split_data permutation image_dir label_dir output_dir
    train_ratio val_ratio test_ratio fs = (Ok c, fs') ->
  forall split image,
    split ∈ splits ->
    in_dir fs' (path_join3 output_dir split "images") image ->
    ~ in_dir fs (path_join3 output_dir split "images") image ->
    in_dir fs' (path_join3 output_dir split "labels") (label_name image).
Proof.
  intros Hperm Hdirs Hrun split image Hsplit Hin Hnot.
  apply (split_data_completed _ _ _ _ Hdirs) in Hrun
    as (il & ll & a & _ & _ & Hs & _ & Hrel & _).
  destruct (split_filenames_inv permutation Hperm _ _ _ _ _ Hs)
    as (_ & L1 & L2 & L3 & _).
  destruct (gained_image_placed _ _ _ a fs fs' split image L1 L2 L3 Hrel Hsplit Hin Hnot)
    as [label Hp].
  destruct (placements_matched permutation Hperm _ _ _ _ _ Hs) as [Hm _].
  apply Hm in Hp as Hpair. apply matched_pair in Hpair as (_ & _ & ->).
  by apply (relocated_placements _ _ _ _ _ _ _ _ _ Hrel Hp).
Qed.

(** A run on a small pool, with the default ratios. *)
Definition sample_pools : filesystem :=
  pools ["b.jpg"; "a.jpg"; "c.png"] ["a.txt"; "c.txt"; "b.txt"].

Definition sample_run : result (nat * nat * nat) * filesystem :=
  split_data reversed Script.image_dir Script.label_dir Script.output_dir
    default_train_ratio default_val_ratio default_test_ratio sample_pools.

Lemma sample_run_returns : sample_run = (Ok (1, 1, 1)%nat, sample_run.2).
Proof. apply outcome_eta. vm_compute. reflexivity. Qed.

Lemma C3_label_with_image_witness :
  shuffles reversed /\
  NoDup (run_dirs Script.image_dir Script.label_dir Script.output_dir) /\
  sample_run = (Ok (1, 1, 1)%nat, sample_run.2) /\
  forall split image,
    split ∈ splits ->
    in_dir sample_run.2 (path_join3 Script.output_dir split "images") image ->
    ~ in_dir sample_pools (path_join3 Script.output_dir split "images") image ->
    in_dir sample_run.2 (path_join3 Script.output_dir split "labels") (label_name image).
Proof.
  split; [exact reversed_shuffles|]. split; [exact script_dirs_distinct|].
  split; [exact sample_run_returns|].
  exact (C3_label_with_image reversed Script.image_dir Script.label_dir
           Script.output_dir default_train_ratio default_val_ratio default_test_ratio
           sample_pools (1, 1, 1)%nat sample_run.2
           reversed_shuffles script_dirs_distinct sample_run_returns).
Defined.

(** C8: a pool with exactly ten matched pairs, each image with its own
    label file in the label pool, is split by the default ratios 0.6, 0.2
    and 0.2 into 6 train, 2 validation and 2 test pairs; the run returns
    and leaves each image in the images directory and its label in the
    labels directory of the same split. *)
Theorem C8_ten_pairs permutation image_dir label_dir output_dir
    (fs : filesystem) il ll :
  shuffles permutation ->
  NoDup (run_dirs image_dir label_dir output_dir) ->
  fs !! image_dir = Some il -> fs !! label_dir = Some ll ->
  NoDup il ->
  length (matched_of il ll) = 10%nat ->
  NoDup (matched_of il ll).*2 ->
  (matched_of il ll).*2 ⊆ ll ->
  exists fs' a,
    split_data permutation image_dir label_dir output_dir
      default_train_ratio default_val_ratio default_test_ratio fs
    = (Ok (6, 2, 2)%nat, fs') /\
    length (train_pairs a) = 6%nat /\
    length (val_pairs a) = 2%nat /\
    length (test_pairs a) = 2%nat /\
    train_pairs a ++ val_pairs a ++ test_pairs a ≡ₚ matched_of il ll /\
    forall split image label,
      (split, image, label) ∈ placements a ->
      label = label_name image /\
      in_dir fs' (path_join3 output_dir split "images") image /\
      in_dir fs' (path_join3 output_dir split "labels") label.
Proof.
  intros Hperm Hdirs Hi Hl Ni Hten Nl Il.
  assert (HX : length (matched_of il ll).*1 = 10%nat) by by rewrite length_fmap.
  assert (Hxy : length (matched_of il ll).*1 = length (matched_of il ll).*2)
    by by rewrite !length_fmap.
  assert (V1 : validate_shuffle_split (length (matched_of il ll).*1)
                 (PyFloat.add default_val_ratio default_test_ratio) = Ok (6, 4)).
  { rewrite HX. by vm_compute. }
  assert (Hts : PyFloat.div default_test_ratio
                  (PyFloat.add default_val_ratio default_test_ratio)
                = Some (PyFloat.lit 1 2)) by by vm_compute.
  assert (V2 : validate_shuffle_split (Z.to_nat 4) (PyFloat.lit 1 2) = Ok (2, 2))
    by by vm_compute.
  destruct (split_filenames_ok permutation Hperm _ _ _ _ _ _ _ _ _ Hxy V1
              ltac:(rewrite HX; lia) Hts V2 ltac:(lia)) as [a Hs].
  destruct (split_filenames_sizes permutation Hperm _ _ _ _ _ Hs)
    as (n1 & t1 & ts & n2 & t2 & V1' & Hts' & V2' & S1 & S2 & S3).
  rewrite V1 in V1'. injection V1' as <- <-.
  rewrite Hts in Hts'. injection Hts' as <-.
  rewrite V2 in V2'. injection V2' as <- <-.
  destruct (split_filenames_inv permutation Hperm _ _ _ _ _ Hs)
    as (_ & L1 & L2 & L3 & Hp).
  rewrite zip_fst_snd in Hp.
  destruct (split_data_ok permutation Hperm _ _ _ Hdirs
              default_train_ratio default_val_ratio default_test_ratio
              fs il ll a) as [fs' Hrun];
    [by vm_compute | exact Hi | exact Hl | exact Ni | exact Nl | exact Il | exact Hs |].
  exists fs', a.
  rewrite S1, S2, S3 in Hrun. split; [exact Hrun|].
  unfold train_pairs, val_pairs, test_pairs in *.
  rewrite !length_zip, L1, L2, L3, S1, S2, S3.
  clear V1 Hts V2.
  split; [reflexivity|]. split; [reflexivity|]. split; [reflexivity|].
  split; [exact Hp|].
  intros split image label Hpl.
  apply (split_data_completed _ _ _ _ Hdirs) in Hrun
    as (il' & ll' & a' & Hi' & Hl' & Hs' & _ & Hrel & _).
  rewrite Hi in Hi'. injection Hi' as <-.
  rewrite Hl in Hl'. injection Hl' as <-.
  rewrite Hs in Hs'. injection Hs' as <-.
  destruct (placements_matched permutation Hperm _ _ _ _ _ Hs) as [Hm _].
  pose proof (Hm _ _ _ Hpl) as Hpair.
  apply matched_pair in Hpair as (_ & _ & Hlabel).
  split; [done|].
  by apply (relocated_placements _ _ _ _ _ _ _ _ _ Hrel Hpl).
Qed.

(** The pool of the ten pairs [img0001] to [img0010]. *)
Definition ten_images : list string :=
  ["img0001.jpg"; "img0002.jpg"; "img0003.jpg"; "img0004.jpg"; "img0005.jpg";
   "img0006.jpg"; "img0007.jpg"; "img0008.jpg"; "img0009.jpg"; "img0010.jpg"].

Definition ten_labels : list string :=
  ["img0001.txt"; "img0002.txt"; "img0003.txt"; "img0004.txt"; "img0005.txt";
   "img0006.txt"; "img0007.txt"; "img0008.txt"; "img0009.txt"; "img0010.txt"].

Lemma C8_ten_pairs_witness :
  shuffles reversed /\
  NoDup (run_dirs Script.image_dir Script.label_dir Script.output_dir) /\
  pools ten_images ten_labels !! Script.image_dir = Some ten_images /\
  pools ten_images ten_labels !! Script.label_dir = Some ten_labels /\
  NoDup ten_images /\
  length (matched_of ten_images ten_labels) = 10%nat /\
  NoDup (matched_of ten_images ten_labels).*2 /\
  (matched_of ten_images ten_labels).*2 ⊆ ten_labels /\
  exists fs' a,
    split_data reversed Script.image_dir Script.label_dir Script.output_dir
      default_train_ratio default_val_ratio default_test_ratio
      (pools ten_images ten_labels)
    = (Ok (6, 2, 2)%nat, fs') /\
    length (train_pairs a) = 6%nat /\
    length (val_pairs a) = 2%nat /\
    length (test_pairs a) = 2%nat /\
    train_pairs a ++ val_pairs a ++ test_pairs a ≡ₚ matched_of ten_images ten_labels /\
    forall split image label,
      (split, image, label) ∈ placements a ->
      label = label_name image /\
      in_dir fs' (path_join3 Script.output_dir split "images") image /\
      in_dir fs' (path_join3 Script.output_dir split "labels") label.
Proof.
  assert (H1 : NoDup ten_images).
  { apply (bool_decide_unpack _). vm_compute. reflexivity. }
  assert (H2 : length (matched_of ten_images ten_labels) = 10%nat).
  { vm_compute. reflexivity. }
  assert (H3 : NoDup (matched_of ten_images ten_labels).*2).
  { apply (bool_decide_unpack _). vm_compute. reflexivity. }
  assert (H4 : (matched_of ten_images ten_labels).*2 ⊆ ten_labels).
  { apply (bool_decide_unpack _). vm_compute. reflexivity. }
  split; [exact reversed_shuffles|]. split; [exact script_dirs_distinct|].
  split; [apply pools_images|]. split; [apply pools_labels|].
  split; [exact H1|]. split; [exact H2|]. split; [exact H3|]. split; [exact H4|].
  exact (C8_ten_pairs reversed Script.image_dir Script.label_dir Script.output_dir
           (pools ten_images ten_labels) ten_images ten_labels
           reversed_shuffles script_dirs_distinct
           (pools_images _ _) (pools_labels _ _) H1 H2 H3 H4).
Defined.

(** * [combine_data] and the script

    [combine_data] copies files and prints warnings.  Its state is the
    file system together with the lines printed so far; besides the
    exceptions above it can raise [shutil.SameFileError], when a file is
    copied onto itself. *)

Record world : Type := World {
  files : filesystem;
  console : list string
}.

Inductive error : Set :=
  | Builtin (e : exn)
  | SameFileError.

Definition MC (A : Type) : Type := world -> (A + error) * world.

Definition cret {A} (a : A) : MC A := fun w => (inl a, w).
Definition cbind {A B} (m : MC A) (k : A -> MC B) : MC B :=
  fun w =>
    match m w with
    | (inl a, w') => k a w'
    | (inr e, w') => (inr e, w')
    end.

(** A computation on the file system alone, run in the larger state. *)
Definition from_M {A} (m : M A) : MC A :=
  fun w =>
    match m (files w) with
    | (Ok a, fs') => (inl a, World fs' (console w))
    | (Raise e, fs') => (inr (Builtin e), World fs' (console w))
    end.

Declare Scope copy_scope.
Delimit Scope copy_scope with copy.
Notation "x <- m ;; k" := (cbind m (fun x => k))
  (at level 100, m at next level, right associativity) : copy_scope.
Notation "m ;;; k" := (cbind m (fun _ => k))
  (at level 100, right associativity) : copy_scope.

(** [print(line)] *)
Definition print (line : string) : MC unit :=
  fun w => (inl (), World (files w) (console w ++ [line])).

(** [shutil.copy(os.path.join(source_dir, fname),
                 os.path.join(target_dir, fname))]: the target directory
    gains the entry, or keeps it when it has one of that name; the source
    directory is not changed.  A missing source file or target directory
    raises [FileNotFoundError]; a copy of a file onto itself raises
    [SameFileError]. *)
Definition copy (fname source_dir target_dir : string) : MC unit :=
  fun w =>
    match files w !! source_dir with
    | Some l =>
        if decide (fname ∈ l) then
          if decide (source_dir = target_dir) then (inr SameFileError, w)
          else
            match files w !! target_dir with
            | Some d =>
                (inl (),
                 World (<[target_dir := filter (fun g => g ≠ fname) d ++ [fname]]> (files w))
                       (console w))
            | None => (inr (Builtin FileNotFoundError), w)
            end
        else (inr (Builtin FileNotFoundError), w)
    | None => (inr (Builtin FileNotFoundError), w)
    end.

(** [os.path.exists(os.path.join(dir, fname))] *)
Definition path_exists (dir fname : string) : MC bool :=
  fun w =>
    (inl match files w !! dir with
         | Some l => bool_decide (fname ∈ l)
         | None => false
         end, w).

(** [for x in l: body(x)] in the larger state. *)
Fixpoint cfor_each {A} (l : list A) (body : A -> MC unit) : MC unit :=
  match l with
  | [] => cret ()
  | x :: l' => (body x ;;; cfor_each l' body)%copy
  end.

Definition subdirs : list string := ["train"; "valid"; "test"].

(** The line printed for an image without a label. *)
Definition warning (image_fname : string) : string :=
  "Warning: Label file not found for image " +:+ image_fname.

(** The body of the inner loop of [combine_data]. *)
Definition combine_file (sub_image_dir sub_label_dir image_dir label_dir
    image_fname : string) : MC unit :=
  (copy image_fname sub_image_dir image_dir ;;;
   let base_name := (splitext image_fname).1 in
   let label_fname := base_name +:+ ".txt" in
   found <- path_exists sub_label_dir label_fname ;;
   if found then copy label_fname sub_label_dir label_dir
   else print (warning image_fname))%copy.

(** The body of the outer loop of [combine_data]. *)
Definition combine_subdir (data_dir image_dir label_dir subdir : string) : MC unit :=
  let sub_image_dir := path_join3 data_dir subdir "images" in
  let sub_label_dir := path_join3 data_dir subdir "labels" in
  (listing <- from_M (listdir sub_image_dir) ;;
   cfor_each listing
     (combine_file sub_image_dir sub_label_dir image_dir label_dir))%copy.

Definition combine_data (data_dir image_dir label_dir : string) : MC unit :=
  (from_M (makedirs image_dir) ;;;
   from_M (makedirs label_dir) ;;;
   cfor_each subdirs (combine_subdir data_dir image_dir label_dir))%copy.

(** The script: the two calls at the top level of the module, with the
    paths of the module and the default ratios of [split_data].  The value
    is the triple of counts that [split_data] prints. *)
Definition script (permutation : nat -> list nat) : MC (nat * nat * nat) :=
  (combine_data Script.data_dir Script.image_dir Script.label_dir ;;;
   from_M (split_data permutation Script.image_dir Script.label_dir Script.output_dir
             default_train_ratio default_val_ratio default_test_ratio))%copy.

(** The six directories [combine_data] reads. *)
Definition source_dirs (data_dir : string) : list string :=
  [path_join3 data_dir "train" "images"; path_join3 data_dir "train" "labels";
   path_join3 data_dir "valid" "images"; path_join3 data_dir "valid" "labels";
   path_join3 data_dir "test" "images"; path_join3 data_dir "test" "labels"].

(** The names directory [p] holds; none when it does not exist. *)
Definition dir_listing (fs : filesystem) (p : string) : list string :=
  default [] (fs !! p).

(** The images of a listing whose label is in the labels directory [sl]
    of their own split, and those whose label is not. *)
Definition labelled (fs : filesystem) (sl : string) (listing : list string)
  : list string :=
  filter (fun image => label_name image ∈ dir_listing fs sl) listing.

Definition unlabelled (fs : filesystem) (sl : string) (listing : list string)
  : list string :=
  filter (fun image => label_name image ∉ dir_listing fs sl) listing.

(** What a part of [combine_data] that returns does to the state: the
    image pool gains [imgs], the label pool gains [lbls], the lines [warns]
    are printed, and nothing else changes. *)
Definition grown (image_dir label_dir : string) (imgs lbls warns : list string)
    (w w' : world) : Prop :=
  (forall g, in_dir (files w') image_dir g <-> in_dir (files w) image_dir g \/ g ∈ imgs) /\
  (forall g, in_dir (files w') label_dir g <-> in_dir (files w) label_dir g \/ g ∈ lbls) /\
  (forall p, p ≠ image_dir -> p ≠ label_dir -> files w' !! p = files w !! p) /\
  (forall p, is_dir (files w') p <-> is_dir (files w) p) /\
  console w' = console w ++ warns.

(** What any part of [combine_data] does, whatever its outcome: no
    directory loses a name or disappears, no directory but the two pools
    changes, and the console only grows. *)
Definition extended (image_dir label_dir : string) (w w' : world) : Prop :=
  (forall p g, in_dir (files w) p g -> in_dir (files w') p g) /\
  (forall p, is_dir (files w) p -> is_dir (files w') p) /\
  (forall p, p ≠ image_dir -> p ≠ label_dir -> files w' !! p = files w !! p) /\
  (exists lines, console w' = console w ++ lines).

(** * Properties of [combine_data] *)

Lemma cbind_inl_inv {A B} (m : MC A) (k : A -> MC B) w b w' :
  cbind m k w = (inl b, w') ->
  exists a w1, m w = (inl a, w1) /\ k a w1 = (inl b, w').
Proof.
  unfold cbind. destruct (m w) as [[a|e] w1]; [eauto | discriminate].
Qed.

Lemma cbind_inl {A B} (m : MC A) (k : A -> MC B) w a w1 :
  m w = (inl a, w1) -> cbind m k w = k a w1.
Proof. unfold cbind. by intros ->. Qed.

Lemma cbind_inr {A B} (m : MC A) (k : A -> MC B) w e w1 :
  m w = (inr e, w1) -> cbind m k w = (inr e, w1).
Proof. unfold cbind. by intros ->. Qed.

Lemma extended_refl image_dir label_dir w : extended image_dir label_dir w w.
Proof. split_and!; try done. exists []. by rewrite app_nil_r. Qed.

Lemma extended_trans image_dir label_dir w1 w2 w3 :
  extended image_dir label_dir w1 w2 -> extended image_dir label_dir w2 w3 ->
  extended image_dir label_dir w1 w3.
Proof.
  intros (K1 & D1 & F1 & l1 & C1) (K2 & D2 & F2 & l2 & C2). split_and!.
  - intros p g H. by apply K2, K1.
  - intros p H. by apply D2, D1.
  - intros p H1 H2. by rewrite F2, F1.
  - exists (l1 ++ l2). by rewrite C2, C1, app_assoc.
Qed.

Lemma cbind_extended {A B} image_dir label_dir (m : MC A) (k : A -> MC B) :
  (forall w r w', m w = (r, w') -> extended image_dir label_dir w w') ->
  (forall a w r w', k a w = (r, w') -> extended image_dir label_dir w w') ->
  forall w r w', cbind m k w = (r, w') -> extended image_dir label_dir w w'.
Proof.
  intros Hm Hk w r w'. unfold cbind.
  destruct (m w) as [[a|e] w1] eqn:Hmw.
  - intros Hkw. eapply extended_trans; [by eapply Hm | by eapply Hk].
  - intros [= <- <-]. by eapply Hm.
Qed.

Lemma cfor_each_extended {A} image_dir label_dir (body : A -> MC unit) l :
  (forall x w r w', body x w = (r, w') -> extended image_dir label_dir w w') ->
  forall w r w', cfor_each l body w = (r, w') -> extended image_dir label_dir w w'.
Proof.
  intros Hbody. induction l as [|x l IH]; intros w r w'.
  - intros [= <- <-]. apply extended_refl.
  - simpl. apply cbind_extended; [apply Hbody | intros _; apply IH].
Qed.

Lemma in_dir_insert_keep (fs : filesystem) p q d d' g :
  fs !! q = Some d -> (forall x, x ∈ d -> x ∈ d') ->
  in_dir fs p g -> in_dir (<[q := d']> fs) p g.
Proof.
  intros Hq Hsub (l & Hl & Hg). destruct (decide (p = q)) as [->|Hne].
  - exists d'. split; [apply lookup_insert_eq|]. apply Hsub. congruence.
  - exists l. split; [by rewrite lookup_insert_ne | done].
Qed.

Lemma is_dir_insert (fs : filesystem) p q d :
  is_dir fs p -> is_dir (<[q := d]> fs) p.
Proof.
  intros [l Hl]. unfold is_dir. destruct (decide (p = q)) as [->|Hne].
  - rewrite lookup_insert_eq. eauto.
  - rewrite lookup_insert_ne by done. eauto.
Qed.

Lemma keep_and_add (d : list string) fname x :
  x ∈ d -> x ∈ filter (fun g => g ≠ fname) d ++ [fname].
Proof.
  intros Hx. rewrite elem_of_app, list_elem_of_filter, list_elem_of_singleton.
  destruct (decide (x = fname)); auto.
Qed.

Lemma copy_extended image_dir label_dir fname src dst :
  dst = image_dir \/ dst = label_dir ->
  forall w r w', copy fname src dst w = (r, w') -> extended image_dir label_dir w w'.
Proof.
  intros Hdst w r w'. unfold copy.
  destruct (files w !! src) as [l|]; [|intros [= <- <-]; apply extended_refl].
  destruct (decide (fname ∈ l)); [|intros [= <- <-]; apply extended_refl].
  destruct (decide (src = dst)); [intros [= <- <-]; apply extended_refl|].
  destruct (files w !! dst) as [d|] eqn:Hd; [|intros [= <- <-]; apply extended_refl].
  intros [= <- <-]. simpl. split_and!.
  - intros p g. apply (in_dir_insert_keep _ _ _ _ _ _ Hd). apply keep_and_add.
  - intros p. apply is_dir_insert.
  - intros p H1 H2. apply lookup_insert_ne. destruct Hdst; congruence.
  - exists []. by rewrite app_nil_r.
Qed.

Lemma from_M_makedirs_extended image_dir label_dir p :
  p = image_dir \/ p = label_dir ->
  forall w r w', from_M (makedirs p) w = (r, w') -> extended image_dir label_dir w w'.
Proof.
  intros Hp w r w'. unfold from_M.
  destruct (makedirs_made p (files w)) as (fs' & -> & Hmade).
  intros [= <- <-]. simpl. split_and!.
  - intros q g. by apply (made_in_dir _ _ _ _ _ Hmade).
  - intros q [l Hl]. exists l. by apply Hmade.
  - intros q H1 H2. apply (made_other _ _ _ _ Hmade).
    rewrite list_elem_of_singleton. destruct Hp; congruence.
  - exists []. by rewrite app_nil_r.
Qed.

Lemma combine_file_extended si sl image_dir label_dir image :
  forall w r w',
    combine_file si sl image_dir label_dir image w = (r, w') ->
    extended image_dir label_dir w w'.
Proof.
  unfold combine_file. apply cbind_extended.
  { apply copy_extended. by left. }
  intros _. apply cbind_extended.
  { intros w r w' [= <- <-]. apply extended_refl. }
  intros [|].
  - apply copy_extended. by right.
  - intros w r w' [= <- <-]. simpl. split_and!; try done. by eexists.
Qed.

Lemma combine_subdir_extended data_dir image_dir label_dir subdir :
  forall w r w',
    combine_subdir data_dir image_dir label_dir subdir w = (r, w') ->
    extended image_dir label_dir w w'.
Proof.
  unfold combine_subdir. apply cbind_extended.
  - intros w r w'. unfold from_M, listdir.
    destruct (files w !! _); intros [= <- <-]; destruct w; apply extended_refl.
  - intros listing. apply cfor_each_extended. intros image.
    apply combine_file_extended.
Qed.

Lemma combine_data_extended data_dir image_dir label_dir w r w' :
  combine_data data_dir image_dir label_dir w = (r, w') ->
  extended image_dir label_dir w w'.
Proof.
  revert w r w'. unfold combine_data. apply cbind_extended.
  { apply from_M_makedirs_extended. by left. }
  intros _. apply cbind_extended.
  { apply from_M_makedirs_extended. by right. }
  intros _. apply cfor_each_extended. intros subdir.
  apply combine_subdir_extended.
Qed.

Lemma in_dir_listing (fs : filesystem) p g : in_dir fs p g <-> g ∈ dir_listing fs p.
Proof.
  unfold in_dir, dir_listing. destruct (fs !! p) as [l|]; simpl.
  - split; [by intros (? & [= <-] & ?) | eauto].
  - split; [by intros (? & ? & _) | by intros ?%elem_of_nil].
Qed.

Lemma dir_listing_frame (fs fs' : filesystem) p :
  fs' !! p = fs !! p -> dir_listing fs' p = dir_listing fs p.
Proof. unfold dir_listing. by intros ->. Qed.

Lemma grown_refl image_dir label_dir w : grown image_dir label_dir [] [] [] w w.
Proof.
  unfold grown. split_and!; try done.
  - intros g. rewrite elem_of_nil. tauto.
  - intros g. rewrite elem_of_nil. tauto.
  - by rewrite app_nil_r.
Qed.

Lemma grown_app image_dir label_dir i1 l1 c1 i2 l2 c2 w w1 w2 :
  grown image_dir label_dir i1 l1 c1 w w1 ->
  grown image_dir label_dir i2 l2 c2 w1 w2 ->
  grown image_dir label_dir (i1 ++ i2) (l1 ++ l2) (c1 ++ c2) w w2.
Proof.
  intros (I1 & L1 & F1 & D1 & C1) (I2 & L2 & F2 & D2 & C2).
  unfold grown. split_and!.
  - intros g. rewrite I2, I1, elem_of_app. tauto.
  - intros g. rewrite L2, L1, elem_of_app. tauto.
  - intros p H1 H2. by rewrite F2, F1.
  - intros p. by rewrite D2, D1.
  - by rewrite C2, C1, app_assoc.
Qed.

(** A copy into a directory that exists, from another directory that holds
    the file, returns; the target gains the name and nothing else
    changes. *)
Lemma copy_ok fname src dst w :
  src ≠ dst -> in_dir (files w) src fname -> is_dir (files w) dst ->
  exists w',
    copy fname src dst w = (inl (), w') /\
    (forall g, in_dir (files w') dst g <-> in_dir (files w) dst g \/ g = fname) /\
    (forall p, p ≠ dst -> files w' !! p = files w !! p) /\
    (forall p, is_dir (files w') p <-> is_dir (files w) p) /\
    console w' = console w.
Proof.
  intros Hne (l & Hl & Hin) [d Hd]. unfold copy.
  rewrite Hl, decide_True, decide_False, Hd by done.
  eexists. split; [done|]. simpl. split_and!; try done.
  - intros g. rewrite (in_dir_lookup _ _ _ _ (lookup_insert_eq _ _ _)).
    rewrite (in_dir_lookup _ _ _ _ Hd).
    rewrite elem_of_app, list_elem_of_filter, list_elem_of_singleton.
    destruct (decide (g = fname)); tauto.
  - intros p Hp. by rewrite lookup_insert_ne.
  - intros p. unfold is_dir. destruct (decide (p = dst)) as [->|Hp].
    + rewrite lookup_insert_eq, Hd. split; eauto.
    + by rewrite lookup_insert_ne.
Qed.

Lemma path_exists_eq dir fname w :
  path_exists dir fname w
  = (inl (bool_decide (fname ∈ dir_listing (files w) dir)), w).
Proof.
  unfold path_exists, dir_listing. by destruct (files w !! dir).
Qed.

Section Combine.

Context (image_dir label_dir si sl : string).
Hypothesis Hil : image_dir ≠ label_dir.
Hypothesis Hsi : si ≠ image_dir.
Hypothesis Hsi' : si ≠ label_dir.
Hypothesis Hsl : sl ≠ image_dir.
Hypothesis Hsl' : sl ≠ label_dir.

(** One round of the inner loop of [combine_data]. *)
Lemma combine_file_ok image w :
  is_dir (files w) image_dir -> is_dir (files w) label_dir ->
  in_dir (files w) si image ->
  exists w',
    combine_file si sl image_dir label_dir image w = (inl (), w') /\
    grown image_dir label_dir [image]
      (if decide (label_name image ∈ dir_listing (files w) sl)
       then [label_name image] else [])
      (if decide (label_name image ∈ dir_listing (files w) sl)
       then [] else [warning image])
      w w'.
Proof.
  intros Di Dl Hin. unfold combine_file.
  destruct (copy_ok image si image_dir w Hsi Hin Di) as (w1 & R1 & I1 & F1 & D1 & C1).
  rewrite (cbind_inl _ _ _ _ _ R1).
  rewrite (cbind_inl _ _ _ _ _ (path_exists_eq _ _ _)).
  rewrite (dir_listing_frame _ _ _ (F1 sl Hsl)).
  fold (label_name image).
  destruct (decide (label_name image ∈ dir_listing (files w) sl)) as [Hlab|Hlab].
  - rewrite bool_decide_eq_true_2 by done.
    destruct (copy_ok (label_name image) sl label_dir w1 Hsl') as (w2 & R2 & I2 & F2 & D2 & C2).
    { apply in_dir_listing. by rewrite (dir_listing_frame _ _ _ (F1 sl Hsl)). }
    { by apply D1. }
    exists w2. split; [done|]. unfold grown. split_and!.
    + intros g. rewrite (in_dir_frame _ _ _ _ (F2 image_dir Hil)), I1.
      by rewrite list_elem_of_singleton.
    + intros g. rewrite I2, (in_dir_frame _ _ _ _ (F1 label_dir (not_eq_sym Hil))).
      by rewrite list_elem_of_singleton.
    + intros p H1 H2. by rewrite F2, F1.
    + intros p. by rewrite D2, D1.
    + by rewrite C2, C1, app_nil_r.
  - rewrite bool_decide_eq_false_2 by done.
    eexists. split; [done|]. unfold grown. simpl. split_and!.
    + intros g. by rewrite I1, list_elem_of_singleton.
    + intros g. rewrite (in_dir_frame _ _ _ _ (F1 label_dir (not_eq_sym Hil))).
      rewrite elem_of_nil. tauto.
    + intros p H1 H2. by rewrite F1.
    + done.
    + by rewrite C1.
Qed.

(** The inner loop of [combine_data] on a listing of the images
    directory [si]. *)
Lemma combine_listing_ok listing w :
  is_dir (files w) image_dir -> is_dir (files w) label_dir ->
  (forall image, image ∈ listing -> in_dir (files w) si image) ->
  exists w',
    cfor_each listing (combine_file si sl image_dir label_dir) w = (inl (), w') /\
    grown image_dir label_dir listing
      (label_name <$> labelled (files w) sl listing)
      (warning <$> unlabelled (files w) sl listing)
      w w'.
Proof.
  revert w. induction listing as [|image listing IH]; intros w Di Dl Hin.
  - exists w. split; [done|]. apply grown_refl.
  - destruct (combine_file_ok image w Di Dl) as (w1 & R1 & G1).
    { apply Hin. by left. }
    pose proof G1 as (_ & _ & F1 & D1 & _).
    destruct (IH w1) as (w2 & R2 & G2).
    { by apply D1. } { by apply D1. }
    { intros x Hx. rewrite (in_dir_frame _ _ _ _ (F1 si Hsi Hsi')).
      apply Hin. by right. }
    exists w2. split.
    { simpl. by rewrite (cbind_inl _ _ _ _ _ R1). }
    unfold labelled, unlabelled in *.
    rewrite (dir_listing_frame _ _ _ (F1 sl Hsl Hsl')) in G2.
    rewrite !filter_cons.
    pose proof (grown_app _ _ _ _ _ _ _ _ _ _ _ G1 G2) as G.
    destruct (decide (label_name image ∈ dir_listing (files w) sl)) as [Hlab|Hlab].
    + rewrite decide_False by (intros Hn; by apply Hn). exact G.
    + rewrite decide_True by done. exact G.
Qed.

End Combine.

(** The images of a split, those with their label in the split, and those
    without. *)
Definition sub_images (fs : filesystem) (data_dir subdir : string) : list string :=
  dir_listing fs (path_join3 data_dir subdir "images").

Definition sub_labelled (fs : filesystem) (data_dir subdir : string) : list string :=
  labelled fs (path_join3 data_dir subdir "labels") (sub_images fs data_dir subdir).

Definition sub_unlabelled (fs : filesystem) (data_dir subdir : string) : list string :=
  unlabelled fs (path_join3 data_dir subdir "labels") (sub_images fs data_dir subdir).

(** What [combine_data] copies and prints, split after split. *)
Definition source_images (fs : filesystem) (data_dir : string) : list string :=
  sub_images fs data_dir "train" ++ sub_images fs data_dir "valid"
  ++ sub_images fs data_dir "test".

Definition copied_labels (fs : filesystem) (data_dir : string) : list string :=
  label_name <$> (sub_labelled fs data_dir "train" ++ sub_labelled fs data_dir "valid"
                  ++ sub_labelled fs data_dir "test").

Definition warnings (fs : filesystem) (data_dir : string) : list string :=
  warning <$> (sub_unlabelled fs data_dir "train" ++ sub_unlabelled fs data_dir "valid"
               ++ sub_unlabelled fs data_dir "test").

(** The state [w'] that a run of [combine_data] that returns leaves. *)
Definition combined (data_dir image_dir label_dir : string) (w w' : world) : Prop :=
  (forall g, in_dir (files w') image_dir g <->
             in_dir (files w) image_dir g \/ g ∈ source_images (files w) data_dir) /\
  (forall g, in_dir (files w') label_dir g <->
             in_dir (files w) label_dir g \/ g ∈ copied_labels (files w) data_dir) /\
  (forall p, p ≠ image_dir -> p ≠ label_dir -> files w' !! p = files w !! p) /\
  is_dir (files w') image_dir /\ is_dir (files w') label_dir /\
  console w' = console w ++ warnings (files w) data_dir.

Lemma sub_lists_frame (fs fs' : filesystem) data_dir subdir :
  fs' !! path_join3 data_dir subdir "images" = fs !! path_join3 data_dir subdir "images" ->
  fs' !! path_join3 data_dir subdir "labels" = fs !! path_join3 data_dir subdir "labels" ->
  sub_images fs' data_dir subdir = sub_images fs data_dir subdir /\
  sub_labelled fs' data_dir subdir = sub_labelled fs data_dir subdir /\
  sub_unlabelled fs' data_dir subdir = sub_unlabelled fs data_dir subdir.
Proof.
  intros Hi Hl.
  unfold sub_labelled, sub_unlabelled, sub_images, labelled, unlabelled.
  by rewrite (dir_listing_frame _ _ _ Hi), (dir_listing_frame _ _ _ Hl).
Qed.

Lemma combine_subdir_ok data_dir image_dir label_dir subdir w :
  image_dir ≠ label_dir ->
  path_join3 data_dir subdir "images" ≠ image_dir ->
  path_join3 data_dir subdir "images" ≠ label_dir ->
  path_join3 data_dir subdir "labels" ≠ image_dir ->
  path_join3 data_dir subdir "labels" ≠ label_dir ->
  is_dir (files w) image_dir -> is_dir (files w) label_dir ->
  is_dir (files w) (path_join3 data_dir subdir "images") ->
  exists w',
    combine_subdir data_dir image_dir label_dir subdir w = (inl (), w') /\
    grown image_dir label_dir (sub_images (files w) data_dir subdir)
      (label_name <$> sub_labelled (files w) data_dir subdir)
      (warning <$> sub_unlabelled (files w) data_dir subdir) w w'.
Proof.
  intros Hil H1 H2 H3 H4 Di Dl [listing Hs].
  unfold combine_subdir.
  assert (Hlist : from_M (listdir (path_join3 data_dir subdir "images")) w
                  = (inl listing, w)).
  { unfold from_M, listdir. rewrite Hs. by destruct w. }
  rewrite (cbind_inl _ _ _ _ _ Hlist).
  assert (Hsub : sub_images (files w) data_dir subdir = listing).
  { unfold sub_images, dir_listing. by rewrite Hs. }
  unfold sub_labelled, sub_unlabelled. rewrite Hsub.
  apply combine_listing_ok; try done.
  intros image Hin. by exists listing.
Qed.

Lemma from_M_makedirs p w :
  exists fs', from_M (makedirs p) w = (inl (), World fs' (console w)) /\
              made [p] (files w) fs'.
Proof.
  destruct (makedirs_made p (files w)) as (fs' & Hmk & Hmade).
  exists fs'. split; [|done]. unfold from_M. by rewrite Hmk.
Qed.

(** [combine_data] returns when the three images directories exist and the
    two pools are other directories than the six it reads. *)
Lemma combine_data_ok data_dir image_dir label_dir w :
  NoDup (image_dir :: label_dir :: source_dirs data_dir) ->
  (forall subdir, subdir ∈ subdirs ->
                  is_dir (files w) (path_join3 data_dir subdir "images")) ->
  exists w',
    combine_data data_dir image_dir label_dir w = (inl (), w') /\
    combined data_dir image_dir label_dir w w'.
Proof.
  intros Hd Hsrc. unfold source_dirs in Hd.
  rewrite !NoDup_cons, !not_elem_of_cons in Hd. destruct_and!.
  assert (S1 : is_dir (files w) (path_join3 data_dir "train" "images")).
  { apply Hsrc. unfold subdirs. rewrite !elem_of_cons. auto. }
  assert (S2 : is_dir (files w) (path_join3 data_dir "valid" "images")).
  { apply Hsrc. unfold subdirs. rewrite !elem_of_cons. auto. }
  assert (S3 : is_dir (files w) (path_join3 data_dir "test" "images")).
  { apply Hsrc. unfold subdirs. rewrite !elem_of_cons. auto. }
  clear Hsrc.
  unfold combine_data.
  destruct (from_M_makedirs image_dir w) as (fsa & Ra & Ma).
  rewrite (cbind_inl _ _ _ _ _ Ra).
  destruct (from_M_makedirs label_dir (World fsa (console w))) as (fs0 & Rb & Mb).
  rewrite (cbind_inl _ _ _ _ _ Rb). simpl in Rb, Mb |- *.
  pose proof (made_app _ _ _ _ _ Ma Mb) as M0. simpl in M0.
  assert (F0 : forall p, p ≠ image_dir -> p ≠ label_dir -> fs0 !! p = files w !! p).
  { intros p ? ?. apply (made_other _ _ _ _ M0). rewrite !not_elem_of_cons.
    split_and!; try done. apply not_elem_of_nil. }
  assert (Di : is_dir fs0 image_dir).
  { apply M0. rewrite !elem_of_cons. auto. }
  assert (Dl : is_dir fs0 label_dir).
  { apply M0. rewrite !elem_of_cons. auto. }
  assert (K0 : forall p, is_dir (files w) p -> is_dir fs0 p).
  { intros p [l Hl]. exists l. by apply M0. }
  set (w0 := World fs0 (console w)).
  destruct (combine_subdir_ok data_dir image_dir label_dir "train" w0)
    as (w1 & R1 & G1); try done.
  { by apply K0. }
  pose proof G1 as (_ & _ & F1 & D1 & _).
  destruct (combine_subdir_ok data_dir image_dir label_dir "valid" w1)
    as (w2 & R2 & G2); try done.
  { by apply D1. } { by apply D1. } { by apply D1, K0. }
  pose proof G2 as (_ & _ & F2 & D2 & _).
  destruct (combine_subdir_ok data_dir image_dir label_dir "test" w2)
    as (w3 & R3 & G3); try done.
  { by apply D2, D1. } { by apply D2, D1. } { by apply D2, D1, K0. }
  exists w3. split.
  { unfold subdirs. simpl.
    rewrite (cbind_inl _ _ _ _ _ R1), (cbind_inl _ _ _ _ _ R2).
    by rewrite (cbind_inl _ _ _ _ _ R3). }
  destruct (sub_lists_frame (files w) fs0 data_dir "train") as (A1 & B1 & C1);
    [by rewrite F0 | by rewrite F0 |].
  destruct (sub_lists_frame (files w) (files w1) data_dir "valid") as (A2 & B2 & C2);
    [by rewrite F1, F0 | by rewrite F1, F0 |].
  destruct (sub_lists_frame (files w) (files w2) data_dir "test") as (A3 & B3 & C3);
    [by rewrite F2, F1, F0 | by rewrite F2, F1, F0 |].
  simpl in G1. rewrite A1, B1, C1 in G1. rewrite A2, B2, C2 in G2.
  rewrite A3, B3, C3 in G3.
  pose proof (grown_app _ _ _ _ _ _ _ _ _ _ _ G1
                (grown_app _ _ _ _ _ _ _ _ _ _ _ G2 G3)) as (GI & GL & GF & GD & GC).
  unfold combined, source_images, copied_labels, warnings. split_and!.
  - intros g. rewrite GI. simpl. by rewrite (made_in_dir _ _ _ _ _ M0).
  - intros g. rewrite GL, !fmap_app. simpl. by rewrite (made_in_dir _ _ _ _ _ M0).
  - intros p Hp1 Hp2. rewrite GF by done. simpl. by apply F0.
  - by apply GD.
  - by apply GD.
  - rewrite GC, !fmap_app. done.
Qed.

Lemma elem_of_sub_labelled fs data_dir subdir image :
  image ∈ sub_labelled fs data_dir subdir <->
  in_dir fs (path_join3 data_dir subdir "images") image /\
  in_dir fs (path_join3 data_dir subdir "labels") (label_name image).
Proof.
  unfold sub_labelled, labelled, sub_images.
  rewrite list_elem_of_filter, !in_dir_listing. tauto.
Qed.

Lemma elem_of_sub_unlabelled fs data_dir subdir image :
  image ∈ sub_unlabelled fs data_dir subdir <->
  in_dir fs (path_join3 data_dir subdir "images") image /\
  ~ in_dir fs (path_join3 data_dir subdir "labels") (label_name image).
Proof.
  unfold sub_unlabelled, unlabelled, sub_images.
  rewrite list_elem_of_filter, !in_dir_listing. tauto.
Qed.

Lemma elem_of_subdirs subdir :
  subdir ∈ subdirs <-> subdir = "train" \/ subdir = "valid" \/ subdir = "test".
Proof. unfold subdirs. rewrite !elem_of_cons, elem_of_nil. tauto. Qed.

Lemma elem_of_source_images fs data_dir g :
  g ∈ source_images fs data_dir <->
  exists subdir, subdir ∈ subdirs /\ in_dir fs (path_join3 data_dir subdir "images") g.
Proof.
  unfold source_images, sub_images. rewrite !elem_of_app, <- !in_dir_listing. split.
  - intros [H|[H|H]]; eexists; (split; [|exact H]); apply elem_of_subdirs; auto.
  - intros (subdir & Hs & H). apply elem_of_subdirs in Hs as [-> | [-> | ->]]; auto.
Qed.

Lemma elem_of_copied_labels fs data_dir g :
  g ∈ copied_labels fs data_dir <->
  exists subdir image,
    subdir ∈ subdirs /\
    in_dir fs (path_join3 data_dir subdir "images") image /\
    g = label_name image /\
    in_dir fs (path_join3 data_dir subdir "labels") g.
Proof.
  unfold copied_labels. rewrite list_elem_of_fmap. split.
  - intros (image & -> & H). rewrite !elem_of_app in H.
    destruct H as [H|[H|H]]; apply elem_of_sub_labelled in H as [Hi Hl];
      eexists _, image; (split_and!; [|exact Hi|done|exact Hl]);
      apply elem_of_subdirs; auto.
  - intros (subdir & image & Hs & Hi & -> & Hl). exists image. split; [done|].
    rewrite !elem_of_app.
    apply elem_of_subdirs in Hs as [-> | [-> | ->]];
      [left | right; left | right; right]; by apply elem_of_sub_labelled.
Qed.

(** * What [combine_data] guarantees *)

(** X1: when the three images directories exist and the pools are other
    directories than the six source directories, [combine_data] returns,
    and the image pool then holds what it held before together with every
    image of the three splits, and nothing else. *)
Theorem combine_data_image_pool data_dir image_dir label_dir w :
  NoDup (image_dir :: label_dir :: source_dirs data_dir) ->
  (forall subdir, subdir ∈ subdirs ->
                  is_dir (files w) (path_join3 data_dir subdir "images")) ->
  exists w',
    combine_data data_dir image_dir label_dir w = (inl (), w') /\
    forall g,
      in_dir (files w') image_dir g <->
      in_dir (files w) image_dir g \/
      exists subdir,
        subdir ∈ subdirs /\ in_dir (files w) (path_join3 data_dir subdir "images") g.
Proof.
  intros Hd Hs.
  destruct (combine_data_ok _ _ _ _ Hd Hs) as (w' & Hrun & HI & _).
  exists w'. split; [done|]. intros g. by rewrite HI, elem_of_source_images.
Qed.

(** X2: under the same conditions the label pool gains exactly the labels
    [<base>.txt] of the images whose own split holds that label; a label
    file that no image of its split names is not copied. *)
Theorem combine_data_label_pool data_dir image_dir label_dir w :
  NoDup (image_dir :: label_dir :: source_dirs data_dir) ->
  (forall subdir, subdir ∈ subdirs ->
                  is_dir (files w) (path_join3 data_dir subdir "images")) ->
  exists w',
    combine_data data_dir image_dir label_dir w = (inl (), w') /\
    forall g,
      in_dir (files w') label_dir g <->
      in_dir (files w) label_dir g \/
      exists subdir image,
        subdir ∈ subdirs /\
        in_dir (files w) (path_join3 data_dir subdir "images") image /\
        g = label_name image /\
        in_dir (files w) (path_join3 data_dir subdir "labels") g.
Proof.
  intros Hd Hs.
  destruct (combine_data_ok _ _ _ _ Hd Hs) as (w' & Hrun & _ & HL & _).
  exists w'. split; [done|]. intros g. by rewrite HL, elem_of_copied_labels.
Qed.

(** X3: under the same conditions the run prints one warning for each
    image whose label is missing from its own split, split after split and
    in the order of the listings, and prints nothing else. *)
Theorem combine_data_warnings data_dir image_dir label_dir w :
  NoDup (image_dir :: label_dir :: source_dirs data_dir) ->
  (forall subdir, subdir ∈ subdirs ->
                  is_dir (files w) (path_join3 data_dir subdir "images")) ->
  exists w',
    combine_data data_dir image_dir label_dir w = (inl (), w') /\
    console w' =
      console w ++
      (warning <$> (sub_unlabelled (files w) data_dir "train"
                    ++ sub_unlabelled (files w) data_dir "valid"
                    ++ sub_unlabelled (files w) data_dir "test")) /\
    forall subdir image,
      image ∈ sub_unlabelled (files w) data_dir subdir <->
      in_dir (files w) (path_join3 data_dir subdir "images") image /\
      ~ in_dir (files w) (path_join3 data_dir subdir "labels") (label_name image).
Proof.
  intros Hd Hs.
  destruct (combine_data_ok _ _ _ _ Hd Hs) as (w' & Hrun & _ & _ & _ & _ & _ & HC).
  exists w'. split; [done|]. split; [done|].
  intros subdir image. apply elem_of_sub_unlabelled.
Qed.

(** X4: whatever its outcome, [combine_data] takes nothing away: every
    file stays in its directory, every directory stays, and no directory
    other than the two pools changes. *)
Theorem combine_data_keeps_sources data_dir image_dir label_dir w r w' :
  combine_data data_dir image_dir label_dir w = (r, w') ->
  (forall p g, in_dir (files w) p g -> in_dir (files w') p g) /\
  (forall p, is_dir (files w) p -> is_dir (files w') p) /\
  (forall p, p ≠ image_dir -> p ≠ label_dir -> files w' !! p = files w !! p).
Proof.
  intros Hrun. apply combine_data_extended in Hrun as (K & D & F & _). done.
Qed.

(** A small data set in the layout the script reads: two train images, one
    of them without a label, a label that no image names, one validation
    pair, and a test image in a split that has no labels directory. *)
Definition sample_source : filesystem :=
  <[path_join3 Script.data_dir "train" "images" := ["a.jpg"; "b.jpg"]]>
  (<[path_join3 Script.data_dir "train" "labels" := ["a.txt"; "zz.txt"]]>
  (<[path_join3 Script.data_dir "valid" "images" := ["c.jpg"]]>
  (<[path_join3 Script.data_dir "valid" "labels" := ["c.txt"]]>
  (<[path_join3 Script.data_dir "test" "images" := ["d.jpg"]]> ∅)))).

Definition sample_world : world := World sample_source [].

Lemma script_sources_distinct :
  NoDup (Script.image_dir :: Script.label_dir :: source_dirs Script.data_dir).
Proof. apply (bool_decide_unpack _). vm_compute. exact I. Qed.

Lemma sample_source_dirs subdir :
  subdir ∈ subdirs ->
  is_dir (files sample_world) (path_join3 Script.data_dir subdir "images").
Proof.
  intros Hs. apply elem_of_subdirs in Hs as [-> | [-> | ->]];
    eexists; vm_compute; reflexivity.
Qed.

Lemma combine_data_image_pool_witness :
  NoDup (Script.image_dir :: Script.label_dir :: source_dirs Script.data_dir) /\
  (forall subdir, subdir ∈ subdirs ->
     is_dir (files sample_world) (path_join3 Script.data_dir subdir "images")) /\
  exists w',
    combine_data Script.data_dir Script.image_dir Script.label_dir sample_world
    = (inl (), w') /\
    forall g,
      in_dir (files w') Script.image_dir g <->
      in_dir (files sample_world) Script.image_dir g \/
      exists subdir,
        subdir ∈ subdirs /\
        in_dir (files sample_world) (path_join3 Script.data_dir subdir "images") g.
Proof.
  split; [exact script_sources_distinct|]. split; [exact sample_source_dirs|].
  exact (combine_data_image_pool Script.data_dir Script.image_dir Script.label_dir
           sample_world script_sources_distinct sample_source_dirs).
Defined.

Lemma combine_data_label_pool_witness :
  NoDup (Script.image_dir :: Script.label_dir :: source_dirs Script.data_dir) /\
  (forall subdir, subdir ∈ subdirs ->
     is_dir (files sample_world) (path_join3 Script.data_dir subdir "images")) /\
  exists w',
    combine_data Script.data_dir Script.image_dir Script.label_dir sample_world
    = (inl (), w') /\
    forall g,
      in_dir (files w') Script.label_dir g <->
      in_dir (files sample_world) Script.label_dir g \/
      exists subdir image,
        subdir ∈ subdirs /\
        in_dir (files sample_world) (path_join3 Script.data_dir subdir "images") image /\
        g = label_name image /\
        in_dir (files sample_world) (path_join3 Script.data_dir subdir "labels") g.
Proof.
  split; [exact script_sources_distinct|]. split; [exact sample_source_dirs|].
  exact (combine_data_label_pool Script.data_dir Script.image_dir Script.label_dir
           sample_world script_sources_distinct sample_source_dirs).
Defined.

Lemma combine_data_warnings_witness :
  NoDup (Script.image_dir :: Script.label_dir :: source_dirs Script.data_dir) /\
  (forall subdir, subdir ∈ subdirs ->
     is_dir (files sample_world) (path_join3 Script.data_dir subdir "images")) /\
  exists w',
    combine_data Script.data_dir Script.image_dir Script.label_dir sample_world
    = (inl (), w') /\
    console w' =
      console sample_world ++
      (warning <$> (sub_unlabelled (files sample_world) Script.data_dir "train"
                    ++ sub_unlabelled (files sample_world) Script.data_dir "valid"
                    ++ sub_unlabelled (files sample_world) Script.data_dir "test")) /\
    forall subdir image,
      image ∈ sub_unlabelled (files sample_world) Script.data_dir subdir <->
      in_dir (files sample_world) (path_join3 Script.data_dir subdir "images") image /\
      ~ in_dir (files sample_world) (path_join3 Script.data_dir subdir "labels")
          (label_name image).
Proof.
  split; [exact script_sources_distinct|]. split; [exact sample_source_dirs|].
  exact (combine_data_warnings Script.data_dir Script.image_dir Script.label_dir
           sample_world script_sources_distinct sample_source_dirs).
Defined.

Lemma combine_data_keeps_sources_witness :
  combine_data Script.data_dir Script.image_dir Script.label_dir sample_world
  = (inl (),
     (combine_data Script.data_dir Script.image_dir Script.label_dir sample_world).2) /\
  (forall p g,
     in_dir (files sample_world) p g ->
     in_dir (files (combine_data Script.data_dir Script.image_dir Script.label_dir
                      sample_world).2) p g) /\
  (forall p,
     is_dir (files sample_world) p ->
     is_dir (files (combine_data Script.data_dir Script.image_dir Script.label_dir
                      sample_world).2) p) /\
  (forall p, p ≠ Script.image_dir -> p ≠ Script.label_dir ->
     files (combine_data Script.data_dir Script.image_dir Script.label_dir
              sample_world).2 !! p
     = files sample_world !! p).
Proof.
  assert (Hrun : combine_data Script.data_dir Script.image_dir Script.label_dir
                   sample_world
                 = (inl (), (combine_data Script.data_dir Script.image_dir
                               Script.label_dir sample_world).2)).
  { destruct (combine_data_ok _ _ _ _ script_sources_distinct sample_source_dirs)
      as (w' & -> & _). done. }
  split; [exact Hrun|].
  exact (combine_data_keeps_sources Script.data_dir Script.image_dir Script.label_dir
           sample_world _ _ Hrun).
Defined.

Lemma combine_subdir_missing data_dir image_dir label_dir subdir w :
  ~ is_dir (files w) (path_join3 data_dir subdir "images") ->
  combine_subdir data_dir image_dir label_dir subdir w
  = (inr (Builtin FileNotFoundError), w).
Proof.
  intros Hn. unfold combine_subdir, cbind, from_M, listdir.
  destruct (files w !! path_join3 data_dir subdir "images") as [l|] eqn:Hl.
  - destruct Hn. by exists l.
  - by destruct w.
Qed.

(** X5: when one of the three images directories is missing, [combine_data]
    stops with [FileNotFoundError]: a split that cannot be listed is fatal,
    whatever the other splits hold. *)
Theorem combine_data_missing_split data_dir image_dir label_dir w subdir :
  NoDup (image_dir :: label_dir :: source_dirs data_dir) ->
  subdir ∈ subdirs ->
  ~ is_dir (files w) (path_join3 data_dir subdir "images") ->
  exists w',
    combine_data data_dir image_dir label_dir w
    = (inr (Builtin FileNotFoundError), w').
Proof.
  intros Hd Hs Hmiss. unfold source_dirs in Hd.
  rewrite !NoDup_cons, !not_elem_of_cons in Hd. destruct_and!.
  unfold combine_data.
  destruct (from_M_makedirs image_dir w) as (fsa & Ra & Ma).
  rewrite (cbind_inl _ _ _ _ _ Ra).
  destruct (from_M_makedirs label_dir (World fsa (console w))) as (fs0 & Rb & Mb).
  rewrite (cbind_inl _ _ _ _ _ Rb). simpl in Rb, Mb |- *.
  pose proof (made_app _ _ _ _ _ Ma Mb) as M0. simpl in M0.
  assert (F0 : forall p, p ≠ image_dir -> p ≠ label_dir -> fs0 !! p = files w !! p).
  { intros p ? ?. apply (made_other _ _ _ _ M0). rewrite !not_elem_of_cons.
    split_and!; try done. apply not_elem_of_nil. }
  assert (Di : is_dir fs0 image_dir).
  { apply M0. rewrite !elem_of_cons. auto. }
  assert (Dl : is_dir fs0 label_dir).
  { apply M0. rewrite !elem_of_cons. auto. }
  set (w0 := World fs0 (console w)).
  assert (E0 : forall s,
             path_join3 data_dir s "images" ≠ image_dir ->
             path_join3 data_dir s "images" ≠ label_dir ->
             is_dir (files w0) (path_join3 data_dir s "images")
             <-> is_dir (files w) (path_join3 data_dir s "images")).
  { intros s ? ?. unfold is_dir. simpl. by rewrite F0. }
  unfold subdirs. simpl.
  destruct (decide (is_dir (files w0) (path_join3 data_dir "train" "images")))
    as [T|T].
  2:{ rewrite (cbind_inr _ _ _ _ _ (combine_subdir_missing _ _ _ _ _ T)). eauto. }
  destruct (combine_subdir_ok data_dir image_dir label_dir "train" w0)
    as (w1 & R1 & G1); try done.
  pose proof G1 as (_ & _ & F1 & D1 & _).
  rewrite (cbind_inl _ _ _ _ _ R1).
  destruct (decide (is_dir (files w1) (path_join3 data_dir "valid" "images")))
    as [V|V].
  2:{ rewrite (cbind_inr _ _ _ _ _ (combine_subdir_missing _ _ _ _ _ V)). eauto. }
  destruct (combine_subdir_ok data_dir image_dir label_dir "valid" w1)
    as (w2 & R2 & G2); try done.
  { by apply D1. } { by apply D1. }
  pose proof G2 as (_ & _ & F2 & D2 & _).
  rewrite (cbind_inl _ _ _ _ _ R2).
  destruct (decide (is_dir (files w2) (path_join3 data_dir "test" "images")))
    as [E|E].
  2:{ rewrite (cbind_inr _ _ _ _ _ (combine_subdir_missing _ _ _ _ _ E)). eauto. }
  exfalso. apply Hmiss.
  apply elem_of_subdirs in Hs as [-> | [-> | ->]].
  - by apply E0.
  - by apply E0, D1.
  - by apply E0, D1, D2.
Qed.

Lemma combine_data_missing_split_witness :
  NoDup (Script.image_dir :: Script.label_dir :: source_dirs Script.data_dir) /\
  "valid" ∈ subdirs /\
  ~ is_dir (files (World (delete (path_join3 Script.data_dir "valid" "images")
                            sample_source) []))
      (path_join3 Script.data_dir "valid" "images") /\
  exists w',
    combine_data Script.data_dir Script.image_dir Script.label_dir
      (World (delete (path_join3 Script.data_dir "valid" "images") sample_source) [])
    = (inr (Builtin FileNotFoundError), w').
Proof.
  assert (H1 : "valid" ∈ subdirs) by (apply elem_of_subdirs; auto).
  assert (H2 : ~ is_dir (files (World (delete (path_join3 Script.data_dir "valid" "images")
                                         sample_source) []))
                   (path_join3 Script.data_dir "valid" "images")).
  { unfold is_dir. simpl. rewrite lookup_delete_eq. by intros [? ?]. }
  split; [exact script_sources_distinct|]. split; [exact H1|]. split; [exact H2|].
  exact (combine_data_missing_split Script.data_dir Script.image_dir Script.label_dir
           _ "valid" script_sources_distinct H1 H2).
Defined.

Lemma source_lists_frame (fs fs' : filesystem) data_dir image_dir label_dir :
  NoDup (image_dir :: label_dir :: source_dirs data_dir) ->
  (forall p, p ≠ image_dir -> p ≠ label_dir -> fs' !! p = fs !! p) ->
  source_images fs' data_dir = source_images fs data_dir /\
  copied_labels fs' data_dir = copied_labels fs data_dir /\
  warnings fs' data_dir = warnings fs data_dir.
Proof.
  intros Hd F. unfold source_dirs in Hd.
  rewrite !NoDup_cons, !not_elem_of_cons in Hd. destruct_and!.
  destruct (sub_lists_frame fs fs' data_dir "train") as (A1 & B1 & C1);
    [by apply F | by apply F |].
  destruct (sub_lists_frame fs fs' data_dir "valid") as (A2 & B2 & C2);
    [by apply F | by apply F |].
  destruct (sub_lists_frame fs fs' data_dir "test") as (A3 & B3 & C3);
    [by apply F | by apply F |].
  unfold source_images, copied_labels, warnings.
  by rewrite A1, A2, A3, B1, B2, B3, C1, C2, C3.
Qed.

(** X6: [combine_data] can be run again: a second run after one that
    returned returns too, leaves every directory with the files it had, and
    prints the same warnings once more. *)
Theorem combine_data_again data_dir image_dir label_dir w w1 :
  NoDup (image_dir :: label_dir :: source_dirs data_dir) ->
  combine_data data_dir image_dir label_dir w = (inl (), w1) ->
  exists w2 lines,
    combine_data data_dir image_dir label_dir w1 = (inl (), w2) /\
    (forall p g, in_dir (files w2) p g <-> in_dir (files w1) p g) /\
    console w1 = console w ++ lines /\
    console w2 = console w1 ++ lines.
Proof.
  intros Hd Hrun.
  assert (Hsrc : forall subdir, subdir ∈ subdirs ->
            is_dir (files w) (path_join3 data_dir subdir "images")).
  { intros subdir Hs.
    destruct (decide (is_dir (files w) (path_join3 data_dir subdir "images")))
      as [?|Hn]; [done|].
    destruct (combine_data_missing_split _ _ _ _ _ Hd Hs Hn) as (w' & Hfail).
    rewrite Hfail in Hrun. discriminate. }
  destruct (combine_data_ok _ _ _ _ Hd Hsrc) as (w1' & Hrun' & HI & HL & HF & Di & Dl & HC).
  rewrite Hrun in Hrun'. injection Hrun' as <-.
  pose proof Hd as Hd'. unfold source_dirs in Hd'.
  rewrite !NoDup_cons, !not_elem_of_cons in Hd'. destruct_and!.
  assert (Hsrc1 : forall subdir, subdir ∈ subdirs ->
            is_dir (files w1) (path_join3 data_dir subdir "images")).
  { intros subdir Hs. unfold is_dir.
    apply elem_of_subdirs in Hs as [-> | [-> | ->]]; rewrite HF by done;
      apply Hsrc; apply elem_of_subdirs; auto. }
  destruct (combine_data_ok _ _ _ _ Hd Hsrc1) as (w2 & Hrun2 & HI2 & HL2 & HF2 & _ & _ & HC2).
  destruct (source_lists_frame (files w) (files w1) _ _ _ Hd HF) as (E1 & E2 & E3).
  exists w2, (warnings (files w) data_dir). split_and!; try done.
  - intros p g. destruct (decide (p = image_dir)) as [->|Hp1].
    { rewrite HI2, E1, HI. tauto. }
    destruct (decide (p = label_dir)) as [->|Hp2].
    { rewrite HL2, E2, HL. tauto. }
    apply in_dir_frame. by apply HF2.
  - by rewrite HC2, E3.
Qed.

Lemma combine_data_again_witness :
  NoDup (Script.image_dir :: Script.label_dir :: source_dirs Script.data_dir) /\
  combine_data Script.data_dir Script.image_dir Script.label_dir sample_world
  = (inl (),
     (combine_data Script.data_dir Script.image_dir Script.label_dir sample_world).2) /\
  exists w2 lines,
    combine_data Script.data_dir Script.image_dir Script.label_dir
      (combine_data Script.data_dir Script.image_dir Script.label_dir sample_world).2
    = (inl (), w2) /\
    (forall p g,
       in_dir (files w2) p g <->
       in_dir (files (combine_data Script.data_dir Script.image_dir Script.label_dir
                        sample_world).2) p g) /\
    console (combine_data Script.data_dir Script.image_dir Script.label_dir
               sample_world).2
    = console sample_world ++ lines /\
    console w2
    = console (combine_data Script.data_dir Script.image_dir Script.label_dir
                 sample_world).2 ++ lines.
Proof.
  assert (Hrun : combine_data Script.data_dir Script.image_dir Script.label_dir
                   sample_world
                 = (inl (), (combine_data Script.data_dir Script.image_dir
                               Script.label_dir sample_world).2)).
  { destruct (combine_data_ok _ _ _ _ script_sources_distinct sample_source_dirs)
      as (w' & -> & _). done. }
  split; [exact script_sources_distinct|]. split; [exact Hrun|].
  exact (combine_data_again Script.data_dir Script.image_dir Script.label_dir
           sample_world _ script_sources_distinct Hrun).
Defined.

(** A run of [combine_data] that returned has found the three images
    directories and left the state described by [combined]. *)
Lemma combine_data_inv data_dir image_dir label_dir w u w1 :
  NoDup (image_dir :: label_dir :: source_dirs data_dir) ->
  combine_data data_dir image_dir label_dir w = (inl u, w1) ->
  combined data_dir image_dir label_dir w w1.
Proof.
  intros Hd Hrun.
  assert (Hsrc : forall subdir, subdir ∈ subdirs ->
            is_dir (files w) (path_join3 data_dir subdir "images")).
  { intros subdir Hs.
    destruct (decide (is_dir (files w) (path_join3 data_dir subdir "images")))
      as [?|Hn]; [done|].
    destruct (combine_data_missing_split _ _ _ _ _ Hd Hs Hn) as (w' & Hfail).
    rewrite Hfail in Hrun. discriminate. }
  destruct (combine_data_ok _ _ _ _ Hd Hsrc) as (w1' & Hrun' & Hc).
  rewrite Hrun in Hrun'. by injection Hrun' as _ <-.
Qed.

(** X7: the two stages fit together.  After a run of [combine_data] into
    an empty label pool, every label in the label pool is the label
    [<base>.txt] of an image in the image pool, and the matching step of
    [split_data] pairs that image with it, unless the base name consists
    of dots only. *)
Theorem combined_labels_matched data_dir image_dir label_dir w w' il ll :
  NoDup (image_dir :: label_dir :: source_dirs data_dir) ->
  (forall g, ~ in_dir (files w) label_dir g) ->
  combine_data data_dir image_dir label_dir w = (inl (), w') ->
  files w' !! image_dir = Some il ->
  files w' !! label_dir = Some ll ->
  forall label,
    label ∈ ll ->
    exists image,
      image ∈ il /\ label = label_name image /\
      (all_dots (splitext image).1 = false -> (image, label) ∈ matched_of il ll).
Proof.
  intros Hd Hempty Hrun Hi Hl label Hlabel.
  destruct (combine_data_inv _ _ _ _ _ _ Hd Hrun) as (HI & HL & _).
  assert (Hin : in_dir (files w') label_dir label) by by exists ll.
  apply HL in Hin as [Hin|Hin]; [by apply Hempty in Hin|].
  apply elem_of_copied_labels in Hin as (subdir & image & Hs & Himg & -> & _).
  assert (Him : image ∈ il).
  { apply (in_dir_lookup _ _ _ _ Hi). apply HI. right.
    apply elem_of_source_images. eauto. }
  exists image. split_and!; try done.
  intros Hdots. unfold matched_of. apply matched_pair. split_and!; try done.
  - by apply sorted_elem_of.
  - unfold has_label, base_names. apply list_elem_of_fmap.
    exists (label_name image). split; [|by apply sorted_elem_of].
    unfold label_name. by rewrite splitext_label_name.
Qed.

Lemma combined_labels_matched_witness :
  NoDup (Script.image_dir :: Script.label_dir :: source_dirs Script.data_dir) /\
  (forall g, ~ in_dir (files sample_world) Script.label_dir g) /\
  combine_data Script.data_dir Script.image_dir Script.label_dir sample_world
  = (inl (),
     (combine_data Script.data_dir Script.image_dir Script.label_dir sample_world).2) /\
  files (combine_data Script.data_dir Script.image_dir Script.label_dir
           sample_world).2 !! Script.image_dir
  = Some ["a.jpg"; "b.jpg"; "c.jpg"; "d.jpg"] /\
  files (combine_data Script.data_dir Script.image_dir Script.label_dir
           sample_world).2 !! Script.label_dir
  = Some ["a.txt"; "c.txt"] /\
  forall label,
    label ∈ ["a.txt"; "c.txt"] ->
    exists image,
      image ∈ ["a.jpg"; "b.jpg"; "c.jpg"; "d.jpg"] /\ label = label_name image /\
      (all_dots (splitext image).1 = false ->
       (image, label) ∈ matched_of ["a.jpg"; "b.jpg"; "c.jpg"; "d.jpg"]
                                   ["a.txt"; "c.txt"]).
Proof.
  assert (Hrun : combine_data Script.data_dir Script.image_dir Script.label_dir
                   sample_world
                 = (inl (), (combine_data Script.data_dir Script.image_dir
                               Script.label_dir sample_world).2)).
  { destruct (combine_data_ok _ _ _ _ script_sources_distinct sample_source_dirs)
      as (w' & -> & _). done. }
  assert (He : forall g, ~ in_dir (files sample_world) Script.label_dir g).
  { intros g (l & Hl & _). vm_compute in Hl. discriminate. }
  assert (Hi : files (combine_data Script.data_dir Script.image_dir Script.label_dir
                        sample_world).2 !! Script.image_dir
               = Some ["a.jpg"; "b.jpg"; "c.jpg"; "d.jpg"]).
  { vm_compute. reflexivity. }
  assert (Hl : files (combine_data Script.data_dir Script.image_dir Script.label_dir
                        sample_world).2 !! Script.label_dir
               = Some ["a.txt"; "c.txt"]).
  { vm_compute. reflexivity. }
  split; [exact script_sources_distinct|]. split; [exact He|].
  split; [exact Hrun|]. split; [exact Hi|]. split; [exact Hl|].
  exact (combined_labels_matched Script.data_dir Script.image_dir Script.label_dir
           sample_world _ _ _ script_sources_distinct He Hrun Hi Hl).
Defined.

Lemma script_paths_distinct :
  NoDup (source_dirs Script.data_dir
         ++ run_dirs Script.image_dir Script.label_dir Script.output_dir).
Proof. apply (bool_decide_unpack _). vm_compute. exact I. Qed.

Lemma from_M_inv {A} (m : M A) w r w' :
  from_M m w = (r, w') ->
  exists r0, m (files w) = (r0, files w') /\ console w' = console w.
Proof.
  unfold from_M. destruct (m (files w)) as [[a|e] fs'];
    intros [= <- <-]; eauto.
Qed.

(** X8: whatever the outcome of the script, and whatever the shuffle, the
    six directories of the original splits hold afterwards exactly the
    files they held before: the script copies out of them and moves only
    within the pools and the new split. *)
Theorem script_keeps_originals permutation w r w' :
  script permutation w = (r, w') ->
  forall p g,
    p ∈ source_dirs Script.data_dir ->
    in_dir (files w') p g <-> in_dir (files w) p g.
Proof.
  intros Hrun p g Hp.
  pose proof script_paths_distinct as Hd. apply NoDup_app in Hd as (_ & Hd & _).
  pose proof (Hd p Hp) as Hp'.
  assert (Hpi : p ≠ Script.image_dir).
  { intros ->. apply Hp'. unfold run_dirs. rewrite !elem_of_cons. auto. }
  assert (Hpl : p ≠ Script.label_dir).
  { intros ->. apply Hp'. unfold run_dirs. rewrite !elem_of_cons. auto. }
  unfold script, cbind in Hrun.
  destruct (combine_data _ _ _ w) as [[[]|e] w1] eqn:Hc.
  - apply combine_data_extended in Hc as (_ & _ & F & _).
    rewrite <- (in_dir_frame _ _ _ _ (F p Hpi Hpl)).
    apply from_M_inv in Hrun as (r0 & Hs & _).
    apply (split_data_any _ _ _ _ script_dirs_distinct) in Hs as (placed & Hrel & _).
    by apply Hrel.
  - injection Hrun as <- <-.
    apply combine_data_extended in Hc as (_ & _ & F & _).
    apply in_dir_frame. by apply F.
Qed.

Lemma pair_eta {A B} (p : A * B) a : p.1 = a -> p = (a, p.2).
Proof. destruct p. by intros <-. Qed.

Lemma script_keeps_originals_witness :
  script reversed sample_world
  = (inr (Builtin ValueError), (script reversed sample_world).2) /\
  forall p g,
    p ∈ source_dirs Script.data_dir ->
    in_dir (files (script reversed sample_world).2) p g <->
    in_dir (files sample_world) p g.
Proof.
  assert (Hrun : script reversed sample_world
                 = (inr (Builtin ValueError), (script reversed sample_world).2)).
  { apply pair_eta. vm_compute. reflexivity. }
  split; [exact Hrun|].
  exact (script_keeps_originals reversed sample_world _ _ Hrun).
Defined.

(** * More on [split_data] *)



(** X12: whatever the outcome of a run, no output directory loses a file it
    held (the directories are created with [exist_ok]), the pools gain
    nothing, and no directory other than the two pools and the six output
    directories changes. *)
Theorem split_data_keeps_outputs permutation image_dir label_dir output_dir
    train_ratio val_ratio test_ratio (fs : filesystem) r fs' :
  NoDup (run_dirs image_dir label_dir output_dir) ->
  split_data permutation image_dir label_dir output_dir
    train_ratio val_ratio test_ratio fs = (r, fs') ->
  (forall p g, p ∈ output_dirs output_dir -> in_dir fs p g -> in_dir fs' p g) /\
  (forall g, in_dir fs' image_dir g -> in_dir fs image_dir g) /\
  (forall g, in_dir fs' label_dir g -> in_dir fs label_dir g) /\
  (forall p g, p ∉ run_dirs image_dir label_dir output_dir ->
               in_dir fs' p g <-> in_dir fs p g).
Proof.
  intros Hdirs Hrun.
  apply (split_data_any _ _ _ _ Hdirs) in Hrun as (placed & Hrel & _).
  destruct Hrel as [RI RL R1 R2 R3 R4 R5 R6 RO]. split_and!.
  - intros p g Hp Hin. unfold output_dirs in Hp.
    rewrite !elem_of_cons, elem_of_nil in Hp.
    destruct Hp as [->|[->|[->|[->|[->|[->|[]]]]]]];
      [apply R1 | apply R2 | apply R3 | apply R4 | apply R5 | apply R6]; by left.
  - intros g Hin. by apply RI in Hin as [? _].
  - intros g Hin. by apply RL in Hin as [? _].
  - intros p g Hp. by apply RO.
Qed.

Lemma split_data_keeps_outputs_witness :
  NoDup (run_dirs Script.image_dir Script.label_dir Script.output_dir) /\
  sample_run = (Ok (1, 1, 1)%nat, sample_run.2) /\
  (forall p g, p ∈ output_dirs Script.output_dir ->
               in_dir sample_pools p g -> in_dir sample_run.2 p g) /\
  (forall g, in_dir sample_run.2 Script.image_dir g ->
             in_dir sample_pools Script.image_dir g) /\
  (forall g, in_dir sample_run.2 Script.label_dir g ->
             in_dir sample_pools Script.label_dir g) /\
  (forall p g, p ∉ run_dirs Script.image_dir Script.label_dir Script.output_dir ->
               in_dir sample_run.2 p g <-> in_dir sample_pools p g).
Proof.
  split; [exact script_dirs_distinct|]. split; [exact sample_run_returns|].
  exact (split_data_keeps_outputs reversed Script.image_dir Script.label_dir
           Script.output_dir default_train_ratio default_val_ratio default_test_ratio
           sample_pools _ _ script_dirs_distinct sample_run_returns).
Defined.

(** With the default ratios, lists of fewer than three pairs cannot be
    split: a part would be empty, and [train_test_split] refuses it. *)
Lemma split_filenames_too_few permutation (X y : list string) :
  shuffles permutation ->
  length X = length y -> (length X < 3)%nat ->
  split_filenames permutation X y default_val_ratio default_test_ratio
  = Raise ValueError.
Proof.
  intros Hperm Hxy Hlt.
  assert (E0 : validate_shuffle_split 0
                 (PyFloat.add default_val_ratio default_test_ratio)
               = Raise ValueError) by (vm_compute; reflexivity).
  assert (E1 : validate_shuffle_split 1
                 (PyFloat.add default_val_ratio default_test_ratio)
               = Raise ValueError) by (vm_compute; reflexivity).
  assert (E2 : validate_shuffle_split 2
                 (PyFloat.add default_val_ratio default_test_ratio)
               = Ok (1, 1)) by (vm_compute; reflexivity).
  assert (Ed : PyFloat.div default_test_ratio
                 (PyFloat.add default_val_ratio default_test_ratio)
               = Some (PyFloat.lit 1 2)) by (vm_compute; reflexivity).
  assert (E3 : validate_shuffle_split 1 (PyFloat.lit 1 2) = Raise ValueError)
    by (vm_compute; reflexivity).
  destruct (length X) as [|[|[|n]]] eqn:HX; [| | |lia].
  - unfold split_filenames, train_test_split.
    rewrite <- Hxy, HX, Nat.eqb_refl. cbn [negb]. by rewrite E0.
  - unfold split_filenames, train_test_split.
    rewrite <- Hxy, HX, Nat.eqb_refl. cbn [negb]. by rewrite E1.
  - destruct (train_test_split_ok permutation Hperm X y
                (PyFloat.add default_val_ratio default_test_ratio) 1 1)
      as [s1 H1]; [congruence | by rewrite HX | rewrite HX; lia |].
    unfold split_filenames. rewrite H1. cbn [rbind]. rewrite Ed.
    cbn [rbind of_option].
    apply (train_test_split_inv permutation Hperm) in H1
      as (_ & (n_train & n_test & V & _ & _ & _ & T) & _ & L & _).
    rewrite HX, E2 in V. injection V as <- <-.
    unfold train_test_split.
    rewrite L, Nat.eqb_refl, T. cbn [negb].
    change (Z.to_nat 1) with 1%nat. by rewrite E3.
Qed.

(** X10: with the default ratios a run needs at least three matched pairs.
    With fewer it stops with [ValueError] once the output directories are
    created, and it moves no file. *)
Theorem split_data_too_few permutation image_dir label_dir output_dir
    (fs : filesystem) il ll :
  shuffles permutation ->
  fs !! image_dir = Some il -> fs !! label_dir = Some ll ->
  (length (matched_of il ll) < 3)%nat ->
  exists fs',
    split_data permutation image_dir label_dir output_dir
      default_train_ratio default_val_ratio default_test_ratio fs
    = (Raise ValueError, fs') /\
    (forall p, p ∈ output_dirs output_dir -> is_dir fs' p) /\
    (forall p g, in_dir fs' p g <-> in_dir fs p g).
Proof.
  intros Hperm Hi Hl Hlt.
  destruct (make_output_dirs_made output_dir fs) as (fs0 & Hmk & Hmade).
  exists fs0. split_and!.
  - rewrite split_data_checked by (vm_compute; reflexivity).
    rewrite (bind_ok _ _ _ _ _ Hmk).
    pose proof Hmade as (_ & Hk & _).
    pose proof (assign_files_eq permutation _ _ default_val_ratio default_test_ratio
                  _ _ _ (Hk _ _ Hi) (Hk _ _ Hl)) as Ha.
    rewrite split_filenames_too_few in Ha;
      [| done | apply matched_length | by rewrite length_fmap].
    unfold bind at 1. by rewrite Ha.
  - by destruct Hmade as (? & _).
  - intros p g. by eapply made_in_dir.
Qed.

Lemma split_data_too_few_witness :
  shuffles reversed /\
  pools ["a.jpg"; "b.jpg"; "c.jpg"] ["a.txt"; "b.txt"] !! Script.image_dir
  = Some ["a.jpg"; "b.jpg"; "c.jpg"] /\
  pools ["a.jpg"; "b.jpg"; "c.jpg"] ["a.txt"; "b.txt"] !! Script.label_dir
  = Some ["a.txt"; "b.txt"] /\
  (length (matched_of ["a.jpg"; "b.jpg"; "c.jpg"] ["a.txt"; "b.txt"]) < 3)%nat /\
  exists fs',
    split_data reversed Script.image_dir Script.label_dir Script.output_dir
      default_train_ratio default_val_ratio default_test_ratio
      (pools ["a.jpg"; "b.jpg"; "c.jpg"] ["a.txt"; "b.txt"])
    = (Raise ValueError, fs') /\
    (forall p, p ∈ output_dirs Script.output_dir -> is_dir fs' p) /\
    (forall p g, in_dir fs' p g <->
                 in_dir (pools ["a.jpg"; "b.jpg"; "c.jpg"] ["a.txt"; "b.txt"]) p g).
Proof.
  assert (H : (length (matched_of ["a.jpg"; "b.jpg"; "c.jpg"] ["a.txt"; "b.txt"]) < 3)%nat).
  { vm_compute. lia. }
  split; [exact reversed_shuffles|]. split; [apply pools_images|].
  split; [apply pools_labels|]. split; [exact H|].
  exact (split_data_too_few reversed Script.image_dir Script.label_dir
           Script.output_dir _ _ _ reversed_shuffles
           (pools_images _ _) (pools_labels _ _) H).
Defined.

(** X11: the three counts a run prints are positive and add up to the
    number of matched pairs: a run that returns has put at least one pair
    in each bucket. *)
Theorem split_data_counts permutation image_dir label_dir output_dir
    train_ratio val_ratio test_ratio (fs : filesystem) n_train n_val n_test fs' :
  shuffles permutation ->
  NoDup (run_dirs image_dir label_dir output_dir) ->
  split_data permutation image_dir label_dir output_dir
    train_ratio val_ratio test_ratio fs = (Ok (n_train, n_val, n_test), fs') ->
  exists il ll,
    fs !! image_dir = Some il /\ fs !! label_dir = Some ll /\
    (n_train + n_val + n_test = length (matched_of il ll))%nat /\
    (0 < n_train)%nat /\ (0 < n_val)%nat /\ (0 < n_test)%nat.
Proof.
  intros Hperm Hdirs Hrun.
  apply (split_data_completed _ _ _ _ Hdirs) in Hrun
    as (il & ll & a & Hi & Hl & Hs & Hc & _).
  injection Hc as -> -> ->.
  exists il, ll. split; [done|]. split; [done|].
  destruct (assignment_perm permutation Hperm _ _ _ _ _ Hs) as (_ & Pi & _).
  apply Permutation_length in Pi.
  unfold all_images in Pi. rewrite !length_app, length_fmap in Pi.
  split; [lia|].
  unfold split_filenames in Hs.
  apply rbind_ok_inv in Hs as (s1 & H1 & Hk).
  apply rbind_ok_inv in Hk as (ts & _ & Hk).
  apply rbind_ok_inv in Hk as (s2 & H2 & Hk).
  injection Hk as <-. simpl.
  apply (train_test_split_inv permutation Hperm) in H1
    as (_ & (a1 & b1 & _ & ? & ? & T1 & _) & _).
  apply (train_test_split_inv permutation Hperm) in H2
    as (_ & (a2 & b2 & _ & ? & ? & T2 & E2) & _).
  lia.
Qed.

Lemma split_data_counts_witness :
  shuffles reversed /\
  NoDup (run_dirs Script.image_dir Script.label_dir Script.output_dir) /\
  sample_run = (Ok (1, 1, 1)%nat, sample_run.2) /\
  exists il ll,
    sample_pools !! Script.image_dir = Some il /\
    sample_pools !! Script.label_dir = Some ll /\
    (1 + 1 + 1 = length (matched_of il ll))%nat /\
    (0 < 1)%nat /\ (0 < 1)%nat /\ (0 < 1)%nat.
Proof.
  split; [exact reversed_shuffles|]. split; [exact script_dirs_distinct|].
  split; [exact sample_run_returns|].
  exact (split_data_counts reversed Script.image_dir Script.label_dir
           Script.output_dir default_train_ratio default_val_ratio default_test_ratio
           sample_pools 1 1 1 sample_run.2
           reversed_shuffles script_dirs_distinct sample_run_returns).
Defined.

(** X13: the matching compares base names and ignores the extension of the
    label, but the relocation asks for [<base>.txt].  When some matched
    image has no file [<base>.txt] in the label pool, a run whose split
    returns stops with [FileNotFoundError] during the relocation. *)
Theorem split_data_missing_label permutation image_dir label_dir output_dir
    train_ratio val_ratio test_ratio (fs : filesystem) il ll a label :
  shuffles permutation ->
  NoDup (run_dirs image_dir label_dir output_dir) ->
  ratio_check train_ratio val_ratio test_ratio = true ->
  fs !! image_dir = Some il -> fs !! label_dir = Some ll ->
  split_filenames permutation (matched_of il ll).*1 (matched_of il ll).*2
    val_ratio test_ratio = Ok a ->
  label ∈ (matched_of il ll).*2 -> label ∉ ll ->
  exists fs',
    split_data permutation image_dir label_dir output_dir
      train_ratio val_ratio test_ratio fs
    = (Raise FileNotFoundError, fs').
Proof.
  intros Hperm Hdirs Hsum Hi Hl Hs Hlab Hmiss.
  rewrite split_data_checked by done.
  destruct (make_output_dirs_made output_dir fs) as (fs0 & Hmk & Hmade).
  rewrite (bind_ok _ _ _ _ _ Hmk).
  pose proof Hmade as (_ & Hk & _).
  pose proof (assign_files_eq permutation _ _ val_ratio test_ratio
                _ _ _ (Hk _ _ Hi) (Hk _ _ Hl)) as Ha.
  rewrite Hs in Ha. rewrite (bind_ok _ _ _ _ _ Ha).
  unfold bind at 1.
  destruct (relocate image_dir label_dir output_dir a fs0) as [[[]|e] fs2] eqn:Hrel.
  - exfalso. apply (relocate_inv _ _ _ Hdirs) in Hrel as (_ & _ & _ & Il & _).
    destruct (assignment_perm permutation Hperm _ _ _ _ _ Hs) as (_ & _ & Pl).
    rewrite <- Pl in Hlab. apply Il in Hlab.
    apply (in_dir_lookup _ _ _ _ (Hk _ _ Hl)) in Hlab. done.
  - apply (relocate_raise _ _ _) in Hrel as ->. eauto.
Qed.

(** A pool whose labels are [.json] files, with three images. *)
Definition json_pools : filesystem :=
  pools ["a.jpg"; "b.jpg"; "c.jpg"] ["a.json"; "b.txt"; "c.txt"].

Lemma split_data_missing_label_witness :
  shuffles reversed /\
  NoDup (run_dirs Script.image_dir Script.label_dir Script.output_dir) /\
  ratio_check default_train_ratio default_val_ratio default_test_ratio = true /\
  json_pools !! Script.image_dir = Some ["a.jpg"; "b.jpg"; "c.jpg"] /\
  json_pools !! Script.label_dir = Some ["a.json"; "b.txt"; "c.txt"] /\
  split_filenames reversed
    (matched_of ["a.jpg"; "b.jpg"; "c.jpg"] ["a.json"; "b.txt"; "c.txt"]).*1
    (matched_of ["a.jpg"; "b.jpg"; "c.jpg"] ["a.json"; "b.txt"; "c.txt"]).*2
    default_val_ratio default_test_ratio
  = Ok (Assignment ["a.jpg"] ["a.txt"] ["c.jpg"] ["c.txt"] ["b.jpg"] ["b.txt"]) /\
  "a.txt" ∈ (matched_of ["a.jpg"; "b.jpg"; "c.jpg"] ["a.json"; "b.txt"; "c.txt"]).*2 /\
  ("a.txt" ∉ ["a.json"; "b.txt"; "c.txt"]) /\
  exists fs',
    split_data reversed Script.image_dir Script.label_dir Script.output_dir
      default_train_ratio default_val_ratio default_test_ratio json_pools
    = (Raise FileNotFoundError, fs').
Proof.
  assert (H1 : ratio_check default_train_ratio default_val_ratio default_test_ratio
               = true) by (vm_compute; reflexivity).
  assert (H2 : split_filenames reversed
    (matched_of ["a.jpg"; "b.jpg"; "c.jpg"] ["a.json"; "b.txt"; "c.txt"]).*1
    (matched_of ["a.jpg"; "b.jpg"; "c.jpg"] ["a.json"; "b.txt"; "c.txt"]).*2
    default_val_ratio default_test_ratio
    = Ok (Assignment ["a.jpg"] ["a.txt"] ["c.jpg"] ["c.txt"] ["b.jpg"] ["b.txt"]))
    by (vm_compute; reflexivity).
  assert (H3 : "a.txt" ∈ (matched_of ["a.jpg"; "b.jpg"; "c.jpg"]
                                     ["a.json"; "b.txt"; "c.txt"]).*2).
  { apply (bool_decide_unpack _). vm_compute. exact I. }
  assert (H4 : "a.txt" ∉ ["a.json"; "b.txt"; "c.txt"]).
  { apply (bool_decide_unpack _). vm_compute. exact I. }
  split; [exact reversed_shuffles|]. split; [exact script_dirs_distinct|].
  split; [exact H1|]. split; [apply pools_images|]. split; [apply pools_labels|].
  split; [exact H2|]. split; [exact H3|]. split; [exact H4|].
  exact (split_data_missing_label reversed Script.image_dir Script.label_dir
           Script.output_dir default_train_ratio default_val_ratio default_test_ratio
           json_pools _ _ _ "a.txt" reversed_shuffles script_dirs_distinct H1
           (pools_images _ _) (pools_labels _ _) H2 H3 H4).
Defined.

(** X14: [move_files] into an existing directory returns exactly when the
    list names each file once and every file is in the source directory;
    a name that is missing or listed twice makes it raise. *)
Theorem move_files_returns_iff file_list source_dir target_dir (fs : filesystem) :
  source_dir ≠ target_dir -> is_dir fs target_dir ->
  (exists fs', move_files file_list source_dir target_dir fs = (Ok (), fs')) <->
  NoDup file_list /\ forall fname, fname ∈ file_list -> in_dir fs source_dir fname.
Proof.
  intros Hne Hdst. split.
  - intros (fs' & Hrun). by apply move_files_inv in Hrun as (? & ? & _).
  - intros (Hnd & Hin). by apply move_files_ok.
Qed.

Lemma move_files_returns_iff_witness :
  (Script.image_dir ≠ Script.label_dir) /\
  is_dir sample_pools Script.label_dir /\
  ((exists fs', move_files ["a.jpg"; "c.png"] Script.image_dir Script.label_dir
                  sample_pools = (Ok (), fs')) <->
   NoDup ["a.jpg"; "c.png"] /\
   forall fname, fname ∈ ["a.jpg"; "c.png"] ->
                 in_dir sample_pools Script.image_dir fname).
Proof.
  assert (H1 : Script.image_dir ≠ Script.label_dir) by done.
  assert (H2 : is_dir sample_pools Script.label_dir).
  { eexists. apply pools_labels. }
  split; [exact H1|]. split; [exact H2|].
  exact (move_files_returns_iff ["a.jpg"; "c.png"] Script.image_dir Script.label_dir
           sample_pools H1 H2).
Defined.

(** X15: the label name [<base>.txt] that [combine_data] and [split_data]
    build for an image has the base name of the image again, and the
    extension [.txt], unless the base name consists of dots only. *)
Theorem label_name_base image :
  all_dots (splitext image).1 = false ->
  splitext (label_name image) = ((splitext image).1, ".txt").
Proof. intros Hd. unfold label_name. by apply splitext_label_name. Qed.

Lemma label_name_base_witness :
  all_dots (splitext "frame.0001.jpg").1 = false /\
  splitext (label_name "frame.0001.jpg") = ((splitext "frame.0001.jpg").1, ".txt").
Proof.
  assert (H : all_dots (splitext "frame.0001.jpg").1 = false)
    by (vm_compute; reflexivity).
  split; [exact H|]. exact (label_name_base "frame.0001.jpg" H).
Defined.

Lemma validate_shuffle_split_raise n t e :
  validate_shuffle_split n t = Raise e -> e = ValueError.
Proof.
  unfold validate_shuffle_split.
  destruct (_ || _); [by intros [= <-]|].
  destruct (PyFloat.ceil _) as [c|]; cbn [of_option rbind]; [|by intros [= <-]].
  destruct (_ =? 0); [by intros [= <-] | discriminate].
Qed.

Lemma validate_sizes_raise n n_train n_test e :
  validate_sizes n n_train n_test = Raise e -> e = ValueError.
Proof.
  unfold validate_sizes.
  repeat (destruct (_ || _); [by intros [= <-]|]).
  destruct (_ <? _); [by intros [= <-] | discriminate].
Qed.

(** With a shuffle that permutes the indices, [train_test_split] raises
    nothing but [ValueError]: the indexing never leaves the lists. *)
Lemma train_test_split_raise {A B} permutation (X : list A) (y : list B) t e :
  shuffles permutation ->
  train_test_split permutation X y t = Raise e -> e = ValueError.
Proof.
  intros Hperm Hrun.
  destruct (decide (length X = length y)) as [Hlen|Hlen].
  2:{ unfold train_test_split in Hrun.
      destruct (Nat.eqb_spec (length X) (length y)); [done|].
      by injection Hrun as <-. }
  destruct (validate_shuffle_split (length X) t) as [[n_train n_test]|e1] eqn:Hv.
  2:{ unfold train_test_split in Hrun.
      rewrite Hlen, Nat.eqb_refl, <- Hlen, Hv in Hrun.
      injection Hrun as <-. by eapply validate_shuffle_split_raise. }
  destruct (validate_sizes (length X) n_train n_test) as [[a b]|e2] eqn:Hz.
  2:{ unfold train_test_split, shuffle_split in Hrun.
      rewrite Hlen, Nat.eqb_refl, <- Hlen, Hv in Hrun. cbn [negb rbind] in Hrun.
      rewrite Hz in Hrun. injection Hrun as <-. by eapply validate_sizes_raise. }
  apply validate_sizes_inv in Hz as (_ & _ & Hb & _).
  destruct (train_test_split_ok permutation Hperm X y t _ _ Hlen Hv Hb) as [s Hs].
  rewrite Hs in Hrun. discriminate.
Qed.

Lemma split_filenames_raise permutation (X y : list string) val_ratio test_ratio e :
  shuffles permutation ->
  split_filenames permutation X y val_ratio test_ratio = Raise e -> e = ValueError.
Proof.
  intros Hperm. unfold split_filenames.
  destruct (train_test_split permutation X y _) as [s1|e1] eqn:H1; cbn [rbind].
  2:{ intros [= <-]. by eapply train_test_split_raise. }
  destruct (PyFloat.div test_ratio _) as [ts|] eqn:Hd; cbn [of_option rbind].
  2:{ exfalso. unfold PyFloat.div in Hd.
      destruct (PyFloat.is_zero _) eqn:Hz; [|discriminate].
      apply (train_test_split_inv permutation Hperm) in H1
        as (_ & (? & ? & Hv & _) & _).
      unfold validate_shuffle_split in Hv.
      destruct (PyFloat.add val_ratio test_ratio) as [s|s| |s m ex];
        try discriminate; destruct s; discriminate. }
  destruct (train_test_split permutation (X_test s1) (y_test s1) ts)
    as [s2|e2] eqn:H2; cbn [rbind]; [discriminate|].
  intros [= <-]. by eapply train_test_split_raise.
Qed.

(** X16: the exceptions of [split_data].  With a shuffle that permutes the
    indices, a run that raises raises [AssertionError] (the ratios),
    [ValueError] (the split) or [FileNotFoundError] (a pool or a file to
    move); the division of the second split never raises
    [ZeroDivisionError], because the first split has refused a held-out
    fraction of 0 before, and the indexing never raises [IndexError]. *)
Theorem split_data_exceptions permutation image_dir label_dir output_dir
    train_ratio val_ratio test_ratio (fs : filesystem) e fs' :
  shuffles permutation ->
  split_data permutation image_dir label_dir output_dir
    train_ratio val_ratio test_ratio fs = (Raise e, fs') ->
  e = AssertionError \/ e = ValueError \/ e = FileNotFoundError.
Proof.
  intros Hperm. unfold split_data.
  destruct (PyFloat.eqb _ _); cbn [negb].
  2:{ intros [= <- _]. auto. }
  destruct (make_output_dirs_made output_dir fs) as (fs0 & Hmk & _).
  rewrite (bind_ok _ _ _ _ _ Hmk).
  intros Hrun. apply bind_raise_inv in Hrun as [Ha|(a & fs1 & Ha & Hrun)].
  - unfold assign_files, bind, listdir, lift in Ha.
    destruct (fs0 !! image_dir); [|injection Ha as <- _; auto].
    destruct (fs0 !! label_dir); [|injection Ha as <- _; auto].
    injection Ha as Hs _. apply (split_filenames_raise _ _ _ _ _ _ Hperm) in Hs. auto.
  - apply bind_raise_inv in Hrun as [Hrel|(? & ? & _ & Hret)]; [|discriminate].
    apply relocate_raise in Hrel. auto.
Qed.

Lemma split_data_exceptions_witness :
  shuffles reversed /\
  split_data reversed Script.image_dir Script.label_dir Script.output_dir
    default_train_ratio default_val_ratio default_test_ratio
    (pools ["a.jpg"; "b.jpg"] ["a.txt"; "b.txt"])
  = (Raise ValueError,
     (split_data reversed Script.image_dir Script.label_dir Script.output_dir
        default_train_ratio default_val_ratio default_test_ratio
        (pools ["a.jpg"; "b.jpg"] ["a.txt"; "b.txt"])).2) /\
  (ValueError = AssertionError \/ ValueError = ValueError \/
   ValueError = FileNotFoundError).
Proof.
  assert (Hrun : split_data reversed Script.image_dir Script.label_dir
                   Script.output_dir
                   default_train_ratio default_val_ratio default_test_ratio
                   (pools ["a.jpg"; "b.jpg"] ["a.txt"; "b.txt"])
                 = (Raise ValueError,
                    (split_data reversed Script.image_dir Script.label_dir
                       Script.output_dir
                       default_train_ratio default_val_ratio default_test_ratio
                       (pools ["a.jpg"; "b.jpg"] ["a.txt"; "b.txt"])).2)).
  { apply outcome_eta. vm_compute. reflexivity. }
  split; [exact reversed_shuffles|]. split; [exact Hrun|].
  exact (split_data_exceptions reversed Script.image_dir Script.label_dir
           Script.output_dir default_train_ratio default_val_ratio default_test_ratio
           _ _ _ reversed_shuffles Hrun).
Defined.
